(** * Mesh loading core of mesh_viewer_demo: a shallow embedding

    The development follows the TypeScript sources module by module:

    - [Js]              the JavaScript built-ins the loader relies on
                        (String.prototype.trim / split / startsWith, parseInt,
                        parseFloat, typed-array conversions);
    - [JsParsers]       js-parsers.ts (ASCII PLY, ASCII STL, OBJ);
    - [FormatDetector]  format-detector.ts;
    - [EmbindBridge]    embind-bridge.ts (generation table);
    - [MeshLoader]      mesh-loader.ts (loadMeshAsset, toMeshBuffers);
    - [LogEmitterM]     log-emitter.ts (bounded log buffer);
    - [SharedBufferTimeout] shared-buffer-timeout.ts (watchdog monitor);
    - [Adapter]         adapter.ts (MeshCoreAdapter.parseFile / load);
    - [Clipping]        utils/clipping.ts and slice-mesh.ts (plane construction);
    - [SliceMesh]       slice-mesh.ts (sliceMesh and its use of the WASM heap);
    - [FileId]          file-id.ts (fallback hash, extension and base name);
    - [Examples]        the concrete inputs the statements are evaluated on.

    The modules named ...Facts and ...Props hold the lemmas and theorems.

    Byte buffers and decoded text are both [string]: a Rocq [ascii] is one
    byte, and for ASCII input (every byte below 128) TextDecoder is the
    identity.  Whitespace is the ASCII part of the JavaScript class; the
    Unicode spaces that only arise from multi-byte sequences are left out.  JavaScript numbers are modelled exactly: integers produced by
    parseInt as [Z] (with NaN as [None]), floating values as rationals with
    NaN and the infinities added; binary64 rounding is not modelled. *)

From Stdlib Require Import ZArith QArith Ascii String List Lia Bool DecimalString.
From stdpp Require Import base list gmap strings.

Local Open Scope Z_scope.

(* ===================================================================== *)
(** * JavaScript built-ins                                                *)
(* ===================================================================== *)

Module Js.

(** ** Numbers *)

(** A JavaScript number holding a (possibly fractional) value. *)
Inductive number : Type :=
  | NaN : number
  | Fin : Q -> number
  | Infinity : bool -> number.   (* [true] is -Infinity *)

(** An integer-valued JavaScript number as produced by parseInt:
    [None] is NaN. *)
Definition jsint : Type := option Z.

Definition is_NaN (x : number) : bool :=
  match x with NaN => true | _ => false end.

(** ToUint32 as applied when a number[] is copied into a Uint32Array. *)
Definition ToUint32 (x : jsint) : Z :=
  match x with
  | None => 0
  | Some z => z mod 2 ^ 32
  end.

(** ** Characters *)

Definition code (c : ascii) : Z := Z.of_nat (nat_of_ascii c).

(** WhiteSpace and LineTerminator code points below 128: TAB, LF, VT, FF,
    CR and SPACE.  This is the class removed by trim() and matched by \s. *)
Definition is_ws (c : ascii) : bool :=
  let n := code c in
  ((9 <=? n) && (n <=? 13)) || (n =? 32).

Definition is_digit (c : ascii) : bool :=
  let n := code c in (48 <=? n) && (n <=? 57).

Definition digit_val (c : ascii) : Z := code c - 48.

Definition lower_char (c : ascii) : ascii :=
  let n := code c in
  if (65 <=? n) && (n <=? 90) then ascii_of_nat (Z.to_nat (n + 32)) else c.

Definition LF : ascii := ascii_of_nat 10.
Definition CR : ascii := ascii_of_nat 13.

(** ** Strings *)

Fixpoint toLowerCase (s : string) : string :=
  match s with
  | EmptyString => EmptyString
  | String c r => String (lower_char c) (toLowerCase r)
  end.

Fixpoint startsWith (s p : string) : bool :=
  match p, s with
  | EmptyString, _ => true
  | String _ _, EmptyString => false
  | String a p', String b s' => if Ascii.eqb a b then startsWith s' p' else false
  end.

(** s.includes(p) *)
Fixpoint includes (s p : string) : bool :=
  startsWith s p ||
  match s with
  | EmptyString => false
  | String _ r => includes r p
  end.

Fixpoint includes_char (s : string) (c : ascii) : bool :=
  match s with
  | EmptyString => false
  | String b r => Ascii.eqb b c || includes_char r c
  end.

Fixpoint rev_string_onto (s acc : string) : string :=
  match s with
  | EmptyString => acc
  | String c r => rev_string_onto r (String c acc)
  end.

Definition rev_string (s : string) : string := rev_string_onto s EmptyString.

Definition endsWith (s p : string) : bool :=
  startsWith (rev_string s) (rev_string p).

Fixpoint trimStart (s : string) : string :=
  match s with
  | EmptyString => EmptyString
  | String c r => if is_ws c then trimStart r else s
  end.

Definition trimEnd (s : string) : string :=
  rev_string (trimStart (rev_string s)).

Definition trim (s : string) : string := trimEnd (trimStart s).

(** s.slice(0, n) / s.substring(0, n) on strings and byte buffers. *)
Fixpoint take_string (n : nat) (s : string) : string :=
  match n, s with
  | O, _ => EmptyString
  | S _, EmptyString => EmptyString
  | S k, String c r => String c (take_string k r)
  end.

(** s.substring(n) *)
Fixpoint drop_string (n : nat) (s : string) : string :=
  match n, s with
  | O, _ => s
  | S _, EmptyString => EmptyString
  | S k, String _ r => drop_string k r
  end.

Definition is_empty (s : string) : bool :=
  match s with EmptyString => true | _ => false end.

(** Whether every byte is below 128.  On such a buffer the decoders of
    TextDecoder (utf-8 and the single-byte ones alike) are the identity:
    one character per byte, no byte order mark, no replacement. *)
Fixpoint all_ascii (s : string) : bool :=
  match s with
  | EmptyString => true
  | String c r => (code c <? 128) && all_ascii r
  end.

(** s.split(sep) for a one-character separator: never the empty list. *)
Fixpoint split_char_go (sep : ascii) (cur : string) (s : string) : list string :=
  match s with
  | EmptyString => [rev_string cur]
  | String c r =>
      if Ascii.eqb c sep then rev_string cur :: split_char_go sep EmptyString r
      else split_char_go sep (String c cur) r
  end.

Definition split_char (sep : ascii) (s : string) : list string :=
  split_char_go sep EmptyString s.

(** s.split(/\s+/): the pieces between maximal whitespace runs. *)
Fixpoint split_ws_go (in_ws : bool) (cur : string) (s : string) : list string :=
  match s with
  | EmptyString => [rev_string cur]
  | String c r =>
      if is_ws c then
        if in_ws then split_ws_go true cur r
        else rev_string cur :: split_ws_go true EmptyString r
      else split_ws_go false (String c cur) r
  end.

Definition split_ws (s : string) : list string :=
  split_ws_go false EmptyString s.

(** s.indexOf(c) as an option: [None] is -1. *)
Fixpoint indexOf_char (s : string) (c : ascii) : option nat :=
  match s with
  | EmptyString => None
  | String b r =>
      if Ascii.eqb b c then Some O
      else match indexOf_char r c with Some i => Some (S i) | None => None end
  end.

(** ** parseInt(s, 10) *)

Fixpoint digits_prefix (s : string) (acc : Z) (seen : bool) : option Z :=
  match s with
  | String c r =>
      if is_digit c then digits_prefix r (10 * acc + digit_val c) true
      else if seen then Some acc else None
  | EmptyString => if seen then Some acc else None
  end.

Definition parseInt (s : string) : jsint :=
  match trimStart s with
  | String "-" r => option_map Z.opp (digits_prefix r 0 false)
  | String "+" r => digits_prefix r 0 false
  | t => digits_prefix t 0 false
  end.

(** parseInt(parts[i], 10) where parts[i] may be undefined. *)
Definition parseInt_at (parts : list string) (i : nat) : jsint :=
  match nth_error parts i with
  | Some s => parseInt s
  | None => None
  end.

(** ** parseFloat(s) *)

(** Longest run of digits: value, number of digits, rest. *)
Fixpoint scan_digits (s : string) (acc : Z) (n : Z) : Z * Z * string :=
  match s with
  | String c r =>
      if is_digit c then scan_digits r (10 * acc + digit_val c) (n + 1)
      else (acc, n, s)
  | EmptyString => (acc, n, s)
  end.

(** Optional exponent part: e or E, optional sign, at least one digit. *)
Definition scan_exponent (s : string) : Z :=
  match s with
  | String c r =>
      if Ascii.eqb (lower_char c) "e" then
        match r with
        | String "-" r' =>
            let '(e, n, _) := scan_digits r' 0 0 in if 0 <? n then - e else 0
        | String "+" r' =>
            let '(e, n, _) := scan_digits r' 0 0 in if 0 <? n then e else 0
        | _ =>
            let '(e, n, _) := scan_digits r 0 0 in if 0 <? n then e else 0
        end
      else 0
  | EmptyString => 0
  end.

(** m * 10^e as a rational. *)
Definition scale10 (m e : Z) : Q :=
  if 0 <=? e then inject_Z (m * 10 ^ e)
  else Qmake m (Z.to_pos (10 ^ (- e))).

(** The unsigned part of a StrDecimalLiteral prefix. *)
Definition parse_unsigned (s : string) : number :=
  if startsWith s "Infinity" then Infinity false
  else
    let '(ip, ni, r1) := scan_digits s 0 0 in
    match r1 with
    | String "." r2 =>
        let '(fp, nf, r3) := scan_digits r2 0 0 in
        if (0 <? ni) || (0 <? nf)
        then Fin (scale10 (ip * 10 ^ nf + fp) (scan_exponent r3 - nf))
        else NaN
    | _ =>
        if 0 <? ni then Fin (scale10 ip (scan_exponent r1)) else NaN
    end.

Definition negate (x : number) : number :=
  match x with
  | NaN => NaN
  | Fin q => Fin (- q)
  | Infinity b => Infinity (negb b)
  end.

Definition parseFloat (s : string) : number :=
  match trimStart s with
  | String "-" r => negate (parse_unsigned r)
  | String "+" r => parse_unsigned r
  | t => parse_unsigned t
  end.


(** parseFloat(parts[i]) where parts[i] may be undefined. *)
Definition parseFloat_at (parts : list string) (i : nat) : number :=
  match nth_error parts i with
  | Some s => parseFloat s
  | None => NaN
  end.

(** DataView.getUint32(off, true): little-endian read, [None] when the four
    bytes are not all inside the buffer (a RangeError in JavaScript). *)
Definition getUint32_le (data : string) (off : nat) : option Z :=
  match list_ascii_of_string (drop_string off data) with
  | b0 :: b1 :: b2 :: b3 :: _ =>
      Some (code b0 + 256 * code b1 + 65536 * code b2 + 16777216 * code b3)
  | _ => None
  end.

(** ** Exceptions *)

(** The outcome of evaluating code that may throw: a value, or the message
    of the thrown Error. *)
Inductive completion (A : Type) : Type :=
  | Normal : A -> completion A
  | Throw : string -> completion A.
Arguments Normal {A} _.
Arguments Throw {A} _.

Definition is_throw {A : Type} (c : completion A) : bool :=
  match c with Throw _ => true | Normal _ => false end.

(** new Float64Array(n): NaN gives the empty array, a length that is
    negative or above 2^53 - 1 throws a RangeError (ToIndex), otherwise n
    zeroes.  Allocation failures for lengths the engine cannot serve are
    not modelled. *)
Definition invalid_length (z : Z) : bool := (z <? 0) || (2 ^ 53 - 1 <? z).

Definition new_Float64Array (n : jsint) : completion (list number) :=
  match n with
  | None => Normal []
  | Some z =>
      if invalid_length z then Throw "Invalid typed array length"
      else Normal (replicate (Z.to_nat z) (Fin 0))
  end.

(** new Uint32Array(numbers) *)
Definition new_Uint32Array (xs : list jsint) : list Z := map ToUint32 xs.

End Js.

(* ===================================================================== *)
(** * js-parsers.ts                                                       *)
(* ===================================================================== *)

Module JsParsers.
Import Js.

Record JsParseResult : Type := mkJsParseResult {
  vertices : list number;        (* Float64Array *)
  indices : list Z;              (* Uint32Array *)
  vertexCount : jsint;
  faceCount : Z
}.

Inductive PlyFormat : Type :=
  | fmt_ascii | fmt_binary_little_endian | fmt_binary_big_endian.

Record PlyHeader : Type := mkPlyHeader {
  format : PlyFormat;
  hVertexCount : jsint;
  hFaceCount : jsint;
  headerEndOffset : nat
}.

(** .replace(/\r$/, '') *)
Definition strip_trailing_cr (s : string) : string :=
  match rev_string s with
  | String c r => if Ascii.eqb c CR then rev_string r else s
  | EmptyString => s
  end.

Definition format_of_token (tok : option string) : PlyFormat :=
  match tok with
  | Some t =>
      if String.eqb t "binary_little_endian" then fmt_binary_little_endian
      else if String.eqb t "binary_big_endian" then fmt_binary_big_endian
      else fmt_ascii
  | None => fmt_ascii
  end.

(** The [for (const line of lines)] loop of parsePlyHeader; reaching
    end_header is the [break]. *)
Fixpoint parsePlyHeader_loop (lines : list string) (offset : nat) (h : PlyHeader)
  : PlyHeader :=
  match lines with
  | [] => h
  | line :: rest =>
      let lineWithNewline := (String.length line + 1)%nat in
      let trimmed := strip_trailing_cr (trim line) in
      if startsWith trimmed "format " then
        let parts := split_ws trimmed in
        parsePlyHeader_loop rest (offset + lineWithNewline)%nat
          (mkPlyHeader (format_of_token (nth_error parts 1))
                       (hVertexCount h) (hFaceCount h) (headerEndOffset h))
      else if startsWith trimmed "element vertex " then
        parsePlyHeader_loop rest (offset + lineWithNewline)%nat
          (mkPlyHeader (format h) (parseInt_at (split_ws trimmed) 2)
                       (hFaceCount h) (headerEndOffset h))
      else if startsWith trimmed "element face " then
        parsePlyHeader_loop rest (offset + lineWithNewline)%nat
          (mkPlyHeader (format h) (hVertexCount h)
                       (parseInt_at (split_ws trimmed) 2) (headerEndOffset h))
      else if String.eqb trimmed "end_header" then
        mkPlyHeader (format h) (hVertexCount h) (hFaceCount h)
                    (offset + String.length line + 1)%nat
      else parsePlyHeader_loop rest (offset + lineWithNewline)%nat h
  end.

Definition parsePlyHeader (data : string) : PlyHeader :=
  let maxHeaderSize := Nat.min 4096 (String.length data) in
  let headerText := take_string maxHeaderSize data in
  parsePlyHeader_loop (split_char LF headerText) 0%nat
    (mkPlyHeader fmt_ascii (Some 0) (Some 0) 0%nat).

(** The vertex loop of parseAsciiPly: blank lines are skipped without
    counting ([i--; continue]), every other line fills three slots. *)
Fixpoint ply_vertex_loop (lines : list string) (i : nat) (n : Z)
    (vs : list number) : list number * list string :=
  match lines with
  | [] => (vs, [])
  | l :: rest =>
      if Z.of_nat i <? n then
        let line := trim l in
        if is_empty line then ply_vertex_loop rest i n vs
        else
          let parts := split_ws line in
          ply_vertex_loop rest (S i) n
            (<[(i * 3 + 2)%nat := parseFloat_at parts 2]>
               (<[(i * 3 + 1)%nat := parseFloat_at parts 1]>
                  (<[(i * 3)%nat := parseFloat_at parts 0]> vs)))
      else (vs, lines)
  end.

(** Fan triangulation of one PLY face line: for j = 2 .. count-1 push
    first, parts[j], parts[j+1]. *)
Definition ply_fan (parts : list string) (count : Z) : list jsint :=
  let first := parseInt_at parts 1 in
  flat_map (fun j => [first; parseInt_at parts j; parseInt_at parts (S j)])
           (seq 2 (Z.to_nat (count - 2))).

Definition ply_face_line (parts : list string) : list jsint :=
  match parseInt_at parts 0 with
  | Some count => if 3 <=? count then ply_fan parts count else []
  | None => []
  end.

Fixpoint ply_face_loop (lines : list string) (i : nat) (n : Z)
    (tempIndices : list jsint) : list jsint :=
  match lines with
  | [] => tempIndices
  | l :: rest =>
      if Z.of_nat i <? n then
        let line := trim l in
        if is_empty line then ply_face_loop rest i n tempIndices
        else ply_face_loop rest (S i) n
               (tempIndices ++ ply_face_line (split_ws line))
      else tempIndices
  end.

(** A loop bound that is NaN makes [i < bound] false at once. *)
Definition loop_bound (n : jsint) : Z :=
  match n with Some z => z | None => 0 end.

Definition parseAsciiPly (data : string) : completion JsParseResult :=
  let text := data in
  let header := parsePlyHeader data in
  let dataText := drop_string (headerEndOffset header) text in
  let lines := split_char LF dataText in
  match new_Float64Array (option_map (fun n => n * 3) (hVertexCount header)) with
  | Throw e => Throw e
  | Normal vertices0 =>
      let '(vertices, rest) :=
        ply_vertex_loop lines 0%nat (loop_bound (hVertexCount header)) vertices0 in
      let tempIndices :=
        ply_face_loop rest 0%nat (loop_bound (hFaceCount header)) [] in
      Normal (mkJsParseResult vertices (new_Uint32Array tempIndices)
                (hVertexCount header) (Z.of_nat (length tempIndices) / 3))
  end.

(** isAsciiStl *)
Definition isAsciiStl (data : string) : bool :=
  if (String.length data <? 84)%nat then true
  else
    let header := take_string (Nat.min 256 (String.length data)) data in
    if negb (startsWith (toLowerCase header) "solid") then false
    else if negb (includes_char header LF) then false
    else
      match getUint32_le data 80 with
      | Some triangleCount =>
          let expectedSize := 84 + triangleCount * 50 in
          if expectedSize =? Z.of_nat (String.length data) then false else true
      | None => true
      end.

(** State of the parseAsciiStl loop. *)
Record StlAcc : Type := mkStlAcc {
  stl_tempVertices : list number;
  stl_tempIndices : list jsint;
  stl_vertexIndex : Z
}.

Definition stl_step (acc : StlAcc) (line : string) : StlAcc :=
  let trimmed := trim line in
  if startsWith trimmed "vertex " then
    let parts := split_ws trimmed in
    mkStlAcc (stl_tempVertices acc ++
                [parseFloat_at parts 1; parseFloat_at parts 2; parseFloat_at parts 3])
             (stl_tempIndices acc) (stl_vertexIndex acc)
  else if String.eqb trimmed "endfacet" then
    mkStlAcc (stl_tempVertices acc)
             (stl_tempIndices acc ++
                [Some (stl_vertexIndex acc); Some (stl_vertexIndex acc + 1);
                 Some (stl_vertexIndex acc + 2)])
             (stl_vertexIndex acc + 3)
  else acc.

(** The two kinds of line the loop reacts to, and how many of each a
    text has. *)
Definition is_vertex_line (line : string) : bool :=
  startsWith (trim line) "vertex ".

Definition is_endfacet_line (line : string) : bool :=
  String.eqb (trim line) "endfacet".

Fixpoint count_where {A : Type} (f : A -> bool) (l : list A) : nat :=
  match l with
  | [] => O
  | a :: r => if f a then S (count_where f r) else count_where f r
  end.

Definition vertex_lines (data : string) : nat :=
  count_where is_vertex_line (split_char LF data).

Definition endfacet_lines (data : string) : nat :=
  count_where is_endfacet_line (split_char LF data).

(** The index triples start, start+1, start+2 of [n] consecutive facets. *)
Fixpoint facet_indices (start : Z) (n : nat) : list jsint :=
  match n with
  | O => []
  | S k => Some start :: Some (start + 1) :: Some (start + 2)
             :: facet_indices (start + 3) k
  end.

Definition parseAsciiStl (data : string) : JsParseResult :=
  let text := data in
  let lines := split_char LF text in
  let acc := fold_left stl_step lines (mkStlAcc [] [] 0) in
  mkJsParseResult (stl_tempVertices acc)
                  (new_Uint32Array (stl_tempIndices acc))
                  (Some (Z.of_nat (length (stl_tempVertices acc)) / 3))
                  (Z.of_nat (length (stl_tempIndices acc)) / 3).

(** State of the parseObj loop. *)
Record ObjAcc : Type := mkObjAcc {
  obj_tempVertices : list number;
  obj_tempIndices : list jsint
}.

(** One corner of an [f] line: the text before the first slash, parsed
    as an integer, made absolute when negative, then made 0-based. *)
Definition obj_corner (poolLength : nat) (vertexSpec : string) : jsint :=
  let indexStr :=
    match indexOf_char vertexSpec "/" with
    | Some slashIdx => take_string slashIdx vertexSpec
    | None => vertexSpec
    end in
  match parseInt indexStr with
  | Some idx =>
      let idx' := if idx <? 0 then Z.of_nat poolLength / 3 + idx + 1 else idx in
      Some (idx' - 1)
  | None => None
  end.

(** Fan triangulation: for i = 1 .. length-2 push f[0], f[i], f[i+1]. *)
Definition obj_fan (faceIndices : list jsint) : list jsint :=
  flat_map (fun i => [nth 0 faceIndices None; nth i faceIndices None;
                      nth (S i) faceIndices None])
           (seq 1 (length faceIndices - 2)).

Definition obj_step (acc : ObjAcc) (line : string) : ObjAcc :=
  let trimmed := trim line in
  if is_empty trimmed || startsWith trimmed "#" then acc
  else
    let parts := split_ws trimmed in
    match parts with
    | prefix :: corners =>
        if String.eqb prefix "v" then
          mkObjAcc (obj_tempVertices acc ++
                      [parseFloat_at parts 1; parseFloat_at parts 2;
                       parseFloat_at parts 3])
                   (obj_tempIndices acc)
        else if String.eqb prefix "f" then
          let faceIndices :=
            map (obj_corner (length (obj_tempVertices acc))) corners in
          mkObjAcc (obj_tempVertices acc)
                   (obj_tempIndices acc ++ obj_fan faceIndices)
        else acc
    | [] => acc
    end.

Definition parseObj (data : string) : JsParseResult :=
  let text := data in
  let lines := split_char LF text in
  let acc := fold_left obj_step lines (mkObjAcc [] []) in
  mkJsParseResult (obj_tempVertices acc)
                  (new_Uint32Array (obj_tempIndices acc))
                  (Some (Z.of_nat (length (obj_tempVertices acc)) / 3))
                  (Z.of_nat (length (obj_tempIndices acc)) / 3).

(** How parseObj classifies a line: whether it adds a vertex, and how many
    triangles it adds (a face line with n corners adds n - 2). *)
Definition obj_is_vertex_line (line : string) : bool :=
  let trimmed := trim line in
  if is_empty trimmed || startsWith trimmed "#" then false
  else match split_ws trimmed with
       | prefix :: _ => String.eqb prefix "v"
       | [] => false
       end.

Definition obj_line_triangles (line : string) : nat :=
  let trimmed := trim line in
  if is_empty trimmed || startsWith trimmed "#" then O
  else match split_ws trimmed with
       | prefix :: corners =>
           if String.eqb prefix "v" then O
           else if String.eqb prefix "f" then (length corners - 2)%nat
           else O
       | [] => O
       end.

Definition sum_nat (l : list nat) : nat := fold_right Nat.add O l.

(** The lines of the data section of a PLY text, as parseAsciiPly splits
    them, and the lines among them that are not blank. *)
Definition ply_data_lines (data : string) : list string :=
  split_char LF (drop_string (headerEndOffset (parsePlyHeader data)) data).

Definition is_nonblank_line (line : string) : bool := negb (is_empty (trim line)).

(** The line that ends a PLY header, as parsePlyHeader recognises it, and
    a text made of lines that each end in a line feed. *)
Definition is_end_header_line (line : string) : bool :=
  String.eqb (strip_trailing_cr (trim line)) "end_header".

Fixpoint join_lines (lines : list string) : string :=
  match lines with
  | [] => EmptyString
  | l :: rest => l +:+ String LF (join_lines rest)
  end.



End JsParsers.

(* ===================================================================== *)
(** * types.ts: shared declarations                                       *)
(* ===================================================================== *)

Module Types.

(** The format tags used throughout the sources.  [stl] is the ASCII STL
    variant (the spec's stl_ascii). *)
Inductive MeshFormat : Type :=
  | stl | stl_binary | obj | ply_ascii | ply_binary_le | ply_binary_be.

Definition MeshFormat_eqb (a b : MeshFormat) : bool :=
  match a, b with
  | stl, stl | stl_binary, stl_binary | obj, obj
  | ply_ascii, ply_ascii | ply_binary_le, ply_binary_le
  | ply_binary_be, ply_binary_be => true
  | _, _ => false
  end.

(** Modelled from the spec: the constant MAX_MESH_FILE_BYTES of types.ts,
    which is not part of the sources at hand (default 629,145,600). *)
Definition MAX_MESH_FILE_BYTES : Z := 629145600.

(** Modelled from the spec: the constant MAX_TRIANGLE_COUNT of types.ts,
    which is not part of the sources at hand (default 30,000,000). *)
Definition MAX_TRIANGLE_COUNT : Z := 30000000.

Inductive AdapterErrorCode : Type :=
  | E_EMPTY_FILE | E_FILE_TOO_LARGE | E_FILE_READ_FAILED | E_PARSE_FAILED
  | E_UNSUPPORTED_FORMAT | E_MEMORY_LIMIT | E_TOO_MANY_TRIANGLES.

Inductive LogLevel : Type := DEBUG | INFO | WARN | ERROR.

(** The two decode strictness tiers. *)
Inductive ParserMode : Type := fast | exact.

(** A log event: level, message and the [op] / [code] entries of its
    context (timestamps and file ids are left out). *)
Record LogEvent : Type := mkLogEvent {
  level : LogLevel;
  message : string;
  op : option string;
  ecode : option AdapterErrorCode
}.

(** A browser File: name, MIME type and content; [size] is the length of
    the content. *)
Record File : Type := mkFile {
  file_name : string;
  file_type : string;
  file_bytes : string
}.

Definition file_size (f : File) : Z := Z.of_nat (String.length (file_bytes f)).

End Types.

(* ===================================================================== *)
(** * format-detector.ts                                                  *)
(* ===================================================================== *)

Module FormatDetector.
Import Js Types.

Inductive DetectionMethod : Type := magic | extension | mime | unknown.

Record FormatDetectionResult : Type := mkDetection {
  format : option MeshFormat;
  method : DetectionMethod;
  mismatch : bool;
  expectedFormat : option MeshFormat
}.

Definition detectPlySubformat (header : string) : MeshFormat :=
  let lowerText := toLowerCase header in
  if includes lowerText "format binary_little_endian" then ply_binary_le
  else if includes lowerText "format binary_big_endian" then ply_binary_be
  else ply_ascii.

(** header[0..2] is 'ply' and header[3] is LF or CR. *)
Definition has_ply_magic (header : string) : bool :=
  match header with
  | String b0 (String b1 (String b2 (String b3 _))) =>
      (code b0 =? 112) && (code b1 =? 108) && (code b2 =? 121)
      && ((code b3 =? 10) || (code b3 =? 13))
  | _ => false
  end.

Definition detectByMagicBytes (header : string) : option MeshFormat :=
  if (String.length header <? 4)%nat then None
  else if has_ply_magic header then Some (detectPlySubformat header)
  else
    let firstTwo := take_string 2 header in
    if String.eqb firstTwo "v " || String.eqb firstTwo "# " then Some obj
    else
      let first5 := toLowerCase (take_string 5 header) in
      if String.eqb first5 "solid" && includes_char (take_string 80 header) LF
      then Some stl
      else if (84 <=? String.length header)%nat then
        match getUint32_le header 80 with
        | Some triangleCount =>
            if (0 <? triangleCount) && (triangleCount <? 100000000)
               && negb (String.eqb first5 "solid")
            then Some stl_binary else None
        | None => None
        end
      else None.

(** fileName.split('.').pop()?.toLowerCase() *)
Definition extension_of (fileName : string) : string :=
  toLowerCase (List.last (split_char "." fileName) EmptyString).

Definition detectByExtension (fileName : string) : option MeshFormat :=
  let ext := extension_of fileName in
  if String.eqb ext "stl" then Some stl
  else if String.eqb ext "obj" then Some obj
  else if String.eqb ext "ply" then Some ply_ascii
  else None.

Definition detectByMime (mimeType : string) : option MeshFormat :=
  let lower := toLowerCase mimeType in
  if includes lower "stl" || String.eqb lower "model/stl" then Some stl
  else if includes lower "obj" || String.eqb lower "model/obj" then Some obj
  else if includes lower "ply" then Some ply_ascii
  else None.

Inductive Family : Type := fam_stl | fam_ply | fam_obj.

Definition family (f : MeshFormat) : Family :=
  match f with
  | stl | stl_binary => fam_stl
  | ply_ascii | ply_binary_le | ply_binary_be => fam_ply
  | obj => fam_obj
  end.

Definition isSameFormatFamily (a b : MeshFormat) : bool :=
  match family a, family b with
  | fam_stl, fam_stl | fam_ply, fam_ply | fam_obj, fam_obj => true
  | _, _ => false
  end.

(** detectMeshFormat on a file whose first bytes can be read (a failing
    read, caught by the source, falls through to the extension and MIME
    steps and is not modelled). *)
Definition detectMeshFormat (file : File) : FormatDetectionResult :=
  let extensionFormat := detectByExtension (file_name file) in
  let headerSize := Nat.min 256 (String.length (file_bytes file)) in
  let header := take_string headerSize (file_bytes file) in
  match detectByMagicBytes header with
  | Some magicFormat =>
      match extensionFormat with
      | Some ef =>
          if negb (isSameFormatFamily ef magicFormat)
          then mkDetection (Some magicFormat) magic true (Some ef)
          else mkDetection (Some magicFormat) magic false None
      | None => mkDetection (Some magicFormat) magic false None
      end
  | None =>
      match extensionFormat with
      | Some ef => mkDetection (Some ef) extension false None
      | None =>
          if negb (is_empty (file_type file)) then
            match detectByMime (file_type file) with
            | Some mf => mkDetection (Some mf) mime false None
            | None => mkDetection None unknown false None
            end
          else mkDetection None unknown false None
      end
  end.

Definition isSupportedFormat (format : option MeshFormat) : bool :=
  match format with Some _ => true | None => false end.

End FormatDetector.

(* ===================================================================== *)
(** * embind-bridge.ts                                                    *)
(* ===================================================================== *)

Module EmbindBridge.
Import Js Types.

Record EmbindParseResult : Type := mkEmbindParseResult {
  success : bool;
  error : string;
  r_vertices : option (list number);
  r_indices : option (list Z);
  r_normals : option (list number)
}.

Record PendingBuffers : Type := mkPendingBuffers {
  p_generation : Z;
  p_vertices : list number;
  p_indices : list Z;
  p_normals : option (list number)
}.

(** The module-level variables [generationCounter] and
    [pendingBuffersMap]. *)
Record EmbindState : Type := mkEmbindState {
  generationCounter : Z;
  pendingBuffersMap : gmap Z PendingBuffers
}.

Definition initial : EmbindState := mkEmbindState 0 ∅.

Record MeshBufferPointers : Type := mkPointers {
  vertexPtr : Z;
  vertexCount : Z;
  indexPtr : Z;
  indexCount : Z;
  normalPtr : option Z;
  normalCount : option Z;
  generation : Z
}.

Definition filenameMap (format : MeshFormat) : string :=
  match format with
  | stl | stl_binary => "model.stl"
  | obj => "model.obj"
  | ply_ascii | ply_binary_le | ply_binary_be => "model.ply"
  end.

Section Bridge.

(** The foreign decoder entry point [module.parseMeshFromPointer], seen as
    a function of the copied-in bytes and the file name. *)
Variable parseMeshFromPointer : string -> string -> EmbindParseResult.

(** createEmbindBridge(module).parseMesh *)
Definition parseMesh (data : string) (format : MeshFormat) (st : EmbindState)
  : completion MeshBufferPointers * EmbindState :=
  let filename := filenameMap format in
  let result := parseMeshFromPointer data filename in
  if negb (success result) then
    (Throw (if is_empty (error result) then "Mesh parsing failed" else error result),
     st)
  else
    let generation := generationCounter st + 1 in
    let vertices := default [] (r_vertices result) in
    let indices := default [] (r_indices result) in
    let normals := r_normals result in
    (Normal (mkPointers 0 (Z.of_nat (length vertices)) 0 (Z.of_nat (length indices))
               (match normals with Some _ => Some 0 | None => None end)
               (option_map (fun n => Z.of_nat (length n)) normals)
               generation),
     mkEmbindState generation
       (<[generation := mkPendingBuffers generation vertices indices normals]>
          (pendingBuffersMap st))).

End Bridge.

(** createEmbindBridge(module).releaseBuffers *)
Definition releaseBuffers (generation : Z) (st : EmbindState) : EmbindState :=
  mkEmbindState (generationCounter st) (delete generation (pendingBuffersMap st)).

Definition getBuffersForGeneration (generation : Z) (st : EmbindState)
  : option PendingBuffers :=
  pendingBuffersMap st !! generation.

(** The states the module can be in: the initial state, and what a call
    of parseMesh (with any foreign decoder behind it) or of releaseBuffers
    makes of a state it can be in. *)
Inductive reachable : EmbindState -> Prop :=
  | reach_initial : reachable initial
  | reach_parse (decoder : string -> string -> EmbindParseResult)
      (data : string) (format : MeshFormat) (st : EmbindState) :
      reachable st -> reachable (snd (parseMesh decoder data format st))
  | reach_release (generation : Z) (st : EmbindState) :
      reachable st -> reachable (releaseBuffers generation st).

(** Every registered generation has been handed out: it is positive and
    not above the counter. *)
Definition table_bounded (st : EmbindState) : Prop :=
  0 <= generationCounter st /\
  forall g b, pendingBuffersMap st !! g = Some b -> 0 < g <= generationCounter st.

End EmbindBridge.

(* ===================================================================== *)
(** * mesh-loader.ts                                                      *)
(* ===================================================================== *)

Module MeshLoader.
Import Js Types.
Import EmbindBridge (MeshBufferPointers, PendingBuffers, EmbindState).

(** The typed-array views of a decoded mesh. *)
Record Views : Type := mkViews {
  v_vertex : list number;
  v_index : list Z;
  v_normal : option (list number)
}.

(** The [MeshCoreBridge] interface, acting on a world [W] that also holds
    the module-level buffer cache of embind-bridge.ts.  [legacyViews] is
    the construction of typed-array views over [bridge.memory]; it throws
    a RangeError when the pointers do not fit the memory. *)
Class MeshCoreBridge (W : Type) : Type := {
  parseMesh : string -> MeshFormat -> W -> completion MeshBufferPointers * W;
  releaseBuffers : Z -> W -> W;
  legacyViews : W -> MeshBufferPointers -> completion Views;
  getBuffersForGeneration : Z -> W -> option PendingBuffers
}.

(** A MeshBuffers object.  The closure variable [released] and the kind of
    release hook (toJsBuffers or toMeshBuffers) are fields. *)
Record MeshBuffers : Type := mkMeshBuffers {
  vertexView : list number;
  indexView : list Z;
  normalView : option (list number);
  generation : Z;
  released : bool;
  bridged : bool
}.

Record MeshStats : Type := mkMeshStats {
  vertices : Z;
  triangles : Z
}.


Record MeshAsset : Type := mkMeshAsset {
  fileName : string;
  fileSizeBytes : Z;
  format : MeshFormat;
  buffers : MeshBuffers;
  stats : option MeshStats
}.

Record AdapterMetrics : Type := mkMetrics {
  vertexCount : Z;
  triangleCount : Z;
  parserMode : ParserMode;
  fallbackCount : Z;
  bytesRead : Z
}.

Record AdapterError : Type := mkAdapterError {
  code : AdapterErrorCode;
  emessage : string
}.

Inductive MeshLoadResult : Type :=
  | success (asset : MeshAsset) (metrics : AdapterMetrics) (logs : list LogEvent)
  | error (err : AdapterError) (metrics : AdapterMetrics) (logs : list LogEvent).

(** A Blob with an optional name, its reported size and the outcome of
    reading it. *)
Record Blob : Type := mkBlob {
  name : option string;
  size : Z;
  content : completion string
}.

Record MeshLoaderOptions : Type := mkOptions {
  formatHint : option MeshFormat;
  statsCalculator : option (MeshBuffers -> option MeshStats);
  maxFileBytes : option Z;
  maxTriangleCount : option Z
}.

Inductive Parser : Type := js | wasm.

Record ParseStrategy : Type := mkStrategy {
  parser : Parser;
  sformat : MeshFormat
}.

(** fileName.toLowerCase().split('.').pop() ?? '' *)
Definition fileExtension (fileName : string) : string :=
  List.last (split_char "." (toLowerCase fileName)) EmptyString.

Definition determineParseStrategy (data : string) (hintFormat : MeshFormat)
    (fileName : string) : ParseStrategy :=
  let ext := fileExtension fileName in
  if String.eqb ext "ply" then
    match JsParsers.format (JsParsers.parsePlyHeader data) with
    | JsParsers.fmt_ascii => mkStrategy js ply_ascii
    | JsParsers.fmt_binary_little_endian => mkStrategy wasm ply_binary_le
    | JsParsers.fmt_binary_big_endian => mkStrategy wasm ply_binary_be
    end
  else if String.eqb ext "stl" then
    if JsParsers.isAsciiStl data then mkStrategy js stl
    else mkStrategy wasm stl_binary
  else if String.eqb ext "obj" then mkStrategy js obj
  else mkStrategy wasm hintFormat.

Definition format_name (f : MeshFormat) : string :=
  match f with
  | stl => "stl" | stl_binary => "stl_binary" | obj => "obj"
  | ply_ascii => "ply_ascii" | ply_binary_le => "ply_binary_le"
  | ply_binary_be => "ply_binary_be"
  end.

Definition parseWithJs (data : string) (format : MeshFormat)
  : completion JsParsers.JsParseResult :=
  match format with
  | ply_ascii => JsParsers.parseAsciiPly data
  | stl => Normal (JsParsers.parseAsciiStl data)
  | obj => Normal (JsParsers.parseObj data)
  | _ => Throw ("JS parser does not support format: " +:+ format_name format)
  end.

Definition toJsBuffers (result : JsParsers.JsParseResult) : MeshBuffers :=
  mkMeshBuffers (JsParsers.vertices result) (JsParsers.indices result) None
                (-1) false false.

Definition inferFormat (fileName : string) : option MeshFormat :=
  let lower := toLowerCase fileName in
  if endsWith lower ".obj" then Some obj
  else if endsWith lower ".stl" then Some stl
  else if endsWith lower ".ply" then Some ply_ascii
  else None.

(** options.formatHint ?? inferFormat(fileName) *)
Definition resolveFormat (options : MeshLoaderOptions) (fileName : string)
  : option MeshFormat :=
  match formatHint options with
  | Some f => Some f
  | None => inferFormat fileName
  end.

Definition buildErrorResult (c : AdapterErrorCode) (msg : string)
    (metrics : AdapterMetrics) (logs : list LogEvent) : MeshLoadResult :=
  error (mkAdapterError c msg) metrics logs.

Section Loader.

Context {W : Type} {bridge : MeshCoreBridge W}.

Definition toMeshBuffers (pointers : MeshBufferPointers) (w : W)
  : completion MeshBuffers :=
  match getBuffersForGeneration (EmbindBridge.generation pointers) w with
  | Some cached =>
      Normal (mkMeshBuffers (EmbindBridge.p_vertices cached)
                (EmbindBridge.p_indices cached) (EmbindBridge.p_normals cached)
                (EmbindBridge.generation pointers) false true)
  | None =>
      match legacyViews w pointers with
      | Normal v =>
          Normal (mkMeshBuffers (v_vertex v) (v_index v) (v_normal v)
                    (EmbindBridge.generation pointers) false true)
      | Throw e => Throw e
      end
  end.

(** buffers.release() *)
Definition release (b : MeshBuffers) (w : W) : MeshBuffers * W :=
  if bridged b then
    if released b then (b, w)
    else (mkMeshBuffers (vertexView b) (indexView b) (normalView b)
            (generation b) true true,
          releaseBuffers (generation b) w)
  else (mkMeshBuffers (vertexView b) (indexView b) (normalView b)
          (generation b) true false, w).

(** Calling release [n] times in a row. *)
Fixpoint release_n (n : nat) (b : MeshBuffers) (w : W) : MeshBuffers * W :=
  match n with
  | O => (b, w)
  | S k => let '(b', w') := release b w in release_n k b' w'
  end.

Definition loadMeshAsset (file : Blob) (options : MeshLoaderOptions) (w : W)
  : completion MeshLoadResult * W :=
  let fileName := default "unnamed.mesh" (name file) in
  let fileSizeBytes := size file in
  let guardBytes := default MAX_MESH_FILE_BYTES (maxFileBytes options) in
  let guardTriangles := default MAX_TRIANGLE_COUNT (maxTriangleCount options) in
  let buildMetrics v t := mkMetrics v t fast 0 fileSizeBytes in
  let logs0 :=
    [mkLogEvent DEBUG ("Starting mesh load: " +:+ fileName) (Some "load_start") None] in
  if fileSizeBytes <=? 0 then
    (Normal (buildErrorResult E_EMPTY_FILE "Cannot load empty file." (buildMetrics 0 0)
       (logs0 ++ [mkLogEvent ERROR "Cannot load empty file." None (Some E_EMPTY_FILE)])), w)
  else if guardBytes <? fileSizeBytes then
    (Normal (buildErrorResult E_FILE_TOO_LARGE "Asset size exceeds allowed limit."
       (buildMetrics 0 0)
       (logs0 ++ [mkLogEvent ERROR "Asset size exceeds allowed limit." None
                    (Some E_FILE_TOO_LARGE)])), w)
  else
  match resolveFormat options fileName with
  | None =>
      let msg := "Unrecognized file extension: " +:+ fileName in
      (Normal (buildErrorResult E_UNSUPPORTED_FORMAT msg (buildMetrics 0 0)
         (logs0 ++ [mkLogEvent ERROR msg None (Some E_UNSUPPORTED_FORMAT)])), w)
  | Some format =>
  match content file with
  | Throw e =>
      let msg := "Failed to read file: " +:+ e in
      (Normal (buildErrorResult E_FILE_READ_FAILED msg (buildMetrics 0 0)
         (logs0 ++ [mkLogEvent ERROR msg None (Some E_FILE_READ_FAILED)])), w)
  | Normal arrayBuffer =>
  let parseStrategy := determineParseStrategy arrayBuffer format fileName in
  let logs1 := logs0 ++
    [mkLogEvent DEBUG "Parser strategy determined" (Some "detect_format") None] in
  let actualFormat := sformat parseStrategy in
  let finish (buffers : MeshBuffers) (vertexCount triangleCount : Z) (w' : W) :=
    let asset := mkMeshAsset fileName fileSizeBytes actualFormat buffers
                   (match statsCalculator options with
                    | Some f => f buffers | None => None end) in
    (Normal (success asset
       (mkMetrics vertexCount triangleCount fast 0 (Z.of_nat (String.length arrayBuffer)))
       (logs1 ++ [mkLogEvent INFO "Mesh load complete" (Some "load_complete") None])),
     w') in
  match parser parseStrategy with
  | js =>
      match parseWithJs arrayBuffer (sformat parseStrategy) with
      | Throw e =>
          let msg := "JS parsing failed: " +:+ e in
          (Normal (buildErrorResult E_PARSE_FAILED msg (buildMetrics 0 0)
             (logs1 ++ [mkLogEvent ERROR msg None (Some E_PARSE_FAILED)])), w)
      | Normal jsResult =>
          let triangleCount := JsParsers.faceCount jsResult in
          let vertexCount := Z.of_nat (length (JsParsers.vertices jsResult)) / 3 in
          if guardTriangles <? triangleCount then
            (Normal (buildErrorResult E_TOO_MANY_TRIANGLES
               "Triangle count exceeds allowed limit."
               (buildMetrics vertexCount triangleCount)
               (logs1 ++ [mkLogEvent ERROR "Triangle count exceeds allowed limit."
                            None (Some E_TOO_MANY_TRIANGLES)])), w)
          else finish (toJsBuffers jsResult) vertexCount triangleCount w
      end
  | wasm =>
      match parseMesh arrayBuffer actualFormat w with
      | (Throw e, w1) =>
          let msg := "WASM parsing failed: " +:+ e in
          (Normal (buildErrorResult E_PARSE_FAILED msg (buildMetrics 0 0)
             (logs1 ++ [mkLogEvent ERROR msg None (Some E_PARSE_FAILED)])), w1)
      | (Normal pointers, w1) =>
          match toMeshBuffers pointers w1 with
          | Throw e => (Throw e, w1)
          | Normal buffers =>
              let triangleCount := EmbindBridge.indexCount pointers / 3 in
              let vertexCount := EmbindBridge.vertexCount pointers in
              if guardTriangles <? triangleCount then
                let '(_, w2) := release buffers w1 in
                (Normal (buildErrorResult E_TOO_MANY_TRIANGLES
                   "Triangle count exceeds allowed limit."
                   (buildMetrics vertexCount triangleCount)
                   (logs1 ++ [mkLogEvent ERROR "Triangle count exceeds allowed limit."
                                None (Some E_TOO_MANY_TRIANGLES)])), w2)
              else finish buffers vertexCount triangleCount w1
          end
      end
  end
  end
  end.

End Loader.

(** The Embind bridge as an instance of the interface: its world is the
    module state itself, and buffers are always found in the cache. *)
Definition embindBridge (parseMeshFromPointer : string -> string -> EmbindBridge.EmbindParseResult)
  : MeshCoreBridge EmbindState :=
  {| parseMesh := EmbindBridge.parseMesh parseMeshFromPointer;
     releaseBuffers := EmbindBridge.releaseBuffers;
     legacyViews := fun _ pointers =>
       (* views over the one-page dummy memory *)
       if (EmbindBridge.vertexPtr pointers + 8 * EmbindBridge.vertexCount pointers <=? 65536)
          && (EmbindBridge.indexPtr pointers + 4 * EmbindBridge.indexCount pointers <=? 65536)
       then Normal (mkViews
                      (replicate (Z.to_nat (EmbindBridge.vertexCount pointers)) (Fin 0))
                      (replicate (Z.to_nat (EmbindBridge.indexCount pointers)) 0)
                      None)
       else Throw "Invalid typed array length";
     getBuffersForGeneration := EmbindBridge.getBuffersForGeneration |}.

End MeshLoader.

(* ===================================================================== *)
(** * log-emitter.ts                                                      *)
(* ===================================================================== *)

Module LogEmitterM.
Import Types.

(** A subscriber: a weak reference to a callback.  [alive] is whether the
    reference still dereferences; [throws] tells on which events the
    callback raises.  Callbacks do not call back into the emitter. *)
Record Subscriber : Type := mkSubscriber {
  sid : nat;
  alive : bool;
  throws : LogEvent -> bool
}.

(** The fields of a LogEmitter; [delivered] records, in order, the
    callback invocations that were made. *)
Record LogEmitter : Type := mkLogEmitter {
  subscribers : list Subscriber;
  logs : list LogEvent;
  delivered : list (nat * LogEvent)
}.

Definition maxBufferSize : nat := 1000.

Definition new_LogEmitter : LogEmitter := mkLogEmitter [] [] [].

(** logs.push(event); if (logs.length > maxBufferSize) logs.shift() *)
Definition push_bounded (buf : list LogEvent) (event : LogEvent) : list LogEvent :=
  let pushed := buf ++ [event] in
  if (maxBufferSize <? length pushed)%nat then tail pushed else pushed.

Definition emit (event : LogEvent) (e : LogEmitter) : LogEmitter :=
  let live := filter (fun s => alive s = true) (subscribers e) in
  mkLogEmitter live
               (push_bounded (logs e) event)
               (delivered e ++ map (fun s => (sid s, event)) live).

Definition getLogs (e : LogEmitter) : list LogEvent := logs e.

Definition clear (e : LogEmitter) : LogEmitter :=
  mkLogEmitter (subscribers e) [] (delivered e).

(** The last [n] elements of a list, in order. *)
Definition lastn {A : Type} (n : nat) (l : list A) : list A :=
  skipn (length l - n) l.

(** Emitting a sequence of events, first to last. *)
Definition emit_all (events : list LogEvent) (e : LogEmitter) : LogEmitter :=
  fold_left (fun acc ev => emit ev acc) events e.

End LogEmitterM.

(* ===================================================================== *)
(** * shared-buffer-timeout.ts                                            *)
(* ===================================================================== *)

Module SharedBufferTimeout.
Import Js.

Definition SHARED_BUFFER_TIMEOUT_MS : Z := 30000.

(** Time is logical: [now] is the value of performance.now() in
    milliseconds.  An asynchronous operation is the list of the successive
    suspensions it goes through (each a duration during which the event
    loop is free to run timers) followed by its outcome. *)
Record Operation (T : Type) : Type := mkOperation {
  waits : list Z;
  outcome : completion T
}.
Arguments mkOperation {T} _ _.
Arguments waits {T} _.
Arguments outcome {T} _.

(** The value returned by withSharedBufferTimeout. *)
Record Monitored (T : Type) : Type := mkMonitored {
  value : T;
  r_timedOut : bool;
  elapsedMs : Z
}.
Arguments mkMonitored {T} _ _ _.
Arguments value {T} _.
Arguments r_timedOut {T} _.
Arguments elapsedMs {T} _.

(** The time an operation takes: the sum of its suspensions. *)
Definition duration {T : Type} (op : Operation T) : Z :=
  fold_right Z.add 0 (waits op).

Section Monitor.

(** [U] is the state the warning callback acts on. *)
Context {U : Type}.

Record SharedBufferLockMonitorOptions : Type := mkMonitorOptions {
  timeoutMs : option Z;
  onTimeoutWarning : option (Z -> U -> U);
  continueAfterTimeout : option bool
}.

(** The closure variables of a monitor.  [timeoutId] holds the due time of
    the pending timer. *)
Record SharedBufferLockMonitor : Type := mkMonitor {
  m_timeoutMs : Z;
  m_onTimeoutWarning : option (Z -> U -> U);
  startTime : option Z;
  timeoutId : option Z;
  timedOut : bool
}.

(** The environment: the clock, the callback's state and the number of
    times the monitored operation was started. *)
Record Env : Type := mkEnv {
  now : Z;
  user : U;
  started : nat
}.

(** setTimeout(callback, ms): the delay the timer is armed with.  The
    delay is a 32-bit integer; one outside 1 .. 2^31 - 1 is replaced by
    1 (Node.js timers; a browser converts the delay with ToInt32 and takes
    a negative one as 0, which is the same delay on 1 .. 2^31 - 1). *)
Definition timer_delay (ms : Z) : Z :=
  if (1 <=? ms) && (ms <=? 2 ^ 31 - 1) then ms else 1.

Definition createSharedBufferLockMonitor (options : SharedBufferLockMonitorOptions)
  : SharedBufferLockMonitor :=
  mkMonitor (default SHARED_BUFFER_TIMEOUT_MS (timeoutMs options))
            (onTimeoutWarning options) None None false.

Definition start (m : SharedBufferLockMonitor) (env : Env) : SharedBufferLockMonitor :=
  match startTime m with
  | Some _ => m
  | None =>
      mkMonitor (m_timeoutMs m) (m_onTimeoutWarning m)
                (Some (now env)) (Some (now env + timer_delay (m_timeoutMs m))) false
  end.

Definition stop (m : SharedBufferLockMonitor) : SharedBufferLockMonitor :=
  mkMonitor (m_timeoutMs m) (m_onTimeoutWarning m) (startTime m) None (timedOut m).

Definition getElapsedMs (m : SharedBufferLockMonitor) (t : Z) : Z :=
  match startTime m with
  | None => 0
  | Some s => t - s
  end.

Definition hasTimedOut (m : SharedBufferLockMonitor) : bool := timedOut m.

(** The timer callback, run at time [t]. *)
Definition on_timer (m : SharedBufferLockMonitor) (t : Z) (u : U)
  : SharedBufferLockMonitor * U :=
  let m' := mkMonitor (m_timeoutMs m) (m_onTimeoutWarning m) (startTime m) None true in
  let elapsedMs := getElapsedMs m' t in
  (m', match m_onTimeoutWarning m with
       | Some cb => cb elapsedMs u
       | None => u
       end).

(** What a run of suspensions can do to a monitor: nothing, or fire its
    pending timer once. *)
Inductive timer_effect (m : SharedBufferLockMonitor) (u : U)
    (m' : SharedBufferLockMonitor) (u' : U) : Prop :=
  | timer_quiet : m' = m -> u' = u -> timer_effect m u m' u'
  | timer_fired (due t : Z) :
      timeoutId m = Some due -> (m', u') = on_timer m t u ->
      timer_effect m u m' u'.

(** One suspension of [d] milliseconds: a pending timer that falls due
    before the suspension ends runs once, at its due time or now if it is
    already overdue; then the clock reaches the end of the suspension. *)
Definition suspend (d : Z) (st : SharedBufferLockMonitor * Env)
  : SharedBufferLockMonitor * Env :=
  let '(m, env) := st in
  let wake := now env + d in
  match timeoutId m with
  | Some due =>
      if due <=? wake then
        let '(m', u') := on_timer m (Z.max (now env) due) (user env) in
        (m', mkEnv wake u' (started env))
      else (m, mkEnv wake (user env) (started env))
  | None => (m, mkEnv wake (user env) (started env))
  end.

(** withSharedBufferTimeout: start the monitor, await the operation, read
    the flag, and stop the monitor in the finally block. *)
Definition withSharedBufferTimeout {T : Type} (operation : Operation T)
    (options : SharedBufferLockMonitorOptions) (env : Env)
  : completion (Monitored T) * SharedBufferLockMonitor * Env :=
  let monitor := start (createSharedBufferLockMonitor options) env in
  let env0 := mkEnv (now env) (user env) (S (started env)) in
  let '(m1, env1) := fold_left (fun st d => suspend d st) (waits operation) (monitor, env0) in
  match outcome operation with
  | Normal v =>
      (Normal (mkMonitored v (hasTimedOut m1) (getElapsedMs m1 (now env1))),
       stop m1, env1)
  | Throw e => (Throw e, stop m1, env1)
  end.

End Monitor.

Arguments SharedBufferLockMonitorOptions : clear implicits.
Arguments SharedBufferLockMonitor : clear implicits.
Arguments Env : clear implicits.

End SharedBufferTimeout.

(* ===================================================================== *)
(** * adapter.ts, metrics-collector.ts, error-factory.ts                  *)
(* ===================================================================== *)

Module Adapter.
Import Js Types.
Import MeshLoader (MeshAsset, MeshLoadResult, AdapterError, AdapterMetrics).

(** String(n) for an integer. *)
Definition show_Z (z : Z) : string := NilZero.string_of_int (Z.to_int z).

(** ** error-factory.ts *)

Definition createEmptyFileError : AdapterError :=
  MeshLoader.mkAdapterError E_EMPTY_FILE "File is empty (0 bytes)".

Definition createFileTooLargeError (fileSize maxSize : Z) : AdapterError :=
  MeshLoader.mkAdapterError E_FILE_TOO_LARGE
    ("File exceeds maximum size: " +:+ show_Z fileSize +:+ " bytes > "
       +:+ show_Z maxSize +:+ " bytes").

Definition createParseError (reason : option string) : AdapterError :=
  MeshLoader.mkAdapterError E_PARSE_FAILED
    ("Failed to parse mesh: " +:+
       match reason with
       | Some r => if is_empty r then "unknown error" else r
       | None => "unknown error"
       end).

Definition createUnsupportedFormatError (format : option string) : AdapterError :=
  MeshLoader.mkAdapterError E_UNSUPPORTED_FORMAT
    match format with
    | Some f => if is_empty f then "Unable to detect mesh format"
                else "Unsupported mesh format: " +:+ f
    | None => "Unable to detect mesh format"
    end.

Definition createTooManyTrianglesError (triangleCount maxTriangles : Z) : AdapterError :=
  MeshLoader.mkAdapterError E_TOO_MANY_TRIANGLES
    ("Triangle count exceeds limit: " +:+ show_Z triangleCount +:+ " > "
       +:+ show_Z maxTriangles).

(** ** metrics-collector.ts (counters; the timers are left out) *)

Record MetricsCollector : Type := mkCollector {
  vertexCount : Z;
  triangleCount : Z;
  bytesRead : Z;
  parserMode : ParserMode;
  fallbackCount : Z
}.

Definition new_MetricsCollector : MetricsCollector := mkCollector 0 0 0 fast 0.

Definition setParserMode (mode : ParserMode) (m : MetricsCollector) : MetricsCollector :=
  mkCollector (vertexCount m) (triangleCount m) (bytesRead m) mode (fallbackCount m).

Definition recordFallback (m : MetricsCollector) : MetricsCollector :=
  if fallbackCount m <? 1
  then mkCollector (vertexCount m) (triangleCount m) (bytesRead m) (parserMode m)
                   (fallbackCount m + 1)
  else m.

Definition setVertexCount (n : Z) (m : MetricsCollector) : MetricsCollector :=
  mkCollector n (triangleCount m) (bytesRead m) (parserMode m) (fallbackCount m).

Definition setTriangleCount (n : Z) (m : MetricsCollector) : MetricsCollector :=
  mkCollector (vertexCount m) n (bytesRead m) (parserMode m) (fallbackCount m).

Definition setBytesRead (n : Z) (m : MetricsCollector) : MetricsCollector :=
  mkCollector (vertexCount m) (triangleCount m) n (parserMode m) (fallbackCount m).

Definition collect (m : MetricsCollector) : AdapterMetrics :=
  MeshLoader.mkMetrics (vertexCount m) (triangleCount m) (parserMode m)
                       (fallbackCount m) (bytesRead m).

(** ** adapter.ts *)

Record MeshLoadOptions : Type := mkLoadOptions {
  computeNormals : option bool;
  enableFallback : option bool
}.

(** The adapter together with its environment: the clock and the log
    emitter, and the modes parseWithMode was called with, in order. *)
Record AdapterState : Type := mkAdapterState {
  env : SharedBufferTimeout.Env LogEmitterM.LogEmitter;
  invoked : list ParserMode
}.

Definition initial : AdapterState :=
  mkAdapterState (SharedBufferTimeout.mkEnv 0 LogEmitterM.new_LogEmitter 0%nat) [].

Definition logEmitter (st : AdapterState) : LogEmitterM.LogEmitter :=
  SharedBufferTimeout.user (env st).

Definition emitLog (lvl : LogLevel) (msg : string) (o : string)
    (c : option AdapterErrorCode) (st : AdapterState) : AdapterState :=
  mkAdapterState
    (SharedBufferTimeout.mkEnv (SharedBufferTimeout.now (env st))
       (LogEmitterM.emit (mkLogEvent lvl msg (Some o) c) (logEmitter st))
       (SharedBufferTimeout.started (env st)))
    (invoked st).

Record Validation : Type := mkValidation {
  valid : bool;
  reason : string
}.

Definition validateParsedMesh (asset : MeshAsset) : Validation :=
  match MeshLoader.stats asset with
  | None => mkValidation false "No vertices found"
  | Some s =>
      if MeshLoader.vertices s =? 0 then mkValidation false "No vertices found"
      else if MeshLoader.triangles s =? 0 then mkValidation false "No triangles found"
      else mkValidation true ""
  end.

Record ParseFileResult : Type := mkParseFileResult {
  pf_success : bool;
  pf_asset : option MeshAsset;
  pf_error : option string;
  pf_parserMode : ParserMode;
  fallbackOccurred : bool
}.

(** The operation monitored inside parseWithMode as written in the
    sources: a synchronous body building an asset over empty buffers. *)
Definition placeholder_decode (file : File) (format : MeshFormat)
    (mode : ParserMode) : SharedBufferTimeout.Operation MeshAsset :=
  SharedBufferTimeout.mkOperation []
    (Normal (MeshLoader.mkMeshAsset (file_name file) (file_size file) format
               (MeshLoader.mkMeshBuffers [] [] None 1 false false)
               (Some (MeshLoader.mkMeshStats 0 0)))).

(** The completion a decode operation ends with. *)
Definition outcome_of (op : SharedBufferTimeout.Operation MeshAsset)
  : completion MeshAsset := SharedBufferTimeout.outcome op.

(** Why a fast attempt counts as failed, if it does: the thrown message,
    or the reason given by the structural check on its result. *)
Definition fast_failure (c : completion MeshAsset) : option string :=
  match c with
  | Throw e => Some e
  | Normal asset =>
      let validation := validateParsedMesh asset in
      if valid validation then None else Some (reason validation)
  end.

Section WithDecoder.

(** The decode performed by the monitored operation, per mode.  The
    sources have [placeholder_decode] here, with the real decoders still
    to be wired in. *)
Variable decode : File -> MeshFormat -> ParserMode -> SharedBufferTimeout.Operation MeshAsset.

Definition timeoutWarning (timeoutElapsedMs : Z) (em : LogEmitterM.LogEmitter)
  : LogEmitterM.LogEmitter :=
  LogEmitterM.emit
    (mkLogEvent WARN
       ("SharedArrayBuffer lock timeout after " +:+ show_Z timeoutElapsedMs +:+
          "ms. Browser tab may be inactive. Continuing operation.")
       (Some "shared_buffer_timeout") None) em.

Definition parseWithMode (file : File) (data : string) (format : MeshFormat)
    (mode : ParserMode) (st : AdapterState) : completion MeshAsset * AdapterState :=
  let '(r, _, env') :=
    SharedBufferTimeout.withSharedBufferTimeout (decode file format mode)
      (SharedBufferTimeout.mkMonitorOptions
         (Some SharedBufferTimeout.SHARED_BUFFER_TIMEOUT_MS)
         (Some timeoutWarning) (Some true))
      (env st) in
  let st' := mkAdapterState env' (invoked st ++ [mode]) in
  match r with
  | Throw e => (Throw e, st')
  | Normal m =>
      (Normal (SharedBufferTimeout.value m),
       if SharedBufferTimeout.r_timedOut m
       then emitLog DEBUG "Parse completed after SharedArrayBuffer timeout."
              "parse_after_timeout" None st'
       else st')
  end.

(** The Exact mode fallback: the second half of parseFile. *)
Definition exactFallback (file : File) (data : string) (format : MeshFormat)
    (metrics : MetricsCollector) (st : AdapterState)
  : ParseFileResult * MetricsCollector * AdapterState :=
  let metrics' := recordFallback metrics in
  let st1 := emitLog DEBUG "Attempting Exact mode parsing" "parse_exact_start" None st in
  match parseWithMode file data format exact st1 with
  | (Normal asset, st2) =>
      (mkParseFileResult true (Some asset) None exact true, metrics',
       emitLog INFO "Exact mode parsing successful after fallback"
         "parse_exact_complete" None st2)
  | (Throw exactErrorMsg, st2) =>
      (mkParseFileResult false None
         (Some ("Both Fast and Exact parsing failed. Last error: " +:+ exactErrorMsg))
         exact true,
       metrics',
       emitLog ERROR ("Exact mode parsing also failed: " +:+ exactErrorMsg)
         "parse_exact_failed" None st2)
  end.

Definition parseFile (file : File) (format : MeshFormat) (options : MeshLoadOptions)
    (metrics : MetricsCollector) (st : AdapterState)
  : ParseFileResult * MetricsCollector * AdapterState :=
  let data := file_bytes file in
  let enableFallback :=
    match enableFallback options with Some false => false | _ => true end in
  let st0 := emitLog DEBUG "Attempting Fast mode parsing" "parse_fast_start" None st in
  match parseWithMode file data format fast st0 with
  | (Normal asset, st1) =>
      let validation := validateParsedMesh asset in
      if valid validation then
        (mkParseFileResult true (Some asset) None fast false, metrics,
         emitLog DEBUG "Fast mode parsing successful" "parse_fast_complete" None st1)
      else if negb enableFallback then
        (mkParseFileResult false None
           (Some ("Fast mode validation failed: " +:+ reason validation)) fast false,
         metrics, st1)
      else
        exactFallback file data format metrics
          (emitLog WARN
             ("Fast mode validation failed: " +:+ reason validation +:+
                ". Triggering Exact fallback.")
             "fallback_exact" None st1)
  | (Throw fastErrorMsg, st1) =>
      if negb enableFallback then
        (mkParseFileResult false None (Some fastErrorMsg) fast false, metrics, st1)
      else
        exactFallback file data format metrics
          (emitLog WARN
             ("Fast mode parsing failed: " +:+ fastErrorMsg +:+
                ". Triggering Exact fallback.")
             "fallback_exact" None st1)
  end.

Definition buildSuccessResult (asset : MeshAsset) (metrics : MetricsCollector)
    (st : AdapterState) : MeshLoadResult :=
  MeshLoader.success asset (collect metrics) (LogEmitterM.getLogs (logEmitter st)).

Definition buildErrorResult (err : AdapterError) (metrics : MetricsCollector)
    (st : AdapterState) : MeshLoadResult :=
  MeshLoader.error err (collect metrics) (LogEmitterM.getLogs (logEmitter st)).

(** load, for a file that can be read: the outer catch of the source, which
    turns any escaping exception into an E_PARSE_FAILED result, has nothing
    to catch here since parseFile catches what the decode throws. *)
Definition load (file : File) (options : MeshLoadOptions) (st : AdapterState)
  : MeshLoadResult * AdapterState :=
  let metrics := new_MetricsCollector in
  let st := emitLog DEBUG ("Load started: " +:+ file_name file) "load_start" None st in
  if file_size file =? 0 then
    let err := createEmptyFileError in
    let st := emitLog ERROR (MeshLoader.emessage err) "load_validate"
                (Some (MeshLoader.code err)) st in
    (buildErrorResult err metrics st, st)
  else if MAX_MESH_FILE_BYTES <? file_size file then
    let err := createFileTooLargeError (file_size file) MAX_MESH_FILE_BYTES in
    let st := emitLog ERROR (MeshLoader.emessage err) "load_validate"
                (Some (MeshLoader.code err)) st in
    (buildErrorResult err metrics st, st)
  else
    let metrics := setBytesRead (file_size file) metrics in
    let detection := FormatDetector.detectMeshFormat file in
    let st :=
      if FormatDetector.mismatch detection
      then emitLog WARN "Format mismatch" "detect_format" None st else st in
    match FormatDetector.format detection with
    | None =>
        let err := createUnsupportedFormatError None in
        let st := emitLog ERROR (MeshLoader.emessage err) "detect_format"
                    (Some (MeshLoader.code err)) st in
        (buildErrorResult err metrics st, st)
    | Some format =>
        let st := emitLog DEBUG
                    ("Format detected: " +:+ MeshLoader.format_name format)
                    "detect_format" None st in
        let '(parseResult, metrics, st) := parseFile file format options metrics st in
        let metrics := setParserMode (pf_parserMode parseResult) metrics in
        let st :=
          if fallbackOccurred parseResult
          then emitLog DEBUG "Parser fallback was triggered" "fallback_recorded" None st
          else st in
        match pf_success parseResult, pf_asset parseResult with
        | true, Some asset =>
            match MeshLoader.stats asset with
            | Some s =>
                if MAX_TRIANGLE_COUNT <? MeshLoader.triangles s then
                  let err := createTooManyTrianglesError (MeshLoader.triangles s)
                               MAX_TRIANGLE_COUNT in
                  let st := emitLog ERROR (MeshLoader.emessage err) "validate_mesh"
                              (Some (MeshLoader.code err)) st in
                  (buildErrorResult err metrics st, st)
                else
                  let metrics := setTriangleCount (MeshLoader.triangles s)
                                   (setVertexCount (MeshLoader.vertices s) metrics) in
                  let st := emitLog INFO ("Load successful: " +:+ file_name file)
                              "load_complete" None st in
                  (buildSuccessResult asset metrics st, st)
            | None =>
                let metrics := setTriangleCount 0 (setVertexCount 0 metrics) in
                let st := emitLog INFO ("Load successful: " +:+ file_name file)
                            "load_complete" None st in
                (buildSuccessResult asset metrics st, st)
            end
        | _, _ =>
            let err := createParseError (pf_error parseResult) in
            let st := emitLog ERROR (MeshLoader.emessage err) "parse_mesh"
                        (Some (MeshLoader.code err)) st in
            (buildErrorResult err metrics st, st)
        end
    end.

End WithDecoder.

(** result.metrics and result.success of a MeshLoadResult. *)
Definition metrics_of (r : MeshLoadResult) : AdapterMetrics :=
  match r with
  | MeshLoader.success _ m _ => m
  | MeshLoader.error _ m _ => m
  end.

Definition is_success (r : MeshLoadResult) : bool :=
  match r with
  | MeshLoader.success _ _ _ => true
  | MeshLoader.error _ _ _ => false
  end.

End Adapter.

(* ===================================================================== *)
(** * utils/clipping.ts and slice-mesh.ts: plane construction             *)
(* ===================================================================== *)

Module Clipping.

Local Open Scope Q_scope.

Inductive ClippingAxis : Type := axis_x | axis_y | axis_z.

Inductive ClippingMode : Type := mode_axis | mode_free.

(** { x, y, z } and THREE.Vector3 *)
Record Vector3 : Type := mkVector3 {
  vx : Q;
  vy : Q;
  vz : Q
}.

Record BoundingBox : Type := mkBoundingBox {
  bmin : Vector3;
  bmax : Vector3
}.

Record ClippingState : Type := mkClippingState {
  enabled : bool;
  mode : ClippingMode;
  axis : ClippingAxis;
  quaternion : Q * Q * Q * Q;
  position : Q;
  flipped : bool
}.

(** THREE.Plane: the points p with normal . p + constant = 0. *)
Record Plane : Type := mkPlane {
  normal : Vector3;
  constant : Q
}.

Definition negate (v : Vector3) : Vector3 :=
  mkVector3 (- vx v) (- vy v) (- vz v).

Definition dot (a b : Vector3) : Q :=
  vx a * vx b + vy a * vy b + vz a * vz b.

(** THREE.Plane.distanceToPoint *)
Definition distanceToPoint (pl : Plane) (p : Vector3) : Q :=
  dot (normal pl) p + constant pl.

Definition getAxisValue (point : Vector3) (a : ClippingAxis) : Q :=
  match a with
  | axis_x => vx point
  | axis_y => vy point
  | axis_z => vz point
  end.

Definition computeClippingPlane (clipping : ClippingState) (bbox : BoundingBox) : Plane :=
  let t := position clipping / 100 in
  let a := axis clipping in
  let axisMin := getAxisValue (bmin bbox) a in
  let axisMax := getAxisValue (bmax bbox) a in
  let planePos := axisMin + t * (axisMax - axisMin) in
  let n := mkVector3 (match a with axis_x => 1 | _ => 0 end)
                     (match a with axis_y => 1 | _ => 0 end)
                     (match a with axis_z => 1 | _ => 0 end) in
  let n := if flipped clipping then negate n else n in
  let c := if flipped clipping then planePos else - planePos in
  mkPlane n c.

(** slice-mesh.ts *)
Record SlicePlane : Type := mkSlicePlane {
  s_normal : Vector3;
  distance : Q
}.

Definition createAxisPlane (a : ClippingAxis) (pos : Q) (flip : bool) : SlicePlane :=
  let n := match a with
           | axis_x => mkVector3 1 0 0
           | axis_y => mkVector3 0 1 0
           | axis_z => mkVector3 0 0 1
           end in
  let n := if flip then mkVector3 (- vx n) (- vy n) (- vz n) else n in
  mkSlicePlane n pos.

(** [pos] is in the 0-1 range. *)
Definition computeSlicePlane (a : ClippingAxis) (pos : Q) (flip : bool)
    (bbox : BoundingBox) : SlicePlane :=
  let rmin := getAxisValue (bmin bbox) a in
  let rmax := getAxisValue (bmax bbox) a in
  let d := rmin + (rmax - rmin) * pos in
  createAxisPlane a d flip.

(** Componentwise equality of numbers. *)
Definition Vector3_eq (a b : Vector3) : Prop :=
  vx a == vx b /\ vy a == vy b /\ vz a == vz b.

Definition with_flipped (b : bool) (c : ClippingState) : ClippingState :=
  mkClippingState (enabled c) (mode c) (axis c) (quaternion c) (position c) b.

(** The axis coordinate of the plane for a slider position. *)
Definition planePos (clipping : ClippingState) (bbox : BoundingBox) : Q :=
  let t := position clipping / 100 in
  let axisMin := getAxisValue (bmin bbox) (axis clipping) in
  let axisMax := getAxisValue (bmax bbox) (axis clipping) in
  axisMin + t * (axisMax - axisMin).

Definition computePlanePosition (clipping : ClippingState) (bbox : BoundingBox) : Vector3 :=
  let t := position clipping / 100 in
  let a := axis clipping in
  let axisMin := getAxisValue (bmin bbox) a in
  let axisMax := getAxisValue (bmax bbox) a in
  let planePos := axisMin + t * (axisMax - axisMin) in
  let center := mkVector3 ((vx (bmin bbox) + vx (bmax bbox)) / 2)
                          ((vy (bmin bbox) + vy (bmax bbox)) / 2)
                          ((vz (bmin bbox) + vz (bmax bbox)) / 2) in
  match a with
  | axis_x => mkVector3 planePos (vy center) (vz center)
  | axis_y => mkVector3 (vx center) planePos (vz center)
  | axis_z => mkVector3 (vx center) (vy center) planePos
  end.

End Clipping.

(* ===================================================================== *)
(** * slice-mesh.ts: sliceMesh                                            *)
(* ===================================================================== *)

Module SliceMesh.
Import Js Clipping.

Record SliceMeshData : Type := mkSliceMeshData {
  vertices : list number;
  indices : list Z;
  vertexCount : option Z;
  faceCount : option Z
}.

Record SliceMeshResult : Type := mkSliceMeshResult {
  success : bool;
  error : option string;
  mesh : option SliceMeshData;
  exactFallbackCount : number;
  exactFallbackRatio : number
}.

(** What sliceMeshFromPointer returns. *)
Record WasmSliceResult : Type := mkWasmSliceResult {
  w_success : bool;
  w_error : string;
  w_vertices : option (list number);
  w_indices : option (list Z);
  w_vertexCount : Z;
  w_faceCount : Z;
  w_exactFallbackCount : number;
  w_exactFallbackRatio : number
}.

(** The calls made on the WASM module, in order. *)
Inductive ModuleCall : Type :=
  | Malloc (size ptr : Z)
  | Free (ptr : Z)
  | SetF64 (ptr : Z) (values : list number)
  | SetU32 (ptr : Z) (values : list Z)
  | Slice (verticesPtr verticesLen indicesPtr indicesLen : Z) (plane : SlicePlane).

(** The module seen from the caller: what each call answers, given the
    calls made so far.  The two heap copies and the slicing call may
    throw. *)
Record SliceMeshModule : Type := mkSliceMeshModule {
  malloc : list ModuleCall -> Z -> Z;
  heapf64_set : list ModuleCall -> Z -> list number -> completion unit;
  heapu32_set : list ModuleCall -> Z -> list Z -> completion unit;
  sliceMeshFromPointer :
    list ModuleCall -> Z -> Z -> Z -> Z -> SlicePlane -> completion WasmSliceResult
}.

(** The body of the try block, on the trace [t] of calls. *)
Definition sliceMesh_try (module : SliceMeshModule) (vs : list number) (ixs : list Z)
    (verticesPtr verticesBytes indicesPtr indicesBytes : Z) (plane : SlicePlane)
    (t : list ModuleCall) : completion SliceMeshResult * list ModuleCall :=
  let t1 := t ++ [SetF64 verticesPtr vs] in
  match heapf64_set module t verticesPtr vs with
  | Throw e => (Throw e, t1)
  | Normal _ =>
  let t2 := t1 ++ [SetU32 indicesPtr ixs] in
  match heapu32_set module t1 indicesPtr ixs with
  | Throw e => (Throw e, t2)
  | Normal _ =>
  let t3 := t2 ++ [Slice verticesPtr verticesBytes indicesPtr indicesBytes plane] in
  match sliceMeshFromPointer module t2 verticesPtr verticesBytes indicesPtr indicesBytes
          plane with
  | Throw e => (Throw e, t3)
  | Normal result =>
      if negb (w_success result) then
        (Normal (mkSliceMeshResult false (Some (w_error result)) None
                   (w_exactFallbackCount result) (w_exactFallbackRatio result)), t3)
      else if w_faceCount result =? 0 then
        (Normal (mkSliceMeshResult false (Some "Slice.EmptyResult: All faces were clipped")
                   None (w_exactFallbackCount result) (w_exactFallbackRatio result)), t3)
      else
        (Normal (mkSliceMeshResult true None
                   (Some (mkSliceMeshData (default [] (w_vertices result))
                            (default [] (w_indices result))
                            (Some (w_vertexCount result)) (Some (w_faceCount result))))
                   (w_exactFallbackCount result) (w_exactFallbackRatio result)), t3)
  end
  end
  end.

Definition sliceMesh (module : SliceMeshModule) (mesh : SliceMeshData) (plane : SlicePlane)
    (t : list ModuleCall) : completion SliceMeshResult * list ModuleCall :=
  if (length (vertices mesh) =? 0)%nat then
    (Normal (mkSliceMeshResult false (Some "Slice.EmptyInput: No vertices provided") None
               (Fin 0) (Fin 0)), t)
  else if (length (indices mesh) =? 0)%nat then
    (Normal (mkSliceMeshResult false (Some "Slice.EmptyInput: No indices provided") None
               (Fin 0) (Fin 0)), t)
  else
    let verticesBytes := 8 * Z.of_nat (length (vertices mesh)) in
    let indicesBytes := 4 * Z.of_nat (length (indices mesh)) in
    let verticesPtr := malloc module t verticesBytes in
    let t1 := t ++ [Malloc verticesBytes verticesPtr] in
    let indicesPtr := malloc module t1 indicesBytes in
    let t2 := t1 ++ [Malloc indicesBytes indicesPtr] in
    let '(r, t3) :=
      sliceMesh_try module (vertices mesh) (indices mesh)
        verticesPtr verticesBytes indicesPtr indicesBytes plane t2 in
    (* finally *)
    (r, t3 ++ [Free verticesPtr; Free indicesPtr]).

(** The blocks a trace leaves allocated: each free takes away one
    allocation of its pointer. *)
Fixpoint remove_one (p : Z) (live : list Z) : list Z :=
  match live with
  | [] => []
  | q :: rest => if q =? p then rest else q :: remove_one p rest
  end.

Definition live_after (live : list Z) (c : ModuleCall) : list Z :=
  match c with
  | Malloc _ ptr => ptr :: live
  | Free ptr => remove_one ptr live
  | _ => live
  end.

Definition live_blocks (t : list ModuleCall) : list Z := fold_left live_after t [].

Definition is_slice_call (c : ModuleCall) : bool :=
  match c with Slice _ _ _ _ _ => true | _ => false end.

End SliceMesh.

(* ===================================================================== *)
(** * file-id.ts and the file-id fallback of mesh-loader.ts               *)
(* ===================================================================== *)

Module FileId.
Import Js.

(** ToInt32: the signed 32-bit integer congruent to [z]. *)
Definition ToInt32 (z : Z) : Z := (z + 2 ^ 31) mod 2 ^ 32 - 2 ^ 31.

(** a << n on numbers *)
Definition shl (a n : Z) : Z := ToInt32 (Z.shiftl (ToInt32 a) n).

(** One turn of the loop:
    hash = ((hash << 5) - hash) + char; hash = hash & hash *)
Definition hash_step (hash char : Z) : Z :=
  let hash := (shl hash 5 - hash) + char in
  ToInt32 hash.

Fixpoint hashCode_from (hash : Z) (str : string) : Z :=
  match str with
  | EmptyString => hash
  | String c r => hashCode_from (hash_step hash (code c)) r
  end.

(** mesh-loader.ts: hashCode *)
Definition hashCode (str : string) : Z := hashCode_from 0 str.

(** file-id.ts: hashCode, which returns Math.abs(hash) *)
Definition hashCode_abs (str : string) : Z := Z.abs (hashCode str).

(** The value of the character codes read as digits in base 31, most
    significant first. *)
Fixpoint base31_from (acc : Z) (str : string) : Z :=
  match str with
  | EmptyString => acc
  | String c r => base31_from (31 * acc + code c) r
  end.

Definition base31 (str : string) : Z := base31_from 0 str.




End FileId.

(* ===================================================================== *)
(** * Concrete inputs used below                                          *)
(* ===================================================================== *)

Module Examples.
Import Js Types.

(** A decoder whose two tiers both throw, each with its own message. *)
Definition failing_decode (file : File) (format : MeshFormat) (mode : ParserMode)
  : SharedBufferTimeout.Operation MeshLoader.MeshAsset :=
  SharedBufferTimeout.mkOperation []
    (Throw match mode with
           | fast => "truncated header"
           | exact => "facet count mismatch"
           end).

(** n copies of a character. *)
Fixpoint repeat_char (c : ascii) (n : nat) : string :=
  match n with
  | O => EmptyString
  | S k => String c (repeat_char c k)
  end.

(** A binary little-endian PLY header whose format line comes after a
    comment line of more than 256 bytes. *)
Definition late_directive_ply : File :=
  mkFile "scan.ply" "application/octet-stream"
    ("ply
comment " +:+ repeat_char "x" 300 +:+ "
format binary_little_endian 1.0
element vertex 0
element face 0
end_header
").

(** A binary little-endian PLY header whose format line separates its
    words by two spaces. *)
Definition wide_directive_ply : File :=
  mkFile "scan.ply" "application/octet-stream"
    "ply
format  binary_little_endian 1.0
element vertex 0
element face 0
end_header
".

(** A binary little-endian PLY header saved under a .txt name. *)
Definition renamed_ply : File :=
  mkFile "scan.txt" "text/plain"
    "ply
format binary_little_endian 1.0
element vertex 0
element face 0
end_header
".

(** A minimal ASCII STL of the unit cube: 12 facets, 36 vertex lines. *)
Definition cube_stl : string :=
  "solid cube
  facet normal 0 0 -1
    outer loop
      vertex 0 0 0
      vertex 1 1 0
      vertex 1 0 0
    endloop
  endfacet
  facet normal 0 0 -1
    outer loop
      vertex 0 0 0
      vertex 0 1 0
      vertex 1 1 0
    endloop
  endfacet
  facet normal 0 0 1
    outer loop
      vertex 0 0 1
      vertex 1 0 1
      vertex 1 1 1
    endloop
  endfacet
  facet normal 0 0 1
    outer loop
      vertex 0 0 1
      vertex 1 1 1
      vertex 0 1 1
    endloop
  endfacet
  facet normal 0 -1 0
    outer loop
      vertex 0 0 0
      vertex 1 0 0
      vertex 1 0 1
    endloop
  endfacet
  facet normal 0 -1 0
    outer loop
      vertex 0 0 0
      vertex 1 0 1
      vertex 0 0 1
    endloop
  endfacet
  facet normal 0 1 0
    outer loop
      vertex 0 1 0
      vertex 1 1 1
      vertex 1 1 0
    endloop
  endfacet
  facet normal 0 1 0
    outer loop
      vertex 0 1 0
      vertex 0 1 1
      vertex 1 1 1
    endloop
  endfacet
  facet normal -1 0 0
    outer loop
      vertex 0 0 0
      vertex 0 1 1
      vertex 0 1 0
    endloop
  endfacet
  facet normal -1 0 0
    outer loop
      vertex 0 0 0
      vertex 0 0 1
      vertex 0 1 1
    endloop
  endfacet
  facet normal 1 0 0
    outer loop
      vertex 1 0 0
      vertex 1 1 0
      vertex 1 1 1
    endloop
  endfacet
  facet normal 1 0 0
    outer loop
      vertex 1 0 0
      vertex 1 1 1
      vertex 1 0 1
    endloop
  endfacet
endsolid cube
".


(** An OBJ quad: one face, fan-triangulated into two triangles. *)
Definition quad_obj : string :=
  "v 0 0 0
v 1 0 0
v 1 1 0
v 0 1 0
f 1 2 3 4
".

Definition quad_obj_file : MeshLoader.Blob :=
  MeshLoader.mkBlob (Some "quad.obj") (Z.of_nat (String.length quad_obj))
                    (Normal quad_obj).

(** The head of a binary little-endian PLY file. *)
Definition binary_ply : string :=
  "ply
format binary_little_endian 1.0
element vertex 4
property float x
property float y
property float z
element face 2
property list uchar int vertex_indices
end_header
".

Definition binary_ply_file : MeshLoader.Blob :=
  MeshLoader.mkBlob (Some "mesh.ply") (Z.of_nat (String.length binary_ply))
                    (Normal binary_ply).

(** A foreign decoder that answers every call with a quad: four vertices
    and two triangles. *)
Definition quad_decoder (data filename : string) : EmbindBridge.EmbindParseResult :=
  EmbindBridge.mkEmbindParseResult true ""
    (Some (map (fun z => Fin (inject_Z z)) [0; 0; 0; 1; 0; 0; 1; 1; 0; 0; 1; 0]))
    (Some [0; 1; 2; 0; 2; 3]) None.

(** A foreign decoder that rejects every call. *)
Definition rejecting_decoder (data filename : string) : EmbindBridge.EmbindParseResult :=
  EmbindBridge.mkEmbindParseResult false "unsupported" None None None.

(** Loader options with the triangle limit set to one. *)
Definition one_triangle_limit : MeshLoader.MeshLoaderOptions :=
  MeshLoader.mkOptions None None None (Some 1).

Definition default_options : MeshLoader.MeshLoaderOptions :=
  MeshLoader.mkOptions None None None None.





(** The decode of the sources, made to stay suspended for 40 seconds. *)
Definition slow_decode (file : File) (format : MeshFormat) (mode : ParserMode)
  : SharedBufferTimeout.Operation MeshLoader.MeshAsset :=
  SharedBufferTimeout.mkOperation [40000]
    (SharedBufferTimeout.outcome (Adapter.placeholder_decode file format mode)).

Definition small_obj_file : File :=
  mkFile "part.obj" "" "v 0 0 0
v 1 0 0
v 0 1 0
f 1 2 3
".

(** An ASCII PLY file that declares three vertices and holds one. *)
Definition truncated_ply : string :=
  "ply
format ascii 1.0
element vertex 3
property float x
property float y
property float z
element face 0
end_header
1 2 3
".

(** The lines of a small PLY header, its end line and a one-line body. *)
Definition header_lines : list string :=
  ["ply"; "format ascii 1.0"; "element vertex 1"].

Definition end_line : string := "end_header".

Definition one_vertex_body : string := "1 2 3".

(** The ASCII STL cube under an OBJ name. *)
Definition misnamed_stl_file : File := mkFile "part.obj" "" cube_stl.

Definition empty_stl_file : File := mkFile "empty.stl" "" "".

Definition empty_blob : MeshLoader.Blob :=
  MeshLoader.mkBlob (Some "empty.stl") 0 (Normal "").

Definition fallback_off : Adapter.MeshLoadOptions :=
  Adapter.mkLoadOptions None (Some false).

Definition fallback_default : Adapter.MeshLoadOptions :=
  Adapter.mkLoadOptions None None.





(** A module whose allocator hands out 64-byte slots in call order and
    whose slicing function answers every call with one triangle. *)
Definition one_triangle_module : SliceMesh.SliceMeshModule :=
  SliceMesh.mkSliceMeshModule
    (fun t size => 64 * (1 + Z.of_nat (length t)))
    (fun t ptr values => Normal tt)
    (fun t ptr values => Normal tt)
    (fun t vp vb ip ib plane =>
       Normal (SliceMesh.mkWasmSliceResult true ""
                 (Some (map (fun z => Fin (inject_Z z)) [0; 0; 0; 1; 0; 0; 0; 1; 0]))
                 (Some [0; 1; 2]) 3 1 (Fin 0) (Fin 0))).

Definition triangle_mesh : SliceMesh.SliceMeshData :=
  SliceMesh.mkSliceMeshData
    (map (fun z => Fin (inject_Z z)) [0; 0; 0; 2; 0; 0; 0; 2; 0]) [0; 1; 2] None None.

Definition y_plane : Clipping.SlicePlane :=
  Clipping.createAxisPlane Clipping.axis_y 1%Q false.



End Examples.

(* ===================================================================== *)
(** * Properties of the plane construction                                *)
(* ===================================================================== *)

Module ClippingFacts.
Import Clipping.
Local Open Scope Q_scope.

Lemma distance_flipped (c : ClippingState) (bbox : BoundingBox) (p : Vector3) :
  distanceToPoint (computeClippingPlane (with_flipped true c) bbox) p ==
  - distanceToPoint (computeClippingPlane (with_flipped false c) bbox) p.
Proof.
  unfold distanceToPoint, computeClippingPlane, with_flipped, dot, negate.
  destruct (axis c); simpl; ring.
Qed.

(** C9: for axis = y, position = 50, flipped = false and the bounding box
    from (-5,-5,-5) to (5,5,5), computeClippingPlane returns the normal
    (0,1,0) with constant 0, and computeSlicePlane at the fraction 50/100
    returns the normal (0,1,0) with distance 0. *)
Theorem axis_plane_y_half (en : bool) (md : ClippingMode) (quat : Q * Q * Q * Q) :
  let bbox := mkBoundingBox (mkVector3 (-5) (-5) (-5)) (mkVector3 5 5 5) in
  let pl := computeClippingPlane (mkClippingState en md axis_y quat 50 false) bbox in
  let sp := computeSlicePlane axis_y (50 / 100) false bbox in
  normal pl = mkVector3 0 1 0 /\ constant pl == 0 /\
  s_normal sp = mkVector3 0 1 0 /\ distance sp == 0.
Proof.
  cbv zeta. unfold computeClippingPlane, computeSlicePlane, createAxisPlane. simpl.
  repeat split; reflexivity.
Qed.

(** C10: for every clipping state and bounding box, the plane computed
    with flipped = true has the negated normal and the negated constant of
    the plane computed with flipped = false; both planes have the same
    points. *)
Theorem flipped_plane_negates (c : ClippingState) (bbox : BoundingBox) :
  let p0 := computeClippingPlane (with_flipped false c) bbox in
  let p1 := computeClippingPlane (with_flipped true c) bbox in
  Vector3_eq (normal p1) (negate (normal p0)) /\
  constant p1 == - constant p0 /\
  forall p : Vector3, distanceToPoint p1 p == 0 <-> distanceToPoint p0 p == 0.
Proof.
  cbv zeta. split; [|split].
  - unfold Vector3_eq, computeClippingPlane, with_flipped, negate; simpl.
    repeat split; reflexivity.
  - unfold computeClippingPlane, with_flipped; simpl. ring.
  - intros p. rewrite distance_flipped. split; intros H.
    + rewrite <- (Qopp_involutive (distanceToPoint _ p)). rewrite H. reflexivity.
    + rewrite H. reflexivity.
Qed.

End ClippingFacts.

(* ===================================================================== *)
(** * Properties of the log buffer                                        *)
(* ===================================================================== *)

Module LogEmitterFacts.
Import Types LogEmitterM.

Lemma lastn_length {A : Type} (n : nat) (l : list A) :
  length (lastn n l) = Nat.min n (length l).
Proof. unfold lastn. rewrite length_skipn. lia. Qed.

Lemma push_bounded_lastn (h : list LogEvent) (ev : LogEvent) :
  push_bounded (lastn maxBufferSize h) ev = lastn maxBufferSize (h ++ [ev]).
Proof.
  unfold push_bounded, lastn, maxBufferSize.
  rewrite !length_app, length_skipn. simpl length.
  destruct (Nat.ltb_spec 1000 (length h - (length h - 1000) + 1)) as [Hfull | Hroom].
  - assert (Hlen : (1000 <= length h)%nat) by lia.
    replace (length h + 1 - 1000)%nat with (S (length h - 1000)) by lia.
    rewrite skipn_app.
    replace (S (length h - 1000) - length h)%nat with 0%nat by lia.
    simpl skipn at 2.
    remember (length h - 1000)%nat as k eqn:Hk.
    assert (Hk' : (k < length h)%nat) by lia.
    clear Hk Hfull Hlen. revert k Hk'.
    induction h as [| a h IH]; intros k Hk'; simpl in *; [lia |].
    destruct k as [| k].
    + reflexivity.
    + simpl. apply IH. lia.
  - assert (Hlen : (length h < 1000)%nat) by lia.
    replace (length h - 1000)%nat with 0%nat by lia.
    replace (length h + 1 - 1000)%nat with 0%nat by lia.
    reflexivity.
Qed.

Lemma emit_all_logs (events h : list LogEvent) (e : LogEmitter) :
  logs e = lastn maxBufferSize h ->
  logs (emit_all events e) = lastn maxBufferSize (h ++ events).
Proof.
  revert h e. induction events as [| ev events IH]; intros h e He; simpl.
  - rewrite app_nil_r. exact He.
  - replace (h ++ ev :: events) with ((h ++ [ev]) ++ events)
      by (rewrite <- app_assoc; reflexivity).
    apply IH. simpl. rewrite He. apply push_bounded_lastn.
Qed.

(** C8: after any sequence of events has been emitted on a new emitter,
    the buffer returned by getLogs holds at most 1000 events, and they are
    the most recently emitted ones in emission order: the sequence with
    its first (length - 1000) events dropped. *)
Theorem log_buffer_keeps_most_recent (events : list LogEvent) :
  let e := emit_all events new_LogEmitter in
  (length (getLogs e) <= 1000)%nat /\
  getLogs e = skipn (length events - 1000) events.
Proof.
  cbv zeta. unfold getLogs.
  assert (H : logs (emit_all events new_LogEmitter) = lastn maxBufferSize ([] ++ events)).
  { apply emit_all_logs. reflexivity. }
  simpl in H. rewrite H. split.
  - rewrite lastn_length. unfold maxBufferSize. lia.
  - reflexivity.
Qed.

End LogEmitterFacts.

(* ===================================================================== *)
(** * Properties of buffer release                                        *)
(* ===================================================================== *)

Module ReleaseFacts.
Import Js Types MeshLoader.

Section Generic.

Context {W : Type} {bridge : MeshCoreBridge W}.

Lemma release_sets_flag (b : MeshBuffers) (w : W) :
  released (fst (release b w)) = true.
Proof.
  unfold release. destruct (bridged b); [destruct (released b) eqn:Hr |]; simpl; auto.
Qed.

(** On buffers that are already released, release changes nothing. *)
Lemma release_released (b : MeshBuffers) (w : W) :
  released b = true -> release b w = (b, w).
Proof.
  intros Hr. unfold release. rewrite Hr.
  destruct b as [v i n g r br]. simpl in *. subst r. destruct br; reflexivity.
Qed.

Lemma release_n_released (n : nat) (b : MeshBuffers) (w : W) :
  released b = true -> release_n n b w = (b, w).
Proof.
  intros Hr. induction n as [| n IH]; simpl; [reflexivity |].
  rewrite (release_released b w Hr). exact IH.
Qed.

Lemma release_n_once (n : nat) (b : MeshBuffers) (w : W) :
  release_n (S n) b w = release b w.
Proof.
  simpl. destruct (release b w) as [b' w'] eqn:E.
  apply release_n_released.
  pose proof (release_sets_flag b w) as Hr. rewrite E in Hr. exact Hr.
Qed.

End Generic.

Lemma releaseBuffers_unknown (g : Z) (st : EmbindBridge.EmbindState) :
  EmbindBridge.getBuffersForGeneration g st = None ->
  EmbindBridge.releaseBuffers g st = st.
Proof.
  unfold EmbindBridge.getBuffersForGeneration, EmbindBridge.releaseBuffers.
  intros H. destruct st as [c m]. simpl in *. f_equal. by apply delete_id.
Qed.

Lemma releaseBuffers_gone (g : Z) (st : EmbindBridge.EmbindState) :
  EmbindBridge.getBuffersForGeneration g (EmbindBridge.releaseBuffers g st) = None.
Proof.
  unfold EmbindBridge.getBuffersForGeneration, EmbindBridge.releaseBuffers. simpl.
  apply lookup_delete_eq.
Qed.

(** C6: release is total and idempotent.  For every MeshBuffers object of
    every bridge, calling release n+1 times in a row leaves the object and
    the world exactly as one call does, and that one call applies the
    bridge's releaseBuffers at most once: once if the buffers come from the
    bridge and were not yet released, not at all otherwise.  For the Embind
    bridge, releaseBuffers on a generation that is unknown or already
    released changes nothing, so a second releaseBuffers on the same
    generation changes nothing either. *)
Theorem release_idempotent :
  (forall (W : Type) (bridge : MeshCoreBridge W) (b : MeshBuffers) (w : W) (n : nat),
      release_n (S n) b w = release b w /\
      snd (release b w) =
        (if bridged b && negb (released b) then releaseBuffers (generation b) w else w) /\
      released (fst (release b w)) = true) /\
  (forall (g : Z) (st : EmbindBridge.EmbindState),
      (EmbindBridge.getBuffersForGeneration g st = None ->
       EmbindBridge.releaseBuffers g st = st) /\
      EmbindBridge.getBuffersForGeneration g (EmbindBridge.releaseBuffers g st) = None /\
      EmbindBridge.releaseBuffers g (EmbindBridge.releaseBuffers g st) =
        EmbindBridge.releaseBuffers g st).
Proof.
  split.
  - intros W bridge b w n. split; [apply release_n_once | split].
    + unfold release. destruct (bridged b), (released b); reflexivity.
    + apply release_sets_flag.
  - intros g st. split; [apply releaseBuffers_unknown | split].
    + apply releaseBuffers_gone.
    + apply releaseBuffers_unknown, releaseBuffers_gone.
Qed.

(** The release theorem at the Embind bridge: three releases of a buffer
    set of generation 7 equal one, and releasing the unknown generation 7
    in the empty table changes nothing. *)
Lemma release_idempotent_witness :
  @release_n _ (embindBridge Examples.rejecting_decoder) 3
     (mkMeshBuffers [] [] None 7 false true) EmbindBridge.initial =
  @release _ (embindBridge Examples.rejecting_decoder)
     (mkMeshBuffers [] [] None 7 false true) EmbindBridge.initial /\
  EmbindBridge.releaseBuffers 7 EmbindBridge.initial = EmbindBridge.initial.
Proof.
  split.
  - exact (proj1 (proj1 release_idempotent _ (embindBridge Examples.rejecting_decoder)
                    (mkMeshBuffers [] [] None 7 false true) EmbindBridge.initial 2%nat)).
  - apply (proj1 (proj2 release_idempotent 7 EmbindBridge.initial)). reflexivity.
Defined.

End ReleaseFacts.

(* ===================================================================== *)
(** * Properties of the watchdog monitor                                  *)
(* ===================================================================== *)

Module SharedBufferTimeoutFacts.
Import Js SharedBufferTimeout.

Section Facts.

Context {U : Type}.

Lemma suspend_effect (d : Z) (m : SharedBufferLockMonitor U) (env : Env U) :
  let '(m', env') := suspend d (m, env) in
  now env' = now env + d /\ started env' = started env /\
  timer_effect m (user env) m' (user env').
Proof.
  unfold suspend. destruct (timeoutId m) as [due |] eqn:Hid.
  - destruct (due <=? now env + d) eqn:Hdue.
    + destruct (on_timer m (Z.max (now env) due) (user env)) as [m' u'] eqn:Hon.
      simpl. repeat split. eapply timer_fired; eauto.
    + simpl. repeat split. by apply timer_quiet.
  - simpl. repeat split. by apply timer_quiet.
Qed.

Lemma on_timer_disarms (m : SharedBufferLockMonitor U) (t : Z) (u : U) :
  timeoutId (fst (on_timer m t u)) = None /\ timedOut (fst (on_timer m t u)) = true.
Proof. unfold on_timer. simpl. auto. Qed.

Lemma suspend_disarmed (ws : list Z) (m : SharedBufferLockMonitor U) (env : Env U) :
  timeoutId m = None ->
  let '(m', env') := fold_left (fun st d => suspend d st) ws (m, env) in
  m' = m /\ user env' = user env /\
  now env' = now env + fold_right Z.add 0 ws /\ started env' = started env.
Proof.
  revert m env. induction ws as [| d ws IH]; intros m env Hid; cbn [fold_left fold_right].
  - split; [| split; [| split]]; auto; lia.
  - assert (E : suspend d (m, env) = (m, mkEnv (now env + d) (user env) (started env))).
    { unfold suspend. rewrite Hid. reflexivity. }
    rewrite E.
    specialize (IH m (mkEnv (now env + d) (user env) (started env)) Hid).
    destruct (fold_left _ ws _) as [m' env'].
    destruct IH as (Hm & Hu & Hn & Hs). simpl in *.
    split; [| split; [| split]]; auto; lia.
Qed.

Lemma suspend_all_effect (ws : list Z) (m : SharedBufferLockMonitor U) (env : Env U) :
  let '(m', env') := fold_left (fun st d => suspend d st) ws (m, env) in
  now env' = now env + fold_right Z.add 0 ws /\ started env' = started env /\
  timer_effect m (user env) m' (user env').
Proof.
  revert m env. induction ws as [| d ws IH]; intros m env; cbn [fold_left fold_right].
  - split; [lia | split; [reflexivity | by apply timer_quiet]].
  - pose proof (suspend_effect d m env) as H1.
    destruct (suspend d (m, env)) as [m1 env1] eqn:E1.
    destruct H1 as (Hnow & Hst & Heff).
    destruct Heff as [Hm Hu | due t Hid Hon].
    + subst m1. specialize (IH m env1). destruct (fold_left _ ws _) as [m' env'].
      destruct IH as (Hn & Hs & He).
      split; [lia | split; [congruence |]].
      rewrite <- Hu. exact He.
    + pose proof (on_timer_disarms m t (user env)) as [Hnone _].
      rewrite <- Hon in Hnone. simpl in Hnone.
      pose proof (suspend_disarmed ws m1 env1 Hnone) as H2.
      destruct (fold_left _ ws _) as [m' env'].
      destruct H2 as (Hm & Hu & Hn & Hs). subst m'.
      split; [lia | split; [congruence |]].
      eapply timer_fired; eauto. rewrite Hu. exact Hon.
Qed.

(** The monitored call: its completion is the operation's own, the clock
    has advanced by the operation's whole duration, the operation was
    started once, the timer is disarmed, and the only trace of an expiry
    is the flag together with one call of the warning callback. *)
Lemma monitored_call {T : Type} (op : Operation T)
    (opts : SharedBufferLockMonitorOptions U) (env : Env U) :
  let '(r, m, env') := withSharedBufferTimeout op opts env in
  match outcome op with
  | Normal v =>
      exists flag el, r = Normal (mkMonitored v flag el) /\
        if flag
        then exists t, user env' =
               match onTimeoutWarning opts with
               | Some cb => cb t (user env)
               | None => user env
               end
        else user env' = user env
  | Throw e => r = Throw e
  end /\
  now env' = now env + duration op /\
  started env' = S (started env) /\
  timeoutId m = None.
Proof.
  unfold withSharedBufferTimeout, duration.
  set (m0 := start (createSharedBufferLockMonitor opts) env).
  set (env0 := mkEnv (now env) (user env) (S (started env))).
  pose proof (suspend_all_effect (waits op) m0 env0) as H.
  destruct (fold_left _ (waits op) _) as [m1 env1].
  destruct H as (Hnow & Hst & Heff).
  subst env0. cbn [now started user] in Hnow, Hst, Heff.
  assert (Hcb : m_onTimeoutWarning m0 = onTimeoutWarning opts) by reflexivity.
  assert (Hflag0 : timedOut m0 = false) by reflexivity.
  destruct (outcome op) as [v | e]; simpl;
    (split; [| split; [lia | split; [exact Hst | reflexivity]]]).
  - exists (hasTimedOut m1), (getElapsedMs m1 (now env1)). split; [reflexivity |].
    destruct Heff as [-> Hu | due t Hid Hon].
    + unfold hasTimedOut. rewrite Hflag0. exact Hu.
    + unfold on_timer in Hon. injection Hon as -> Hu. simpl.
      eexists. rewrite Hu. reflexivity.
  - reflexivity.
Qed.





End Facts.

End SharedBufferTimeoutFacts.

(* ===================================================================== *)
(** * Properties of the fallback orchestration                            *)
(* ===================================================================== *)

Module AdapterFacts.
Import Js Types Adapter.

(** Split a goal into its conjuncts. *)
Ltac conjs := repeat match goal with |- _ /\ _ => split end.

Section Facts.

Variable decode :
  File -> MeshFormat -> ParserMode -> SharedBufferTimeout.Operation MeshLoader.MeshAsset.

Lemma emitLog_invoked lvl msg o c st :
  invoked (emitLog lvl msg o c st) = invoked st.
Proof. reflexivity. Qed.

(** parseWithMode returns the completion of the decode it monitors, and
    records exactly one call. *)
Lemma parseWithMode_outcome file data format mode st :
  fst (parseWithMode decode file data format mode st) = outcome_of (decode file format mode) /\
  invoked (snd (parseWithMode decode file data format mode st)) = invoked st ++ [mode].
Proof.
  unfold parseWithMode, SharedBufferTimeout.withSharedBufferTimeout, outcome_of.
  destruct (fold_left _ _ _) as [m1 env1].
  destruct (SharedBufferTimeout.outcome (decode file format mode)) as [v | e]; simpl.
  - destruct (SharedBufferTimeout.hasTimedOut m1); auto.
  - auto.
Qed.

Lemma exactFallback_spec file data format metrics st :
  let '(r, metrics', st') := exactFallback decode file data format metrics st in
  invoked st' = invoked st ++ [exact] /\
  fallbackOccurred r = true /\
  metrics' = recordFallback metrics /\
  match outcome_of (decode file format exact) with
  | Throw e =>
      pf_success r = false /\ pf_asset r = None /\
      pf_error r = Some ("Both Fast and Exact parsing failed. Last error: " +:+ e)
  | Normal asset =>
      pf_success r = true /\ pf_asset r = Some asset /\ pf_error r = None
  end.
Proof.
  unfold exactFallback.
  set (st1 := emitLog DEBUG _ _ None st).
  pose proof (parseWithMode_outcome file data format exact st1) as [Hout Hinv].
  destruct (parseWithMode decode file data format exact st1) as [c st2].
  simpl in Hout, Hinv. rewrite <- Hout.
  destruct c as [asset | e]; simpl; rewrite Hinv; conjs; reflexivity.
Qed.

(** parseFile when the fast attempt fails and fallback is enabled. *)
Lemma parseFile_fallback file format options metrics st fastReason :
  enableFallback options <> Some false ->
  fast_failure (outcome_of (decode file format fast)) = Some fastReason ->
  exists st1,
    parseFile decode file format options metrics st =
      exactFallback decode file (file_bytes file) format metrics st1 /\
    invoked st1 = invoked st ++ [fast].
Proof.
  intros Hen Hfail. unfold parseFile.
  set (st0 := emitLog DEBUG _ _ None st).
  pose proof (parseWithMode_outcome file (file_bytes file) format fast st0) as [Hout Hinv].
  destruct (parseWithMode decode file (file_bytes file) format fast st0) as [c st1].
  simpl in Hout, Hinv. rewrite <- Hout in Hfail.
  assert (Hfb : match enableFallback options with Some false => false | _ => true end = true).
  { destruct (enableFallback options) as [[|] |]; congruence. }
  rewrite Hfb. simpl negb. cbv iota.
  destruct c as [asset | e]; simpl in Hfail.
  - destruct (valid (validateParsedMesh asset)) eqn:Hv; [discriminate |].
    eexists. split; [reflexivity |]. rewrite emitLog_invoked. exact Hinv.
  - eexists. split; [reflexivity |]. rewrite emitLog_invoked. exact Hinv.
Qed.

(** The fallback, for any decode plugged into parseWithMode: when the fast
    attempt fails, by throwing or by the structural check, and fallback is
    enabled, parseFile calls the fast decode once and then the exact decode
    exactly once, and records the fallback.  If the exact decode throws,
    the result is a failure whose message is "Both Fast and Exact parsing
    failed. Last error: " followed by the exact attempt's message;
    otherwise the exact result is returned as a success, whatever the
    structural check would say of it. *)
Theorem fallback_runs_exact_once file format options metrics st fastReason :
  enableFallback options <> Some false ->
  fast_failure (outcome_of (decode file format fast)) = Some fastReason ->
  let '(r, metrics', st') := parseFile decode file format options metrics st in
  invoked st' = invoked st ++ [fast; exact] /\
  fallbackOccurred r = true /\
  metrics' = recordFallback metrics /\
  match outcome_of (decode file format exact) with
  | Throw e =>
      pf_success r = false /\ pf_asset r = None /\
      pf_error r = Some ("Both Fast and Exact parsing failed. Last error: " +:+ e)
  | Normal asset =>
      pf_success r = true /\ pf_asset r = Some asset /\ pf_error r = None
  end.
Proof.
  intros Hen Hfail.
  destruct (parseFile_fallback file format options metrics st fastReason Hen Hfail)
    as (st1 & -> & Hinv).
  pose proof (exactFallback_spec file (file_bytes file) format metrics st1) as H.
  destruct (exactFallback decode file (file_bytes file) format metrics st1)
    as [[r metrics'] st'].
  destruct H as (Hi & Hf & Hm & Hres).
  conjs; auto.
  rewrite Hi, Hinv, <- app_assoc. reflexivity.
Qed.

(** parseFile when the fast attempt passes the structural check. *)
Lemma parseFile_fast_success file format options metrics st asset :
  outcome_of (decode file format fast) = Normal asset ->
  valid (validateParsedMesh asset) = true ->
  exists st',
    parseFile decode file format options metrics st =
      (mkParseFileResult true (Some asset) None fast false, metrics, st').
Proof.
  intros Hout Hvalid. unfold parseFile.
  set (st0 := emitLog DEBUG _ _ None st).
  pose proof (parseWithMode_outcome file (file_bytes file) format fast st0) as [Hfst _].
  destruct (parseWithMode decode file (file_bytes file) format fast st0) as [c st1].
  simpl in Hfst. rewrite Hout in Hfst. subst c. rewrite Hvalid.
  eexists. reflexivity.
Qed.

(** The post-decode guard of MeshCoreAdapter.load: an asset whose stats
    report more triangles than MAX_TRIANGLE_COUNT is turned into an
    E_TOO_MANY_TRIANGLES error.  (With [placeholder_decode] the stats are
    always zero, so this branch is not taken by the sources as they are.) *)
Lemma load_triangle_guard file options st format asset stats :
  file_size file <> 0 ->
  file_size file <= MAX_MESH_FILE_BYTES ->
  FormatDetector.format (FormatDetector.detectMeshFormat file) = Some format ->
  outcome_of (decode file format fast) = Normal asset ->
  MeshLoader.stats asset = Some stats ->
  valid (validateParsedMesh asset) = true ->
  MAX_TRIANGLE_COUNT < MeshLoader.triangles stats ->
  exists metrics logs,
    fst (load decode file options st) =
      MeshLoader.error
        (createTooManyTrianglesError (MeshLoader.triangles stats) MAX_TRIANGLE_COUNT)
        metrics logs.
Proof.
  intros Hne Hsize Hfmt Hout Hstats Hvalid Hmany. unfold load.
  assert (H1 : (file_size file =? 0) = false) by (apply Z.eqb_neq; exact Hne).
  assert (H2 : (MAX_MESH_FILE_BYTES <? file_size file) = false)
    by (apply Z.ltb_ge; exact Hsize).
  rewrite H1, H2, Hfmt.
  match goal with
  | |- context [parseFile decode file format options ?m ?s] =>
      destruct (parseFile_fast_success file format options m s asset Hout Hvalid)
        as (st' & ->)
  end.
  cbn [pf_success pf_asset pf_parserMode fallbackOccurred].
  rewrite Hstats.
  assert (H3 : (MAX_TRIANGLE_COUNT <? MeshLoader.triangles stats) = true)
    by (apply Z.ltb_lt; exact Hmany).
  rewrite H3. eexists _, _. reflexivity.
Qed.

End Facts.



(** A decode that stays suspended for 40 seconds: the watchdog fires at 30
    seconds, the asset comes back unchanged, and the log holds the WARN of
    the expiry followed by the DEBUG note written after completion. *)
Lemma slow_decode_only_warns :
  fst (parseWithMode Examples.slow_decode Examples.small_obj_file "" obj fast initial) =
    outcome_of (placeholder_decode Examples.small_obj_file obj fast) /\
  map (fun ev => (level ev, op ev))
      (LogEmitterM.getLogs
         (logEmitter
            (snd (parseWithMode Examples.slow_decode Examples.small_obj_file "" obj fast
                    initial)))) =
    [(WARN, Some "shared_buffer_timeout"); (DEBUG, Some "parse_after_timeout")] /\
  SharedBufferTimeout.now
    (env (snd (parseWithMode Examples.slow_decode Examples.small_obj_file "" obj fast
                 initial))) = 40000.
Proof. repeat split; vm_compute; reflexivity. Qed.

(** The fallback theorem at the decode the sources ship: the fast attempt
    fails the structural check (no vertices), the exact attempt runs once
    and its empty asset is returned as a success. *)
Lemma fallback_runs_exact_once_witness :
  let '(r, metrics', st') :=
    parseFile placeholder_decode Examples.small_obj_file obj
      (mkLoadOptions None None) new_MetricsCollector initial in
  invoked st' = invoked initial ++ [fast; exact] /\
  fallbackOccurred r = true /\
  metrics' = recordFallback new_MetricsCollector /\
  match outcome_of (placeholder_decode Examples.small_obj_file obj exact) with
  | Throw e =>
      pf_success r = false /\ pf_asset r = None /\
      pf_error r = Some ("Both Fast and Exact parsing failed. Last error: " +:+ e)
  | Normal asset =>
      pf_success r = true /\ pf_asset r = Some asset /\ pf_error r = None
  end.
Proof.
  apply (fallback_runs_exact_once placeholder_decode Examples.small_obj_file obj
           (mkLoadOptions None None) new_MetricsCollector initial "No vertices found").
  - discriminate.
  - reflexivity.
Defined.

(** C1: the exact attempt is not checked.  With the decode the sources
    ship and fallback enabled, for every file and format: the fast attempt
    fails the structural check (no vertices), the exact attempt is run
    exactly once, and its result, which fails the same check, is returned
    as a success with no error, where the fast attempt's result was
    checked with validateParsedMesh. *)
Theorem exact_result_is_not_validated (file : File) (format : MeshFormat)
    (options : MeshLoadOptions) (metrics : MetricsCollector) (st : AdapterState) :
  enableFallback options <> Some false ->
  let '(r, metrics', st') := parseFile placeholder_decode file format options metrics st in
  fast_failure (outcome_of (placeholder_decode file format fast)) = Some "No vertices found" /\
  invoked st' = invoked st ++ [fast; exact] /\
  exists asset,
    outcome_of (placeholder_decode file format exact) = Normal asset /\
    validateParsedMesh asset = mkValidation false "No vertices found" /\
    pf_success r = true /\ pf_asset r = Some asset /\ pf_error r = None.
Proof.
  intros Hen.
  pose proof (fallback_runs_exact_once placeholder_decode file format options metrics st
                "No vertices found" Hen eq_refl) as H.
  destruct (parseFile placeholder_decode file format options metrics st) as [[r metrics'] st'].
  destruct H as (Hi & _ & _ & Hr).
  split; [reflexivity | split; [exact Hi |]].
  eexists. split; [reflexivity | split; [reflexivity | exact Hr]].
Qed.

(** A one-triangle OBJ file with the default options. *)
Lemma exact_result_is_not_validated_witness :
  let '(r, metrics', st') :=
    parseFile placeholder_decode Examples.small_obj_file obj Examples.fallback_default
      new_MetricsCollector initial in
  invoked st' = [fast; exact] /\ pf_success r = true /\ pf_error r = None /\
  exists asset,
    pf_asset r = Some asset /\ valid (validateParsedMesh asset) = false.
Proof.
  pose proof (exact_result_is_not_validated Examples.small_obj_file obj
                Examples.fallback_default new_MetricsCollector initial
                ltac:(discriminate)) as H.
  destruct (parseFile placeholder_decode Examples.small_obj_file obj
              Examples.fallback_default new_MetricsCollector initial) as [[r metrics'] st'].
  destruct H as (_ & Hi & asset & _ & Hv & Hs & Ha & He).
  split; [exact Hi | split; [exact Hs | split; [exact He |]]].
  exists asset. split; [exact Ha | rewrite Hv; reflexivity].
Defined.

End AdapterFacts.

(* ===================================================================== *)
(** * Properties of format detection                                      *)
(* ===================================================================== *)

Module FormatDetectorFacts.
Import Js Types FormatDetector.

Lemma toLowerCase_app (a b : string) :
  toLowerCase (a +:+ b) = toLowerCase a +:+ toLowerCase b.
Proof. induction a as [| c a IH]; simpl; [reflexivity | by rewrite IH]. Qed.

Lemma startsWith_app (p s : string) : startsWith (p +:+ s) p = true.
Proof.
  induction p as [| c p IH]; simpl; [by destruct s |].
  rewrite Ascii.eqb_refl. exact IH.
Qed.

Lemma includes_startsWith (s p : string) :
  startsWith s p = true -> includes s p = true.
Proof. intros H. destruct s; cbn [includes]; rewrite H; reflexivity. Qed.

Lemma includes_app (a p b : string) : includes (a +:+ p +:+ b) p = true.
Proof.
  induction a as [| c a IH].
  - change (includes (p +:+ b) p = true).
    apply includes_startsWith, startsWith_app.
  - change (startsWith (String c (a +:+ p +:+ b)) p || includes (a +:+ p +:+ b) p = true).
    rewrite IH. apply orb_true_r.
Qed.

Lemma take_string_min (n : nat) (s : string) :
  take_string (Nat.min n (String.length s)) s = take_string n s.
Proof.
  revert n. induction s as [| c s IH]; intros [| n]; simpl; try reflexivity.
  by rewrite IH.
Qed.

(** A header that begins with the PLY magic and holds the little-endian
    format directive is classified as ply_binary_le. *)
Lemma magic_ply_binary_le (nl : ascii) (pre post : string) :
  nl = LF \/ nl = CR ->
  detectByMagicBytes
    ("ply" +:+ String nl (pre +:+ "format binary_little_endian" +:+ post))
  = Some ply_binary_le.
Proof.
  intros Hnl. unfold detectByMagicBytes.
  change ("ply" +:+ String nl (pre +:+ "format binary_little_endian" +:+ post))
    with (String "p" (String "l" (String "y"
            (String nl (pre +:+ "format binary_little_endian" +:+ post))))).
  cbn [String.length Nat.ltb Nat.leb has_ply_magic].
  assert (Hm : (code nl =? 10) || (code nl =? 13) = true)
    by (destruct Hnl as [-> | ->]; reflexivity).
  replace ((code "p" =? 112) && (code "l" =? 108) && (code "y" =? 121)
           && ((code nl =? 10) || (code nl =? 13))) with true
    by (rewrite Hm; reflexivity).
  unfold detectPlySubformat.
  change (String "p" (String "l" (String "y"
            (String nl (pre +:+ "format binary_little_endian" +:+ post)))))
    with (("ply" +:+ String nl pre) +:+ "format binary_little_endian" +:+ post).
  rewrite !toLowerCase_app.
  change (toLowerCase "format binary_little_endian") with "format binary_little_endian".
  rewrite includes_app. reflexivity.
Qed.

(** C3 (as amended): for every file whose first 256 bytes begin with
    'ply' and a newline (LF or CR) and contain the directive
    'format binary_little_endian', detectMeshFormat returns the format
    ply_binary_le with the method magic, whatever the file's name and MIME
    type are. *)
Theorem binary_le_ply_detected_by_magic (file : File) (nl : ascii) (pre post : string) :
  nl = LF \/ nl = CR ->
  take_string 256 (file_bytes file) =
    "ply" +:+ String nl (pre +:+ "format binary_little_endian" +:+ post) ->
  format (detectMeshFormat file) = Some ply_binary_le /\
  method (detectMeshFormat file) = magic.
Proof.
  intros Hnl Hhead. unfold detectMeshFormat.
  rewrite take_string_min, Hhead, (magic_ply_binary_le nl pre post Hnl).
  destruct (detectByExtension (file_name file)) as [ef |]; [| split; reflexivity].
  destruct (negb (isSameFormatFamily ef ply_binary_le)); split; reflexivity.
Qed.

(** The detection theorem at a little-endian PLY header saved under a
    .txt name. *)
Lemma binary_le_ply_detected_by_magic_witness :
  format (detectMeshFormat Examples.renamed_ply) = Some ply_binary_le /\
  method (detectMeshFormat Examples.renamed_ply) = magic.
Proof.
  apply (binary_le_ply_detected_by_magic Examples.renamed_ply LF ""
           " 1.0
element vertex 0
element face 0
end_header
").
  - left. reflexivity.
  - reflexivity.
Defined.

(** C3 fails as stated: a payload that begins with 'ply' and a newline and
    whose header carries the directive format binary_little_endian (as
    parsePlyHeader, the loader's own header reader, finds it) is detected
    as ply_ascii when the directive comes after a comment line longer than
    256 bytes, and also when its two words are separated by two spaces. *)
Lemma late_format_directive_detected_as_ascii :
  (startsWith (file_bytes Examples.late_directive_ply) "ply
" = true /\
   JsParsers.format (JsParsers.parsePlyHeader (file_bytes Examples.late_directive_ply))
     = JsParsers.fmt_binary_little_endian /\
   detectMeshFormat Examples.late_directive_ply =
     mkDetection (Some ply_ascii) magic false None) /\
  (startsWith (file_bytes Examples.wide_directive_ply) "ply
" = true /\
   JsParsers.format (JsParsers.parsePlyHeader (file_bytes Examples.wide_directive_ply))
     = JsParsers.fmt_binary_little_endian /\
   detectMeshFormat Examples.wide_directive_ply =
     mkDetection (Some ply_ascii) magic false None).
Proof. repeat split; vm_compute; reflexivity. Qed.

End FormatDetectorFacts.

(* ===================================================================== *)
(** * Properties of the in-process decoders                               *)
(* ===================================================================== *)

Module JsParsersFacts.
Import Js JsParsers.

Lemma endfacet_not_vertex (line : string) :
  is_endfacet_line line = true -> is_vertex_line line = false.
Proof.
  unfold is_endfacet_line, is_vertex_line. intros H.
  apply String.eqb_eq in H. rewrite H. reflexivity.
Qed.

Lemma stl_step_vertex (acc : StlAcc) (line : string) :
  is_vertex_line line = true ->
  exists a b c,
    stl_step acc line =
      mkStlAcc (stl_tempVertices acc ++ [a; b; c]) (stl_tempIndices acc)
               (stl_vertexIndex acc).
Proof.
  unfold is_vertex_line, stl_step. intros ->. eexists _, _, _. reflexivity.
Qed.

Lemma stl_step_endfacet (acc : StlAcc) (line : string) :
  is_endfacet_line line = true ->
  stl_step acc line =
    mkStlAcc (stl_tempVertices acc)
             (stl_tempIndices acc ++ facet_indices (stl_vertexIndex acc) 1)
             (stl_vertexIndex acc + 3).
Proof.
  intros H. pose proof (endfacet_not_vertex line H) as Hv.
  unfold is_vertex_line, is_endfacet_line, stl_step in *. rewrite Hv, H. reflexivity.
Qed.

Lemma stl_step_other (acc : StlAcc) (line : string) :
  is_vertex_line line = false -> is_endfacet_line line = false ->
  stl_step acc line = acc.
Proof.
  unfold is_vertex_line, is_endfacet_line, stl_step. intros -> ->. reflexivity.
Qed.

Lemma facet_indices_length (start : Z) (n : nat) :
  length (facet_indices start n) = (3 * n)%nat.
Proof.
  revert start. induction n as [| n IH]; intros start; simpl; [reflexivity |].
  rewrite IH. lia.
Qed.

(** The loop of parseAsciiStl: three numbers per vertex line, and for the
    k-th endfacet line the indices of the k-th consecutive triple. *)
Lemma stl_loop (lines : list string) (acc : StlAcc) :
  length (stl_tempVertices (fold_left stl_step lines acc)) =
    (length (stl_tempVertices acc) + 3 * count_where is_vertex_line lines)%nat /\
  stl_tempIndices (fold_left stl_step lines acc) =
    stl_tempIndices acc ++
      facet_indices (stl_vertexIndex acc) (count_where is_endfacet_line lines) /\
  stl_vertexIndex (fold_left stl_step lines acc) =
    stl_vertexIndex acc + 3 * Z.of_nat (count_where is_endfacet_line lines).
Proof.
  revert acc. induction lines as [| line lines IH]; intros acc; cbn [fold_left count_where].
  - rewrite app_nil_r. repeat split; lia.
  - destruct (is_vertex_line line) eqn:Hv.
    + assert (He : is_endfacet_line line = false).
      { destruct (is_endfacet_line line) eqn:He; [| reflexivity].
        apply endfacet_not_vertex in He. congruence. }
      rewrite He.
      destruct (stl_step_vertex acc line Hv) as (a & b & c & ->).
      destruct (IH (mkStlAcc (stl_tempVertices acc ++ [a; b; c]) (stl_tempIndices acc)
                      (stl_vertexIndex acc))) as (H1 & H2 & H3).
      cbn [stl_tempVertices stl_tempIndices stl_vertexIndex] in *.
      rewrite H1, H2, H3, length_app. simpl length. repeat split; lia.
    + destruct (is_endfacet_line line) eqn:He.
      * rewrite (stl_step_endfacet acc line He).
        destruct (IH (mkStlAcc (stl_tempVertices acc)
                        (stl_tempIndices acc ++ facet_indices (stl_vertexIndex acc) 1)
                        (stl_vertexIndex acc + 3))) as (H1 & H2 & H3).
        cbn [stl_tempVertices stl_tempIndices stl_vertexIndex] in *.
        rewrite H1, H2, H3. split; [lia | split; [| lia]].
        rewrite <- app_assoc. reflexivity.
      * rewrite (stl_step_other acc line Hv He). apply IH.
Qed.

Lemma parseAsciiStl_counts (data : string) :
  length (vertices (parseAsciiStl data)) = (3 * vertex_lines data)%nat /\
  indices (parseAsciiStl data) =
    new_Uint32Array (facet_indices 0 (endfacet_lines data)) /\
  vertexCount (parseAsciiStl data) = Some (Z.of_nat (vertex_lines data)) /\
  faceCount (parseAsciiStl data) = Z.of_nat (endfacet_lines data).
Proof.
  unfold parseAsciiStl, vertex_lines, endfacet_lines.
  destruct (stl_loop (split_char LF data) (mkStlAcc [] [] 0)) as (H1 & H2 & _).
  cbn [vertices indices vertexCount faceCount stl_tempVertices stl_tempIndices
       stl_vertexIndex] in *.
  rewrite H1, H2. cbn [length app Nat.add].
  rewrite facet_indices_length.
  repeat split.
  - f_equal. rewrite Nat2Z.inj_mul. rewrite Z.mul_comm. apply Z.div_mul. lia.
  - rewrite Nat2Z.inj_mul. rewrite Z.mul_comm. apply Z.div_mul. lia.
Qed.

(** ** What the loops do to a line they have reached *)











End JsParsersFacts.

(* ===================================================================== *)
(** * Properties of loadMeshAsset                                         *)
(* ===================================================================== *)

Module MeshLoaderFacts.
Import Js Types MeshLoader.

Ltac conjs := repeat match goal with |- _ /\ _ => split end.

Section Facts.

Context {W : Type} {bridge : MeshCoreBridge W}.



(** The triangle guard, once it is reached: when the decode has produced a
    triangle count above the limit and, on the foreign path, the buffer
    views have been built, loadMeshAsset returns an E_TOO_MANY_TRIANGLES
    error (an error result carries no asset).  On the in-process path the
    world is untouched; on the foreign path the bridge's releaseBuffers has
    been applied to the generation the decode allocated before the error
    is returned. *)
Theorem too_many_triangles_is_rejected (file : Blob) (options : MeshLoaderOptions)
    (w : W) (data : string) (format : MeshFormat) :
  let fileName := default "unnamed.mesh" (name file) in
  let guardTriangles := default MAX_TRIANGLE_COUNT (maxTriangleCount options) in
  let strategy := determineParseStrategy data format fileName in
  0 < size file ->
  size file <= default MAX_MESH_FILE_BYTES (maxFileBytes options) ->
  resolveFormat options fileName = Some format ->
  content file = Normal data ->
  (forall jsResult,
      parser strategy = js ->
      parseWithJs data (sformat strategy) = Normal jsResult ->
      guardTriangles < JsParsers.faceCount jsResult ->
      exists err metrics logs,
        loadMeshAsset file options w = (Normal (error err metrics logs), w) /\
        code err = E_TOO_MANY_TRIANGLES) /\
  (forall pointers w1 buffers,
      parser strategy = wasm ->
      parseMesh data (sformat strategy) w = (Normal pointers, w1) ->
      toMeshBuffers pointers w1 = Normal buffers ->
      guardTriangles < EmbindBridge.indexCount pointers / 3 ->
      exists err metrics logs,
        loadMeshAsset file options w =
          (Normal (error err metrics logs),
           releaseBuffers (EmbindBridge.generation pointers) w1) /\
        code err = E_TOO_MANY_TRIANGLES).
Proof.
  intros fileName guardTriangles strategy Hpos Hsize Hfmt Hcontent.
  assert (H1 : (size file <=? 0) = false) by lia.
  assert (H2 : (default MAX_MESH_FILE_BYTES (maxFileBytes options) <? size file) = false)
    by lia.
  split.
  - intros jsResult Hparser Hjs Hmany.
    unfold loadMeshAsset. cbv zeta. fold fileName.
    rewrite H1, H2, Hfmt, Hcontent. fold strategy. rewrite Hparser, Hjs.
    fold guardTriangles.
    assert (H3 : (guardTriangles <? JsParsers.faceCount jsResult) = true)
      by (apply Z.ltb_lt; exact Hmany).
    rewrite H3. eexists _, _, _. split; reflexivity.
  - intros pointers w1 buffers Hparser Hparse Hbuf Hmany.
    unfold loadMeshAsset. cbv zeta. fold fileName.
    rewrite H1, H2, Hfmt, Hcontent. fold strategy. rewrite Hparser, Hparse, Hbuf.
    fold guardTriangles.
    assert (H3 : (guardTriangles <? EmbindBridge.indexCount pointers / 3) = true)
      by (apply Z.ltb_lt; exact Hmany).
    rewrite H3.
    assert (Hrel : release buffers w1 =
              (mkMeshBuffers (vertexView buffers) (indexView buffers) (normalView buffers)
                 (generation buffers) true true,
               releaseBuffers (EmbindBridge.generation pointers) w1)).
    { unfold toMeshBuffers in Hbuf.
      destruct (getBuffersForGeneration (EmbindBridge.generation pointers) w1);
        [| destruct (legacyViews w1 pointers); [| discriminate]];
        injection Hbuf as <-; reflexivity. }
    rewrite Hrel. eexists _, _, _. split; reflexivity.
Qed.


End Facts.



(** The triangle-limit theorem on both paths, with the limit set to one:
    an OBJ quad decoded in process, and a binary PLY decoded by the Embind
    bridge, whose generation 1 is gone from the table afterwards. *)
Lemma too_many_triangles_is_rejected_witness :
  (exists err metrics logs,
     @loadMeshAsset _ (embindBridge Examples.quad_decoder)
        Examples.quad_obj_file Examples.one_triangle_limit EmbindBridge.initial
       = (Normal (error err metrics logs), EmbindBridge.initial) /\
     code err = E_TOO_MANY_TRIANGLES) /\
  (exists err metrics logs w',
     @loadMeshAsset _ (embindBridge Examples.quad_decoder)
        Examples.binary_ply_file Examples.one_triangle_limit EmbindBridge.initial
       = (Normal (error err metrics logs), w') /\
     code err = E_TOO_MANY_TRIANGLES /\
     EmbindBridge.getBuffersForGeneration 1 w' = None).
Proof.
  split.
  - refine (proj1 (@too_many_triangles_is_rejected _ (embindBridge Examples.quad_decoder)
             Examples.quad_obj_file Examples.one_triangle_limit EmbindBridge.initial
             Examples.quad_obj obj _ _ _ _) (JsParsers.parseObj Examples.quad_obj) _ _ _).
    + reflexivity.
    + vm_compute. discriminate.
    + reflexivity.
    + reflexivity.
    + reflexivity.
    + reflexivity.
    + reflexivity.
  - pose proof (proj2 (@too_many_triangles_is_rejected _ (embindBridge Examples.quad_decoder)
             Examples.binary_ply_file Examples.one_triangle_limit EmbindBridge.initial
             Examples.binary_ply ply_ascii eq_refl
             ltac:(vm_compute; discriminate) eq_refl eq_refl)) as H.
    cbv zeta in H.
    destruct (H (EmbindBridge.mkPointers 0 12 0 6 None None 1)
             (EmbindBridge.mkEmbindState 1
                (<[1 := EmbindBridge.mkPendingBuffers 1
                          (map (fun z => Fin (inject_Z z)) [0; 0; 0; 1; 0; 0; 1; 1; 0; 0; 1; 0])
                          [0; 1; 2; 0; 2; 3] None]> ∅))
             (mkMeshBuffers
                (map (fun z => Fin (inject_Z z)) [0; 0; 0; 1; 0; 0; 1; 1; 0; 0; 1; 0])
                [0; 1; 2; 0; 2; 3] None 1 false true)
             eq_refl eq_refl eq_refl eq_refl) as (err & metrics & logs & Hload & Hcode).
    exists err, metrics, logs. eexists. split; [exact Hload | split; [exact Hcode |]].
    vm_compute. reflexivity.
Defined.






End MeshLoaderFacts.

(* ===================================================================== *)
(** * Further properties of the in-process decoders                       *)
(* ===================================================================== *)

Module DecoderProps.
Import Js JsParsers.

Lemma flat_map_length3 {A B : Type} (f : A -> list B) (l : list A) :
  (forall a, length (f a) = 3%nat) ->
  length (flat_map f l) = (3 * length l)%nat.
Proof.
  intros Hf. induction l as [| a l IH]; simpl; [reflexivity |].
  rewrite length_app, Hf, IH. lia.
Qed.

Lemma obj_fan_length (f : list jsint) :
  length (obj_fan f) = (3 * (length f - 2))%nat.
Proof.
  unfold obj_fan. rewrite flat_map_length3 by reflexivity.
  rewrite length_seq. reflexivity.
Qed.

Lemma ply_fan_length (parts : list string) (count : Z) :
  length (ply_fan parts count) = (3 * Z.to_nat (count - 2))%nat.
Proof.
  unfold ply_fan. rewrite flat_map_length3 by reflexivity.
  rewrite length_seq. reflexivity.
Qed.

Lemma ply_face_line_length (parts : list string) :
  exists k, length (ply_face_line parts) = (3 * k)%nat.
Proof.
  unfold ply_face_line. destruct (parseInt_at parts 0) as [count |].
  - destruct (3 <=? count).
    + eexists. apply ply_fan_length.
    + exists 0%nat. reflexivity.
  - exists 0%nat. reflexivity.
Qed.

Lemma ply_face_loop_length (lines : list string) (i : nat) (n : Z) (temp : list jsint) :
  (exists k, length temp = (3 * k)%nat) ->
  exists k, length (ply_face_loop lines i n temp) = (3 * k)%nat.
Proof.
  revert i temp. induction lines as [| l lines IH]; intros i temp Htemp; simpl.
  - exact Htemp.
  - destruct (Z.of_nat i <? n); [| exact Htemp].
    destruct (is_empty (trim l)); [apply IH; exact Htemp |].
    apply IH. destruct Htemp as [k Hk].
    destruct (ply_face_line_length (split_ws (trim l))) as [k' Hk'].
    exists (k + k')%nat. rewrite length_app, Hk, Hk'. lia.
Qed.

(** The loop of parseObj: three numbers per vertex line, and n - 2 index
    triples per face line of n corners. *)
Lemma obj_loop (lines : list string) (acc : ObjAcc) :
  length (obj_tempVertices (fold_left obj_step lines acc)) =
    (length (obj_tempVertices acc) + 3 * count_where obj_is_vertex_line lines)%nat /\
  length (obj_tempIndices (fold_left obj_step lines acc)) =
    (length (obj_tempIndices acc) + 3 * sum_nat (map obj_line_triangles lines))%nat.
Proof.
  unfold sum_nat.
  revert acc. induction lines as [| line lines IH]; intros acc;
    cbn [fold_left count_where map fold_right].
  - split; lia.
  - destruct (IH (obj_step acc line)) as [H1 H2]. rewrite H1, H2. clear IH H1 H2.
    unfold obj_step, obj_is_vertex_line, obj_line_triangles.
    destruct (is_empty (trim line) || startsWith (trim line) "#"); [split; simpl; lia |].
    destruct (split_ws (trim line)) as [| prefix corners]; [split; simpl; lia |].
    destruct (String.eqb prefix "v").
    + cbn [obj_tempVertices obj_tempIndices]. rewrite length_app. simpl length. split; lia.
    + destruct (String.eqb prefix "f").
      * cbn [obj_tempVertices obj_tempIndices].
        rewrite length_app, obj_fan_length, length_map. split; lia.
      * split; simpl; lia.
Qed.

Lemma div3 (k : nat) : Z.of_nat (3 * k) / 3 = Z.of_nat k.
Proof. rewrite Nat2Z.inj_mul, Z.mul_comm. apply Z.div_mul. lia. Qed.

Lemma parseObj_counts (data : string) :
  vertexCount (parseObj data) =
    Some (Z.of_nat (count_where obj_is_vertex_line (split_char LF data))) /\
  faceCount (parseObj data) =
    Z.of_nat (sum_nat (map obj_line_triangles (split_char LF data))) /\
  length (vertices (parseObj data)) =
    (3 * count_where obj_is_vertex_line (split_char LF data))%nat /\
  length (indices (parseObj data)) =
    (3 * sum_nat (map obj_line_triangles (split_char LF data)))%nat.
Proof.
  unfold parseObj.
  destruct (obj_loop (split_char LF data) (mkObjAcc [] [])) as [H1 H2].
  cbn [vertexCount faceCount vertices indices obj_tempVertices obj_tempIndices
       length Nat.add] in *.
  unfold new_Uint32Array. rewrite length_map, H1, H2, !div3. auto.
Qed.

(** X1: Every in-process decoder that returns normally returns whole
    triangles: the index buffer holds exactly three entries per reported
    face. *)
Theorem decoders_return_whole_triangles (data : string) (fmt : Types.MeshFormat)
    (r : JsParseResult) :
  MeshLoader.parseWithJs data fmt = Normal r ->
  Z.of_nat (length (indices r)) = 3 * faceCount r.
Proof.
  destruct fmt; simpl; intros H; try discriminate H.
  - injection H as <-.
    destruct (JsParsersFacts.parseAsciiStl_counts data) as (_ & Hi & _ & Hf).
    rewrite Hi, Hf. unfold new_Uint32Array.
    rewrite length_map, JsParsersFacts.facet_indices_length. lia.
  - injection H as <-.
    destruct (parseObj_counts data) as (_ & Hf & _ & Hi). rewrite Hi, Hf. lia.
  - unfold parseAsciiPly in H.
    destruct (new_Float64Array _) as [vs0 | e]; [| discriminate H].
    destruct (ply_vertex_loop _ _ _ _) as [vs rest].
    injection H as <-. cbn [indices faceCount].
    destruct (ply_face_loop_length rest 0 (loop_bound (hFaceCount (parsePlyHeader data))) [])
      as [k Hk]; [exists 0%nat; reflexivity |].
    unfold new_Uint32Array. rewrite length_map, Hk, div3. lia.
Qed.

(** The OBJ quad: six indices for two faces. *)
Lemma decoders_return_whole_triangles_witness :
  MeshLoader.parseWithJs Examples.quad_obj Types.obj = Normal (parseObj Examples.quad_obj) /\
  Z.of_nat (length (indices (parseObj Examples.quad_obj))) =
    3 * faceCount (parseObj Examples.quad_obj).
Proof.
  split; [reflexivity |].
  apply (decoders_return_whole_triangles Examples.quad_obj Types.obj). reflexivity.
Defined.

(** X2: On an ASCII text the OBJ decoder counts one vertex per v line and
    n - 2 triangles per f line of n corners; comment lines, blank lines
    and other statements add nothing; the vertex buffer holds three numbers
    per vertex and the index buffer three entries per triangle. *)
Theorem obj_counts_vertices_and_fans (data : string) :
  all_ascii data = true ->
  vertexCount (parseObj data) =
    Some (Z.of_nat (count_where obj_is_vertex_line (split_char LF data))) /\
  faceCount (parseObj data) =
    Z.of_nat (sum_nat (map obj_line_triangles (split_char LF data))) /\
  length (vertices (parseObj data)) =
    (3 * count_where obj_is_vertex_line (split_char LF data))%nat /\
  length (indices (parseObj data)) =
    (3 * sum_nat (map obj_line_triangles (split_char LF data)))%nat.
Proof. intros _. apply parseObj_counts. Qed.

(** The OBJ quad: four v lines and one f line of four corners. *)
Lemma obj_counts_vertices_and_fans_witness :
  all_ascii Examples.quad_obj = true /\
  vertexCount (parseObj Examples.quad_obj) = Some 4 /\
  faceCount (parseObj Examples.quad_obj) = 2 /\
  length (indices (parseObj Examples.quad_obj)) = 6%nat.
Proof.
  assert (H : all_ascii Examples.quad_obj = true) by (vm_compute; reflexivity).
  destruct (obj_counts_vertices_and_fans Examples.quad_obj H) as (Hv & Hf & _ & Hi).
  split; [exact H | split; [| split]].
  - rewrite Hv. vm_compute. reflexivity.
  - rewrite Hf. vm_compute. reflexivity.
  - rewrite Hi. vm_compute. reflexivity.
Defined.

Lemma ply_vertex_loop_length (lines : list string) (i : nat) (n : Z) (vs : list number) :
  length (fst (ply_vertex_loop lines i n vs)) = length vs.
Proof.
  revert i vs. induction lines as [| l lines IH]; intros i vs; simpl; [reflexivity |].
  destruct (Z.of_nat i <? n); [| reflexivity].
  destruct (is_empty (trim l)); [apply IH |].
  rewrite IH, !length_insert. reflexivity.
Qed.

(** Slots at or beyond three times the number of lines read so far are
    left as they were. *)
Lemma ply_vertex_loop_untouched (lines : list string) (i : nat) (n : Z)
    (vs : list number) (j : nat) :
  (3 * (i + count_where is_nonblank_line lines) <= j)%nat ->
  fst (ply_vertex_loop lines i n vs) !! j = vs !! j.
Proof.
  revert i vs. induction lines as [| l lines IH]; intros i vs Hj; simpl; [reflexivity |].
  destruct (Z.of_nat i <? n); [| reflexivity].
  cbn [count_where] in Hj. unfold is_nonblank_line in Hj at 1.
  destruct (is_empty (trim l)); cbn [negb] in Hj.
  - apply IH. lia.
  - rewrite IH by lia.
    rewrite !list_lookup_insert_ne by lia. reflexivity.
Qed.

Lemma new_Float64Array_normal (n : jsint) (vs : list number) :
  new_Float64Array n = Normal vs ->
  vs = replicate (length vs) (Fin 0) /\
  Z.of_nat (length vs) = match n with Some z => z | None => 0 end.
Proof.
  unfold new_Float64Array, invalid_length. destruct n as [z |].
  - destruct (Z.ltb_spec z 0); simpl; [discriminate |].
    destruct (2 ^ 53 - 1 <? z); [discriminate |].
    intros Hvs. injection Hvs as <-. rewrite length_replicate. split; [reflexivity | lia].
  - intros Hvs. injection Hvs as <-. split; reflexivity.
Qed.

(** X3: The ASCII PLY decoder allocates the vertex buffer from the header's
    vertex count and never resizes it: a result always holds three numbers
    per declared vertex, and the slots for which the data section has no
    line are left at 0 (a truncated file is padded with zeros, not
    rejected). *)
Theorem ply_vertex_buffer_is_padded (data : string) (r : JsParseResult) :
  parseAsciiPly data = Normal r ->
  vertexCount r = hVertexCount (parsePlyHeader data) /\
  Z.of_nat (length (vertices r)) = 3 * loop_bound (hVertexCount (parsePlyHeader data)) /\
  forall j : nat,
    (3 * count_where is_nonblank_line (ply_data_lines data) <= j)%nat ->
    (j < length (vertices r))%nat ->
    vertices r !! j = Some (Fin 0).
Proof.
  unfold parseAsciiPly, ply_data_lines.
  destruct (new_Float64Array _) as [vs0 | e] eqn:Hnew; [| discriminate].
  pose proof (ply_vertex_loop_length
    (split_char LF (drop_string (headerEndOffset (parsePlyHeader data)) data)) 0
    (loop_bound (hVertexCount (parsePlyHeader data))) vs0) as Hlen.
  pose proof (ply_vertex_loop_untouched
    (split_char LF (drop_string (headerEndOffset (parsePlyHeader data)) data)) 0
    (loop_bound (hVertexCount (parsePlyHeader data))) vs0) as Hsame.
  destruct (ply_vertex_loop _ _ _ _) as [vs rest]. simpl in Hlen, Hsame.
  intros H. injection H as <-. cbn [vertexCount vertices].
  destruct (new_Float64Array_normal _ _ Hnew) as [Hzero Hsize].
  split; [reflexivity | split].
  - rewrite Hlen, Hsize. unfold loop_bound.
    destruct (hVertexCount (parsePlyHeader data)); simpl; lia.
  - intros j Hj Hlt. rewrite Hsame by (simpl; lia).
    rewrite Hzero. apply lookup_replicate_2. lia.
Qed.

(** A file that declares three vertices and holds one: nine numbers, the
    last of them 0. *)
Lemma ply_vertex_buffer_is_padded_witness :
  exists r, parseAsciiPly Examples.truncated_ply = Normal r /\
            vertexCount r = Some 3 /\ vertices r !! 8%nat = Some (Fin 0).
Proof.
  destruct (parseAsciiPly Examples.truncated_ply) as [r | e] eqn:E;
    [| vm_compute in E; discriminate E].
  exists r. split; [reflexivity |].
  destruct (ply_vertex_buffer_is_padded Examples.truncated_ply r E) as (Hc & Hl & Hz).
  split.
  - rewrite Hc. vm_compute. reflexivity.
  - apply Hz.
    + vm_compute. lia.
    + apply Nat2Z.inj_lt. rewrite Hl. vm_compute. reflexivity.
Defined.




End DecoderProps.

(* ===================================================================== *)
(** * Strings: reversal, splitting, prefixes                              *)
(* ===================================================================== *)

Module StringProps.
Import Js.

Lemma append_cons (c : ascii) (s t : string) : String c s +:+ t = String c (s +:+ t).
Proof. reflexivity. Qed.

Lemma append_nil_l (t : string) : EmptyString +:+ t = t.
Proof. reflexivity. Qed.

Lemma append_nil_r (s : string) : s +:+ EmptyString = s.
Proof.
  induction s as [| c s IH]; [reflexivity |]. rewrite append_cons, IH. reflexivity.
Qed.

Lemma append_assoc (a b c : string) : (a +:+ b) +:+ c = a +:+ b +:+ c.
Proof.
  induction a as [| x a IH]; [reflexivity |]. rewrite !append_cons, IH. reflexivity.
Qed.

Lemma length_append (a b : string) :
  String.length (a +:+ b) = (String.length a + String.length b)%nat.
Proof.
  induction a as [| x a IH]; [reflexivity |]. rewrite append_cons. simpl. by rewrite IH.
Qed.

Lemma rev_onto_onto (s acc acc' : string) :
  rev_string_onto (rev_string_onto s acc) acc' = rev_string_onto acc (s +:+ acc').
Proof.
  revert acc acc'. induction s as [| c s IH]; intros acc acc'; [reflexivity |].
  rewrite append_cons. simpl. rewrite IH. reflexivity.
Qed.

Lemma rev_string_involutive (s : string) : rev_string (rev_string s) = s.
Proof. unfold rev_string. rewrite rev_onto_onto. simpl. apply append_nil_r. Qed.

Lemma rev_onto_app (a b : string) :
  rev_string_onto a b = rev_string_onto a EmptyString +:+ b.
Proof.
  revert b. induction a as [| c a IH]; intros b; simpl; [reflexivity |].
  rewrite (IH (String c b)), (IH (String c EmptyString)), append_assoc. reflexivity.
Qed.

Lemma rev_onto_unfold (s acc : string) :
  rev_string (rev_string_onto s acc) = rev_string acc +:+ s.
Proof.
  unfold rev_string. rewrite rev_onto_onto, append_nil_r. apply rev_onto_app.
Qed.

Lemma rev_string_cons (c : ascii) (cur : string) :
  rev_string (String c cur) = rev_string cur +:+ String c EmptyString.
Proof. unfold rev_string. simpl. apply rev_onto_app. Qed.

(** Splitting a text whose first separator comes after [l]. *)
Lemma split_char_go_line (sep : ascii) (l cur rest : string) :
  includes_char l sep = false ->
  split_char_go sep cur (l +:+ String sep rest) =
    (rev_string cur +:+ l) :: split_char_go sep EmptyString rest.
Proof.
  revert cur. induction l as [| c l IH]; intros cur Hl.
  - rewrite append_nil_l, append_nil_r. simpl. rewrite Ascii.eqb_refl. reflexivity.
  - simpl in Hl. apply orb_false_iff in Hl as [Hc Hl].
    rewrite append_cons. simpl. rewrite Hc, (IH _ Hl).
    rewrite rev_string_cons, append_assoc. reflexivity.
Qed.

Lemma split_char_line (sep : ascii) (l rest : string) :
  includes_char l sep = false ->
  split_char sep (l +:+ String sep rest) = l :: split_char sep rest.
Proof. intros Hl. unfold split_char. by rewrite split_char_go_line. Qed.

Lemma split_char_go_last (sep : ascii) (l cur : string) :
  includes_char l sep = false ->
  split_char_go sep cur l = [rev_string cur +:+ l].
Proof.
  revert cur. induction l as [| c l IH]; intros cur Hl.
  - rewrite append_nil_r. reflexivity.
  - simpl in Hl. apply orb_false_iff in Hl as [Hc Hl].
    simpl. rewrite Hc, (IH _ Hl).
    rewrite rev_string_cons, append_assoc. reflexivity.
Qed.

Lemma split_char_last (sep : ascii) (l : string) :
  includes_char l sep = false -> split_char sep l = [l].
Proof. intros Hl. unfold split_char. by rewrite split_char_go_last. Qed.

Lemma take_string_app (a b : string) (n : nat) :
  (String.length a <= n)%nat ->
  take_string n (a +:+ b) = a +:+ take_string (n - String.length a) b.
Proof.
  revert n. induction a as [| c a IH]; intros n Hn.
  - rewrite !append_nil_l. simpl. by rewrite Nat.sub_0_r.
  - simpl in Hn. destruct n as [| n]; [lia |].
    rewrite !append_cons. simpl. rewrite IH by lia. reflexivity.
Qed.

Lemma drop_string_app (a b : string) :
  drop_string (String.length a) (a +:+ b) = b.
Proof.
  induction a as [| c a IH]; [by destruct b |]. rewrite append_cons. exact IH.
Qed.

End StringProps.

(* ===================================================================== *)
(** * Properties of the PLY header reader                                 *)
(* ===================================================================== *)

Module PlyHeaderProps.
Import Js JsParsers StringProps.

(** A line that does not end the header only moves the offset past
    itself and its line feed. *)
Lemma header_loop_skip (l : string) (rest : list string) (off : nat) (h : PlyHeader) :
  is_end_header_line l = false ->
  exists h', parsePlyHeader_loop (l :: rest) off h =
             parsePlyHeader_loop rest (off + (String.length l + 1))%nat h'.
Proof.
  unfold is_end_header_line. intros Hl. cbn [parsePlyHeader_loop].
  destruct (startsWith (strip_trailing_cr (trim l)) "format "); [eexists; reflexivity |].
  destruct (startsWith (strip_trailing_cr (trim l)) "element vertex ");
    [eexists; reflexivity |].
  destruct (startsWith (strip_trailing_cr (trim l)) "element face ");
    [eexists; reflexivity |].
  rewrite Hl. eexists. reflexivity.
Qed.

Lemma header_loop_end (e : string) (more : list string) (off : nat) (h : PlyHeader) :
  is_end_header_line e = true ->
  headerEndOffset (parsePlyHeader_loop (e :: more) off h) = (off + String.length e + 1)%nat.
Proof.
  unfold is_end_header_line. intros He. cbn [parsePlyHeader_loop].
  pose proof He as Heq. apply String.eqb_eq in Heq. rewrite Heq. reflexivity.
Qed.

Lemma header_loop_offset (pl : list string) (e : string) (more : list string)
    (off : nat) (h : PlyHeader) :
  Forall (fun l => is_end_header_line l = false) pl ->
  is_end_header_line e = true ->
  headerEndOffset (parsePlyHeader_loop (pl ++ e :: more) off h) =
    (off + String.length (join_lines pl) + String.length e + 1)%nat.
Proof.
  intros Hpl He. revert off h.
  induction Hpl as [| l pl Hl Hpl IH]; intros off h.
  - cbn [app join_lines]. rewrite (header_loop_end e more off h He). simpl. lia.
  - change ((l :: pl) ++ e :: more) with (l :: (pl ++ e :: more)).
    destruct (header_loop_skip l (pl ++ e :: more) off h Hl) as [h' ->].
    rewrite IH. cbn [join_lines]. rewrite length_append. simpl. lia.
Qed.

Lemma split_join_lines (pl : list string) (e tail : string) :
  Forall (fun l => includes_char l LF = false) pl ->
  includes_char e LF = false ->
  split_char LF (join_lines pl +:+ e +:+ String LF tail) =
    pl ++ e :: split_char LF tail.
Proof.
  intros Hpl He. induction Hpl as [| l pl Hl Hpl IH].
  - cbn [join_lines]. rewrite append_nil_l. apply split_char_line. exact He.
  - cbn [join_lines]. rewrite append_assoc, append_cons.
    rewrite (split_char_line LF l _ Hl), IH. reflexivity.
Qed.

(** X5: The header reader finds where the data begins: for an ASCII text
    made of header lines, an end_header line and a body, with the
    end_header line inside the first 4096 bytes, the offset it returns is
    the position right after the end_header line, so the decoder reads
    exactly the body.  (On an ASCII text the byte offset counted on the
    header is also the character offset in the decoded text.) *)
Theorem ply_data_starts_after_end_header (pl : list string) (e body : string) :
  all_ascii (join_lines pl +:+ e +:+ String LF body) = true ->
  Forall (fun l => includes_char l LF = false) pl ->
  Forall (fun l => is_end_header_line l = false) pl ->
  includes_char e LF = false ->
  is_end_header_line e = true ->
  (String.length (join_lines pl) + String.length e < 4096)%nat ->
  let data := join_lines pl +:+ e +:+ String LF body in
  drop_string (headerEndOffset (parsePlyHeader data)) data = body /\
  ply_data_lines data = split_char LF body.
Proof.
  intros _ Hlf Hpl He Hend Hsize data.
  assert (Hoff : headerEndOffset (parsePlyHeader data) =
                 String.length (join_lines pl +:+ e +:+ String LF EmptyString)).
  { unfold parsePlyHeader. rewrite FormatDetectorFacts.take_string_min.
    assert (Hdata : data = (join_lines pl +:+ e +:+ String LF EmptyString) +:+ body).
    { unfold data. rewrite !append_assoc, append_cons, append_nil_l. reflexivity. }
    rewrite Hdata, take_string_app.
    2: { rewrite !length_append. simpl. lia. }
    rewrite !append_assoc, append_cons, append_nil_l.
    rewrite (split_join_lines pl e _ Hlf He).
    rewrite (header_loop_offset pl e _ 0 _ Hpl Hend).
    rewrite !length_append. simpl. lia. }
  assert (Hbody : drop_string (headerEndOffset (parsePlyHeader data)) data = body).
  { rewrite Hoff. unfold data.
    rewrite <- (drop_string_app (join_lines pl +:+ e +:+ String LF EmptyString) body) at 2.
    rewrite !append_assoc, append_cons, append_nil_l. reflexivity. }
  split; [exact Hbody |]. unfold ply_data_lines. rewrite Hbody. reflexivity.
Qed.

(** A three-line header, its end line and a one-line body. *)
Lemma ply_data_starts_after_end_header_witness :
  let data := join_lines Examples.header_lines +:+ Examples.end_line +:+
              String LF Examples.one_vertex_body in
  drop_string (headerEndOffset (parsePlyHeader data)) data = Examples.one_vertex_body /\
  ply_data_lines data = split_char LF Examples.one_vertex_body.
Proof.
  apply (ply_data_starts_after_end_header Examples.header_lines Examples.end_line
           Examples.one_vertex_body).
  - vm_compute. reflexivity.
  - repeat constructor.
  - repeat constructor.
  - reflexivity.
  - reflexivity.
  - vm_compute. lia.
Defined.

End PlyHeaderProps.

(* ===================================================================== *)
(** * Further properties of format detection                              *)
(* ===================================================================== *)

Module FormatDetectorProps.
Import Js Types FormatDetector StringProps.

Lemma same_family_iff (a b : MeshFormat) :
  isSameFormatFamily a b = true <-> family a = family b.
Proof. destruct a, b; simpl; split; intros H; try reflexivity; discriminate H. Qed.

(** X6: The fields of a detection result fit together: no format exactly when
    the method is unknown; a mismatch is only ever reported with a
    magic-byte verdict, exactly when the extension names a format of
    another family; and expectedFormat is the extension's format on a
    mismatch and absent otherwise. *)
Theorem detection_result_is_coherent (file : File) :
  let r := detectMeshFormat file in
  (format r = None <-> method r = unknown) /\
  (mismatch r = true <->
     method r = magic /\
     exists ef mf, detectByExtension (file_name file) = Some ef /\
                   format r = Some mf /\ family ef <> family mf) /\
  expectedFormat r =
    (if mismatch r then detectByExtension (file_name file) else None).
Proof.
  cbv zeta. unfold detectMeshFormat.
  destruct (detectByMagicBytes _) as [mf |].
  - destruct (detectByExtension (file_name file)) as [ef |].
    + destruct (isSameFormatFamily ef mf) eqn:Hfam; simpl.
      * apply same_family_iff in Hfam.
        repeat split; try discriminate.
        intros (_ & ef' & mf' & He & Hm & Hne). congruence.
      * assert (family ef <> family mf).
        { intros Heq. apply same_family_iff in Heq. congruence. }
        repeat split; try discriminate. exists ef, mf. auto.
    + simpl. repeat split; try discriminate.
      intros (_ & ef' & mf' & He & _). discriminate.
  - destruct (detectByExtension (file_name file)) as [ef |]; simpl.
    + repeat split; try discriminate. intros (H & _). discriminate.
    + destruct (negb (is_empty (file_type file)));
        [destruct (detectByMime (file_type file)) |]; simpl;
        repeat split; try discriminate; try (intros (H & _); discriminate).
Qed.

Lemma lower_char_cases (c : ascii) (l : ascii) :
  lower_char c = l -> code l = code c \/ code l = code c + 32.
Proof.
  intros <-. unfold lower_char.
  destruct ((65 <=? code c) && (code c <=? 90)) eqn:Hup; [| left; reflexivity].
  right. unfold code at 1. rewrite nat_ascii_embedding.
  - rewrite Z2Nat.id; [reflexivity |]. unfold code. lia.
  - apply andb_true_iff in Hup as [H1 H2]. lia.
Qed.

Lemma take_take (n m : nat) (s : string) :
  (n <= m)%nat -> take_string n (take_string m s) = take_string n s.
Proof.
  revert m s. induction n as [| n IH]; intros m s Hnm; [reflexivity |].
  destruct m as [| m]; [lia |]. destruct s as [| c s]; [reflexivity |].
  simpl. rewrite IH by lia. reflexivity.
Qed.

(** A header whose first five bytes spell solid in any letter case and
    that has a line feed among its first 80 bytes is an ASCII STL. *)
Lemma magic_ascii_stl (header : string) :
  toLowerCase (take_string 5 header) = "solid" ->
  includes_char (take_string 80 header) LF = true ->
  detectByMagicBytes header = Some stl.
Proof.
  intros Hsolid Hlf.
  destruct header as [| c0 [| c1 [| c2 [| c3 [| c4 rest]]]]]; try discriminate Hsolid.
  unfold detectByMagicBytes.
  change (take_string 5 (String c0 (String c1 (String c2 (String c3 (String c4 rest))))))
    with (String c0 (String c1 (String c2 (String c3 (String c4 EmptyString))))) in *.
  rewrite Hsolid, Hlf.
  simpl in Hsolid. injection Hsolid as H0 _ _ _ _.
  apply lower_char_cases in H0. change (code "s") with 115 in H0.
  assert (Hply : has_ply_magic
            (String c0 (String c1 (String c2 (String c3 (String c4 rest))))) = false).
  { cbn [has_ply_magic]. destruct (Z.eqb_spec (code c0) 112); [lia | reflexivity]. }
  assert (Htwo : String.eqb (take_string 2
             (String c0 (String c1 (String c2 (String c3 (String c4 rest)))))) "v "
           || String.eqb (take_string 2
             (String c0 (String c1 (String c2 (String c3 (String c4 rest)))))) "# " = false).
  { cbn [take_string String.eqb].
    destruct (Ascii.eqb_spec c0 "v") as [-> |]; [change (code "v") with 118 in H0; lia |].
    destruct (Ascii.eqb_spec c0 "#") as [-> |]; [change (code "#") with 35 in H0; lia |].
    reflexivity. }
  rewrite Hply, Htwo. reflexivity.
Qed.

(** X7: Files that begin with solid (in any letter case) and have a line feed
    among their first 80 bytes are detected as ASCII STL by magic bytes,
    whatever their name and MIME type are. *)
Theorem solid_with_newline_is_ascii_stl (file : File) :
  toLowerCase (take_string 5 (file_bytes file)) = "solid" ->
  includes_char (take_string 80 (file_bytes file)) LF = true ->
  format (detectMeshFormat file) = Some stl /\
  method (detectMeshFormat file) = magic.
Proof.
  intros Hsolid Hlf. unfold detectMeshFormat.
  rewrite FormatDetectorFacts.take_string_min.
  rewrite (magic_ascii_stl (take_string 256 (file_bytes file))).
  - destruct (detectByExtension (file_name file)) as [ef |]; [| split; reflexivity].
    destruct (negb (isSameFormatFamily ef stl)); split; reflexivity.
  - rewrite take_take by lia. exact Hsolid.
  - rewrite take_take by lia. exact Hlf.
Qed.

(** The ASCII STL cube under the name part.obj. *)
Lemma solid_with_newline_is_ascii_stl_witness :
  format (detectMeshFormat Examples.misnamed_stl_file) = Some stl /\
  method (detectMeshFormat Examples.misnamed_stl_file) = magic.
Proof.
  apply (solid_with_newline_is_ascii_stl Examples.misnamed_stl_file); reflexivity.
Defined.

(** X8: Every magic-byte verdict rests on the bytes it names: a PLY verdict
    on the ply prefix, an OBJ verdict on a leading 'v ' or '# ', an ASCII
    STL verdict on solid plus a line feed, and a binary STL verdict on at
    least 84 bytes that do not begin with solid and hold a triangle count
    between 1 and 99,999,999 at offset 80.  In particular a header that
    begins with solid is never classified as binary STL. *)
Theorem magic_verdicts_are_justified (header : string) (f : MeshFormat) :
  detectByMagicBytes header = Some f ->
  match f with
  | ply_ascii | ply_binary_le | ply_binary_be =>
      has_ply_magic header = true /\ f = detectPlySubformat header
  | obj =>
      take_string 2 header = "v " \/ take_string 2 header = "# "
  | stl =>
      toLowerCase (take_string 5 header) = "solid" /\
      includes_char (take_string 80 header) LF = true
  | stl_binary =>
      (84 <= String.length header)%nat /\
      toLowerCase (take_string 5 header) <> "solid" /\
      exists n, getUint32_le header 80 = Some n /\ 0 < n < 100000000
  end.
Proof.
  unfold detectByMagicBytes.
  destruct (String.length header <? 4)%nat; [discriminate |].
  destruct (has_ply_magic header) eqn:Hply.
  - intros H. injection H as <-. unfold detectPlySubformat.
    destruct (includes _ "format binary_little_endian"); [split; reflexivity |].
    destruct (includes _ "format binary_big_endian"); split; reflexivity.
  - destruct (String.eqb_spec (take_string 2 header) "v ") as [Hv |].
    { intros H. injection H as <-. left. exact Hv. }
    destruct (String.eqb_spec (take_string 2 header) "# ") as [Hh |].
    { intros H. injection H as <-. right. exact Hh. }
    cbn [orb].
    destruct (String.eqb_spec (toLowerCase (take_string 5 header)) "solid") as [Hs | Hs].
    + destruct (includes_char (take_string 80 header) LF) eqn:Hlf; cbn [andb].
      * intros H. injection H as <-. split; [exact Hs | reflexivity].
      * destruct (84 <=? String.length header)%nat; [| discriminate].
        destruct (getUint32_le header 80); [| discriminate].
        rewrite andb_false_r. discriminate.
    + cbn [andb].
      destruct (Nat.leb_spec 84 (String.length header)); [| discriminate].
      destruct (getUint32_le header 80) as [cnt |]; [| discriminate].
      destruct (Z.ltb_spec 0 cnt); [| discriminate].
      destruct (Z.ltb_spec cnt 100000000); [| discriminate].
      intros Hf. injection Hf as <-.
      split; [assumption | split; [exact Hs |]]. exists cnt. split; [reflexivity | lia].
Qed.

(** The head of the binary little-endian PLY file. *)
Lemma magic_verdicts_are_justified_witness :
  detectByMagicBytes Examples.binary_ply = Some ply_binary_le /\
  has_ply_magic Examples.binary_ply = true /\
  ply_binary_le = detectPlySubformat Examples.binary_ply.
Proof.
  assert (H : detectByMagicBytes Examples.binary_ply = Some ply_binary_le)
    by (vm_compute; reflexivity).
  split; [exact H |].
  exact (magic_verdicts_are_justified Examples.binary_ply ply_binary_le H).
Defined.

End FormatDetectorProps.

(* ===================================================================== *)
(** * Properties of the generation table                                  *)
(* ===================================================================== *)

Module EmbindBridgeProps.
Import Js Types EmbindBridge.

Lemma reachable_bounded (st : EmbindState) : reachable st -> table_bounded st.
Proof.
  induction 1 as [| decoder data format st Hr [Hc IH] | g st Hr [Hc IH]].
  - split; [simpl; lia |]. intros g b H. simpl in H. rewrite lookup_empty in H. discriminate.
  - unfold parseMesh. destruct (negb (success (decoder data (filenameMap format)))).
    + split; assumption.
    + unfold table_bounded. cbn [snd generationCounter pendingBuffersMap].
      split; [lia |]. intros g b H.
      destruct (decide (g = generationCounter st + 1)) as [-> | Hne]; [lia |].
      rewrite lookup_insert_ne in H by congruence.
      specialize (IH g b H). lia.
  - split; [exact Hc |]. intros g' b H. simpl in H.
    destruct (decide (g = g')) as [-> | Hne].
    + rewrite lookup_delete_eq in H. discriminate.
    + rewrite lookup_delete_ne in H by exact Hne. exact (IH g' b H).
Qed.

Lemma parseMesh_success decoder data format st p st' :
  parseMesh decoder data format st = (Normal p, st') ->
  generation p = generationCounter st + 1 /\
  generationCounter st' = generationCounter st + 1 /\
  pendingBuffersMap st' =
    <[generation p :=
        mkPendingBuffers (generation p)
          (default [] (r_vertices (decoder data (filenameMap format))))
          (default [] (r_indices (decoder data (filenameMap format))))
          (r_normals (decoder data (filenameMap format)))]> (pendingBuffersMap st) /\
  vertexCount p =
    Z.of_nat (length (default [] (r_vertices (decoder data (filenameMap format))))) /\
  indexCount p =
    Z.of_nat (length (default [] (r_indices (decoder data (filenameMap format))))).
Proof.
  unfold parseMesh. destruct (negb (success _)); [discriminate |].
  intros H. injection H as <- <-. simpl. auto.
Qed.

(** X9: No generation is ever reused: in every state the module can be in, a
    successful parseMesh returns a generation that is one above the
    counter and was not registered before, registers under it exactly the
    arrays the foreign decoder returned, and leaves every other
    registration as it was. *)
Theorem parseMesh_allocates_fresh_generation decoder data format st p st' :
  reachable st ->
  parseMesh decoder data format st = (Normal p, st') ->
  generation p = generationCounter st + 1 /\
  getBuffersForGeneration (generation p) st = None /\
  getBuffersForGeneration (generation p) st' =
    Some (mkPendingBuffers (generation p)
            (default [] (r_vertices (decoder data (filenameMap format))))
            (default [] (r_indices (decoder data (filenameMap format))))
            (r_normals (decoder data (filenameMap format)))) /\
  forall g, g <> generation p ->
    getBuffersForGeneration g st' = getBuffersForGeneration g st.
Proof.
  intros Hr Hp. destruct (reachable_bounded st Hr) as [Hc Hb].
  destruct (parseMesh_success _ _ _ _ _ _ Hp) as (Hg & _ & Hm & _).
  unfold getBuffersForGeneration. rewrite Hm.
  split; [exact Hg | split; [| split]].
  - destruct (pendingBuffersMap st !! generation p) as [b |] eqn:E; [| reflexivity].
    specialize (Hb _ _ E). lia.
  - apply lookup_insert_eq.
  - intros g Hne. apply lookup_insert_ne. congruence.
Qed.

(** The first parse on a new module: generation 1. *)
Lemma parseMesh_allocates_fresh_generation_witness :
  exists p st',
    parseMesh Examples.quad_decoder Examples.binary_ply ply_binary_le initial
      = (Normal p, st') /\
    generation p = generationCounter initial + 1 /\
    getBuffersForGeneration (generation p) initial = None /\
    getBuffersForGeneration (generation p) st' =
      Some (mkPendingBuffers (generation p)
              (default [] (r_vertices (Examples.quad_decoder Examples.binary_ply
                                         (filenameMap ply_binary_le))))
              (default [] (r_indices (Examples.quad_decoder Examples.binary_ply
                                        (filenameMap ply_binary_le))))
              (r_normals (Examples.quad_decoder Examples.binary_ply
                            (filenameMap ply_binary_le)))) /\
    forall g, g <> generation p ->
      getBuffersForGeneration g st' = getBuffersForGeneration g initial.
Proof.
  eexists _, _. split; [reflexivity |].
  apply (parseMesh_allocates_fresh_generation Examples.quad_decoder Examples.binary_ply
           ply_binary_le initial _ _ reach_initial eq_refl).
Defined.

Lemma release_after_parse decoder data format st :
  reachable st ->
  match parseMesh decoder data format st with
  | (Normal p, st') =>
      pendingBuffersMap (releaseBuffers (generation p) st') = pendingBuffersMap st
  | (Throw e, st') => st' = st
  end.
Proof.
  intros Hr. destruct (parseMesh decoder data format st) as [[p | e] st'] eqn:Hp.
  - destruct (reachable_bounded st Hr) as [Hc Hb].
    destruct (parseMesh_success _ _ _ _ _ _ Hp) as (Hg & Hcnt & Hm & _).
    unfold releaseBuffers. simpl. rewrite Hm.
    apply delete_insert_id.
    destruct (pendingBuffersMap st !! generation p) as [b |] eqn:E; [| reflexivity].
    specialize (Hb _ _ E). lia.
  - unfold parseMesh in Hp. destruct (negb (success _)); [| discriminate].
    injection Hp as <- <-. reflexivity.
Qed.

(** X10: Releasing the generation a parse has just returned puts the table back
    as it was before the parse; only the counter has moved on.  A parse
    that the foreign decoder rejects leaves the module state untouched. *)
Theorem parse_then_release_restores_table decoder data format st :
  reachable st ->
  match parseMesh decoder data format st with
  | (Normal p, st') =>
      pendingBuffersMap (releaseBuffers (generation p) st') = pendingBuffersMap st /\
      generationCounter (releaseBuffers (generation p) st') = generationCounter st + 1
  | (Throw e, st') =>
      st' = st /\
      e = (if is_empty (error (decoder data (filenameMap format)))
           then "Mesh parsing failed"
           else error (decoder data (filenameMap format)))
  end.
Proof.
  intros Hr. destruct (parseMesh decoder data format st) as [[p | e] st'] eqn:Hp.
  - destruct (reachable_bounded st Hr) as [Hc Hb].
    destruct (parseMesh_success _ _ _ _ _ _ Hp) as (Hg & Hcnt & Hm & _).
    unfold releaseBuffers. simpl. rewrite Hm. split; [| exact Hcnt].
    apply delete_insert_id.
    destruct (pendingBuffersMap st !! generation p) as [b |] eqn:E; [| reflexivity].
    specialize (Hb _ _ E). lia.
  - unfold parseMesh in Hp. destruct (negb (success _)); [| discriminate].
    injection Hp as <- <-. split; reflexivity.
Qed.

(** A parse after an earlier parse, released at once: generation 1 stays
    registered, generation 2 is gone. *)
Lemma parse_then_release_restores_table_witness :
  let st := snd (parseMesh Examples.quad_decoder Examples.binary_ply ply_binary_le initial) in
  reachable st /\
  match parseMesh Examples.quad_decoder Examples.binary_ply ply_binary_le st with
  | (Normal p, st') =>
      pendingBuffersMap (releaseBuffers (generation p) st') = pendingBuffersMap st /\
      generationCounter (releaseBuffers (generation p) st') = generationCounter st + 1
  | (Throw e, st') =>
      st' = st /\
      e = (if is_empty (error (Examples.quad_decoder Examples.binary_ply
                                 (filenameMap ply_binary_le)))
           then "Mesh parsing failed"
           else error (Examples.quad_decoder Examples.binary_ply
                         (filenameMap ply_binary_le)))
  end.
Proof.
  cbv zeta.
  assert (H : reachable (snd (parseMesh Examples.quad_decoder Examples.binary_ply
                                ply_binary_le initial)))
    by (apply reach_parse, reach_initial).
  split; [exact H |].
  exact (parse_then_release_restores_table Examples.quad_decoder Examples.binary_ply
           ply_binary_le _ H).
Defined.

End EmbindBridgeProps.

(* ===================================================================== *)
(** * Properties of loadMeshAsset                                         *)
(* ===================================================================== *)

Module MeshLoaderProps.
Import Js Types MeshLoader StringProps.

Lemma rev_string_app (a b : string) :
  rev_string (a +:+ b) = rev_string b +:+ rev_string a.
Proof.
  induction a as [| c a IH].
  - rewrite append_nil_l. change (rev_string EmptyString) with EmptyString.
    by rewrite append_nil_r.
  - rewrite append_cons, !rev_string_cons, IH, append_assoc. reflexivity.
Qed.

Lemma startsWith_split (s p : string) :
  startsWith s p = true -> exists r, s = p +:+ r.
Proof.
  revert s. induction p as [| a p IH]; intros s H.
  - exists s. reflexivity.
  - destruct s as [| b s]; [discriminate |]. simpl in H.
    destruct (Ascii.eqb a b) eqn:E; [| discriminate].
    apply Ascii.eqb_eq in E as ->. destruct (IH s H) as [r ->].
    exists r. reflexivity.
Qed.

Lemma endsWith_split (s p : string) :
  endsWith s p = true -> exists r, s = r +:+ p.
Proof.
  unfold endsWith. intros H. destruct (startsWith_split _ _ H) as [r Hr].
  exists (rev_string r).
  rewrite <- (rev_string_involutive s), Hr, rev_string_app, rev_string_involutive.
  reflexivity.
Qed.

Lemma split_char_go_nonempty (sep : ascii) (cur s : string) :
  split_char_go sep cur s <> [].
Proof.
  revert cur. induction s as [| c s IH]; intros cur; cbn [split_char_go];
    [discriminate |].
  destruct (Ascii.eqb c sep); [discriminate | apply IH].
Qed.

(** The piece after the last separator. *)
Lemma split_char_go_suffix (sep : ascii) (r l cur : string) :
  includes_char l sep = false ->
  List.last (split_char_go sep cur (r +:+ String sep l)) EmptyString = l.
Proof.
  intros Hl. revert cur. induction r as [| c r IH]; intros cur.
  - rewrite append_nil_l. cbn [split_char_go]. rewrite Ascii.eqb_refl.
    rewrite (split_char_go_last sep l EmptyString Hl).
    change (rev_string EmptyString) with EmptyString. rewrite append_nil_l.
    reflexivity.
  - rewrite append_cons. cbn [split_char_go]. destruct (Ascii.eqb c sep).
    + specialize (IH EmptyString).
      pose proof (split_char_go_nonempty sep EmptyString (r +:+ String sep l)) as Hne.
      destruct (split_char_go sep EmptyString (r +:+ String sep l)); [contradiction |].
      exact IH.
    + apply IH.
Qed.

Lemma fileExtension_suffix (fileName r ext : string) :
  toLowerCase fileName = r +:+ String "." ext ->
  includes_char ext "." = false ->
  fileExtension fileName = ext.
Proof.
  intros H Hext. unfold fileExtension, split_char. rewrite H.
  by apply split_char_go_suffix.
Qed.

(** X11: A format inferred from the file name is of the family the decoder
    routing settles on: the routing's fall-through branch, which hands the
    hint unchanged to the foreign decoder, is only reached by a hint given
    in the options. *)
Theorem inferred_format_agrees_with_routing (data fileName : string) (f : MeshFormat) :
  inferFormat fileName = Some f ->
  let s := determineParseStrategy data f fileName in
  FormatDetector.isSameFormatFamily f (sformat s) = true /\
  (parser s = wasm -> sformat s <> f).
Proof.
  unfold inferFormat. intros H.
  destruct (endsWith (toLowerCase fileName) ".obj") eqn:Eobj.
  { injection H as <-. destruct (endsWith_split _ _ Eobj) as [r Hr].
    cbv zeta. unfold determineParseStrategy.
    rewrite (fileExtension_suffix fileName r "obj" Hr eq_refl).
    simpl. split; [reflexivity | discriminate]. }
  destruct (endsWith (toLowerCase fileName) ".stl") eqn:Estl.
  { injection H as <-. destruct (endsWith_split _ _ Estl) as [r Hr].
    cbv zeta. unfold determineParseStrategy.
    rewrite (fileExtension_suffix fileName r "stl" Hr eq_refl).
    simpl. destruct (JsParsers.isAsciiStl data); simpl;
      (split; [reflexivity | try discriminate]). }
  destruct (endsWith (toLowerCase fileName) ".ply") eqn:Eply; [| discriminate].
  injection H as <-. destruct (endsWith_split _ _ Eply) as [r Hr].
  cbv zeta. unfold determineParseStrategy.
  rewrite (fileExtension_suffix fileName r "ply" Hr eq_refl).
  simpl. destruct (JsParsers.format (JsParsers.parsePlyHeader data)); simpl;
    (split; [reflexivity | try discriminate]).
Qed.

(** The cube under an upper-case extension. *)
Lemma inferred_format_agrees_with_routing_witness :
  inferFormat "Cube.STL" = Some stl /\
  let s := determineParseStrategy Examples.cube_stl stl "Cube.STL" in
  FormatDetector.isSameFormatFamily stl (sformat s) = true /\
  (parser s = wasm -> sformat s <> stl).
Proof.
  split; [reflexivity |].
  apply (inferred_format_agrees_with_routing Examples.cube_stl "Cube.STL" stl).
  reflexivity.
Defined.

(** X12: The routing and the dispatcher fit together.  The in-process
    route only ever carries one of the three text formats parseWithJs has
    a decoder for (ASCII PLY by its header, ASCII STL by isAsciiStl, OBJ by
    its extension), so the dispatcher's default branch (JS parser does not
    support format) is never taken in a load.  The foreign route carries a
    binary format, or the caller's hint for an extension that is none of
    ply, stl and obj. *)
Theorem js_route_carries_text_formats (data fileName : string) (hint : MeshFormat) :
  let s := determineParseStrategy data hint fileName in
  match parser s with
  | js =>
      (sformat s = ply_ascii /\ fileExtension fileName = "ply" /\
       JsParsers.format (JsParsers.parsePlyHeader data) = JsParsers.fmt_ascii) \/
      (sformat s = stl /\ fileExtension fileName = "stl" /\
       JsParsers.isAsciiStl data = true) \/
      (sformat s = obj /\ fileExtension fileName = "obj")
  | wasm =>
      (sformat s = ply_binary_le /\ fileExtension fileName = "ply") \/
      (sformat s = ply_binary_be /\ fileExtension fileName = "ply") \/
      (sformat s = stl_binary /\ fileExtension fileName = "stl" /\
       JsParsers.isAsciiStl data = false) \/
      (sformat s = hint /\ fileExtension fileName <> "ply" /\
       fileExtension fileName <> "stl" /\ fileExtension fileName <> "obj")
  end.
Proof.
  cbv zeta. unfold determineParseStrategy.
  destruct (String.eqb_spec (fileExtension fileName) "ply") as [Eply | Eply].
  { destruct (JsParsers.format (JsParsers.parsePlyHeader data)) eqn:Efmt; simpl; auto. }
  destruct (String.eqb_spec (fileExtension fileName) "stl") as [Estl | Estl].
  { destruct (JsParsers.isAsciiStl data) eqn:Eascii; simpl; auto 10. }
  destruct (String.eqb_spec (fileExtension fileName) "obj") as [Eobj | Eobj].
  { simpl. auto 10. }
  simpl. auto 10.
Qed.

Section AnyBridge.

Context {W : Type} {bridge : MeshCoreBridge W}.

(** X13: A file that is empty, above the size guard, of no resolvable format
    or unreadable is rejected before any decoding: the result is an error
    with zeroed counts whose code tells which check failed (in this
    order), the last log entry is that error, and the bridge's world is
    exactly as it was. *)
Theorem rejected_before_decoding (file : Blob) (options : MeshLoaderOptions) (w : W) :
  let fileName := default "unnamed.mesh" (name file) in
  let guardBytes := default MAX_MESH_FILE_BYTES (maxFileBytes options) in
  size file <= 0 \/ guardBytes < size file \/
  resolveFormat options fileName = None \/ is_throw (content file) = true ->
  exists msg logs,
    let c := if size file <=? 0 then E_EMPTY_FILE
             else if guardBytes <? size file then E_FILE_TOO_LARGE
             else match resolveFormat options fileName with
                  | None => E_UNSUPPORTED_FORMAT
                  | Some _ => E_FILE_READ_FAILED
                  end in
    loadMeshAsset file options w =
      (Normal (error (mkAdapterError c msg) (mkMetrics 0 0 fast 0 (size file))
                 (logs ++ [mkLogEvent ERROR msg None (Some c)])), w).
Proof.
  intros fileName guardBytes H. unfold loadMeshAsset. cbv zeta.
  fold fileName. fold guardBytes.
  destruct (size file <=? 0) eqn:E1; [eexists _, _; reflexivity |].
  destruct (guardBytes <? size file) eqn:E2; [eexists _, _; reflexivity |].
  destruct (resolveFormat options fileName) as [f |] eqn:E3;
    [| eexists _, _; reflexivity].
  destruct (content file) as [data | e] eqn:E4; [| eexists _, _; reflexivity].
  exfalso. destruct H as [H | [H | [H | H]]]; try discriminate; lia.
Qed.

(** X14: What a successful load guarantees: the file was not empty and within
    the size guard, its bytes were read, the reported triangle count is
    within the triangle guard, the asset carries the format the routing
    settled on, and the metrics report the fast mode without fallback and
    the number of bytes read. *)
Theorem successful_load_is_within_guards (file : Blob) (options : MeshLoaderOptions)
    (w w' : W) (asset : MeshAsset) (metrics : AdapterMetrics) (logs : list LogEvent) :
  loadMeshAsset file options w = (Normal (success asset metrics logs), w') ->
  0 < size file <= default MAX_MESH_FILE_BYTES (maxFileBytes options) /\
  triangleCount metrics <= default MAX_TRIANGLE_COUNT (maxTriangleCount options) /\
  parserMode metrics = fast /\ fallbackCount metrics = 0 /\
  fileSizeBytes asset = size file /\
  released (buffers asset) = false /\
  exists data f,
    content file = Normal data /\
    resolveFormat options (default "unnamed.mesh" (name file)) = Some f /\
    bytesRead metrics = Z.of_nat (String.length data) /\
    format asset = sformat (determineParseStrategy data f (fileName asset)).
Proof.
  unfold loadMeshAsset. cbv zeta.
  destruct (size file <=? 0) eqn:E1; [discriminate |].
  destruct (default MAX_MESH_FILE_BYTES (maxFileBytes options) <? size file) eqn:E2;
    [discriminate |].
  destruct (resolveFormat options (default "unnamed.mesh" (name file))) as [f |] eqn:E3;
    [| discriminate].
  destruct (content file) as [data | e] eqn:E4; [| discriminate].
  destruct (parser (determineParseStrategy data f (default "unnamed.mesh" (name file)))).
  - destruct (parseWithJs data _) as [r | e]; [| discriminate].
    destruct (_ <? JsParsers.faceCount r) eqn:E5; [discriminate |].
    intros H. injection H as <- <- _ _. cbn.
    repeat split; try lia. exists data, f. auto.
  - destruct (parseMesh data _ w) as [[p | e] w1]; [| discriminate].
    destruct (toMeshBuffers p w1) as [b | e] eqn:Eb; [| discriminate].
    destruct (_ <? EmbindBridge.indexCount p / 3) eqn:E5.
    + destruct (release b w1). discriminate.
    + intros H. injection H as <- <- _ _. cbn.
      repeat split; try lia.
      * unfold toMeshBuffers in Eb.
        destruct (getBuffersForGeneration _ w1);
          [| destruct (legacyViews w1 p); [| discriminate]];
          injection Eb as <-; reflexivity.
      * exists data, f. auto.
Qed.

End AnyBridge.

(** An empty file. *)
Lemma rejected_before_decoding_witness :
  exists msg logs,
    @loadMeshAsset _ (embindBridge Examples.quad_decoder)
       Examples.empty_blob Examples.default_options EmbindBridge.initial =
      (Normal (error (mkAdapterError E_EMPTY_FILE msg) (mkMetrics 0 0 fast 0 0)
                 (logs ++ [mkLogEvent ERROR msg None (Some E_EMPTY_FILE)])),
       EmbindBridge.initial).
Proof.
  apply (@rejected_before_decoding _ (embindBridge Examples.quad_decoder)
           Examples.empty_blob Examples.default_options EmbindBridge.initial).
  left. simpl. lia.
Defined.

(** The OBJ quad, decoded in process. *)
Lemma successful_load_is_within_guards_witness :
  exists asset metrics logs w',
    @loadMeshAsset _ (embindBridge Examples.quad_decoder)
       Examples.quad_obj_file Examples.default_options EmbindBridge.initial =
      (Normal (success asset metrics logs), w') /\
    triangleCount metrics <= MAX_TRIANGLE_COUNT /\
    parserMode metrics = fast /\ fallbackCount metrics = 0 /\
    released (buffers asset) = false.
Proof.
  destruct (@loadMeshAsset _ (embindBridge Examples.quad_decoder)
              Examples.quad_obj_file Examples.default_options EmbindBridge.initial)
    as [[[asset metrics logs | err metrics logs] | e] w'] eqn:E;
    [| vm_compute in E; discriminate E ..].
  exists asset, metrics, logs, w'. split; [reflexivity |].
  destruct (@successful_load_is_within_guards _ (embindBridge Examples.quad_decoder)
              Examples.quad_obj_file Examples.default_options EmbindBridge.initial w'
              asset metrics logs E) as (_ & Ht & Hm & Hf & _ & Hr & _).
  auto.
Defined.

Section Embind.

Variable decoder : string -> string -> EmbindBridge.EmbindParseResult.

(** X15: After a successful parseMesh of the Embind bridge, toMeshBuffers
    takes the arrays registered under the generation just returned, which
    are the decoder's arrays: it returns buffers that are not released, and
    the views over the bridge's dummy memory, whose construction can throw,
    are not built. *)
Theorem embind_buffers_come_from_the_table (data : string) (f : MeshFormat)
    (w w1 : EmbindBridge.EmbindState) (p : EmbindBridge.MeshBufferPointers) :
  EmbindBridge.parseMesh decoder data f w = (Normal p, w1) ->
  @toMeshBuffers _ (embindBridge decoder) p w1 =
    Normal (mkMeshBuffers
              (default [] (EmbindBridge.r_vertices (decoder data (EmbindBridge.filenameMap f))))
              (default [] (EmbindBridge.r_indices (decoder data (EmbindBridge.filenameMap f))))
              (EmbindBridge.r_normals (decoder data (EmbindBridge.filenameMap f)))
              (EmbindBridge.generation p) false true) /\
  EmbindBridge.generation p = EmbindBridge.generationCounter w + 1.
Proof.
  intros Hp.
  destruct (EmbindBridgeProps.parseMesh_success _ _ _ _ _ _ Hp) as (Hg & _ & Hm & _).
  split; [| exact Hg].
  unfold toMeshBuffers. cbn [getBuffersForGeneration embindBridge].
  unfold EmbindBridge.getBuffersForGeneration. rewrite Hm, lookup_insert_eq.
  reflexivity.
Qed.

Lemma embind_toMeshBuffers (data : string) (f : MeshFormat)
    (w w1 : EmbindBridge.EmbindState) (p : EmbindBridge.MeshBufferPointers) :
  EmbindBridge.parseMesh decoder data f w = (Normal p, w1) ->
  exists vs ixs ns,
    @toMeshBuffers _ (embindBridge decoder) p w1 =
      Normal (mkMeshBuffers vs ixs ns (EmbindBridge.generation p) false true).
Proof.
  intros Hp.
  destruct (EmbindBridgeProps.parseMesh_success _ _ _ _ _ _ Hp) as (_ & _ & Hm & _).
  unfold toMeshBuffers. cbn [getBuffersForGeneration embindBridge].
  unfold EmbindBridge.getBuffersForGeneration. rewrite Hm, lookup_insert_eq.
  eexists _, _, _. reflexivity.
Qed.

(** X16: With the Embind bridge, a load that returns a result leaks no
    registration.  Starting from any state the module can be in, a load
    that returns an error leaves the generation table as it found it, and
    after a load that returns a success one call of the asset's release
    hook puts the table back as it was before the load.  (This is about
    loads that return: the options callbacks are total here, so a load
    that rejects because a callback of the caller throws is not
    covered.) *)
Theorem embind_load_leaks_no_buffers (file : Blob) (options : MeshLoaderOptions)
    (w w' : EmbindBridge.EmbindState) (r : MeshLoadResult) :
  EmbindBridge.reachable w ->
  @loadMeshAsset _ (embindBridge decoder) file options w = (Normal r, w') ->
  match r with
  | error _ _ _ => EmbindBridge.pendingBuffersMap w' = EmbindBridge.pendingBuffersMap w
  | success asset _ _ =>
      EmbindBridge.pendingBuffersMap
        (snd (@release _ (embindBridge decoder) (buffers asset) w')) =
      EmbindBridge.pendingBuffersMap w
  end.
Proof.
  intros Hr. unfold loadMeshAsset. cbv zeta.
  destruct (size file <=? 0); [intros H; injection H as <- <-; reflexivity |].
  destruct (_ <? size file); [intros H; injection H as <- <-; reflexivity |].
  destruct (resolveFormat options _) as [f |];
    [| intros H; injection H as <- <-; reflexivity].
  destruct (content file) as [data | e];
    [| intros H; injection H as <- <-; reflexivity].
  destruct (parser _).
  - destruct (parseWithJs data _) as [jr | e];
      [| intros H; injection H as <- <-; reflexivity].
    destruct (_ <? JsParsers.faceCount jr);
      intros H; injection H as <- <-; reflexivity.
  - cbn [parseMesh embindBridge].
    pose proof (EmbindBridgeProps.release_after_parse
                  decoder data
                  (sformat (determineParseStrategy data f
                              (default "unnamed.mesh" (name file)))) w Hr) as Hrel.
    destruct (EmbindBridge.parseMesh decoder data _ w) as [[p | e] w1] eqn:Hp.
    + destruct (embind_toMeshBuffers _ _ _ _ _ Hp) as (vs & ixs & ns & ->).
      destruct (_ <? EmbindBridge.indexCount p / 3).
      * unfold release. cbn [bridged released generation releaseBuffers embindBridge].
        intros H. injection H as <- <-. exact Hrel.
      * intros H. injection H as <- <-.
        cbn [buffers]. unfold release.
        cbn [bridged released generation releaseBuffers embindBridge snd].
        exact Hrel.
    + intros H. injection H as <- <-. cbn. rewrite Hrel. reflexivity.
Qed.

End Embind.

(** The first parse of the quad decoder. *)
Lemma embind_buffers_come_from_the_table_witness :
  exists p w1,
    EmbindBridge.parseMesh Examples.quad_decoder Examples.binary_ply ply_binary_le
      EmbindBridge.initial = (Normal p, w1) /\
    @toMeshBuffers _ (embindBridge Examples.quad_decoder) p w1 =
      Normal (mkMeshBuffers
                (map (fun z => Fin (inject_Z z)) [0; 0; 0; 1; 0; 0; 1; 1; 0; 0; 1; 0])
                [0; 1; 2; 0; 2; 3] None 1 false true).
Proof.
  eexists _, _. split; [reflexivity |].
  apply (proj1 (embind_buffers_come_from_the_table Examples.quad_decoder
                  Examples.binary_ply ply_binary_le EmbindBridge.initial _ _ eq_refl)).
Defined.

(** The binary PLY file, decoded by the foreign decoder and released. *)
Lemma embind_load_leaks_no_buffers_witness :
  exists r w',
    @loadMeshAsset _ (embindBridge Examples.quad_decoder)
       Examples.binary_ply_file Examples.default_options EmbindBridge.initial
      = (Normal r, w') /\
    match r with
    | error _ _ _ =>
        EmbindBridge.pendingBuffersMap w' = EmbindBridge.pendingBuffersMap EmbindBridge.initial
    | success asset _ _ =>
        EmbindBridge.pendingBuffersMap
          (snd (@release _ (embindBridge Examples.quad_decoder) (buffers asset) w')) =
        EmbindBridge.pendingBuffersMap EmbindBridge.initial
    end.
Proof.
  destruct (@loadMeshAsset _ (embindBridge Examples.quad_decoder)
              Examples.binary_ply_file Examples.default_options EmbindBridge.initial)
    as [[r | e] w'] eqn:E; [| vm_compute in E; discriminate E].
  exists r, w'. split; [reflexivity |].
  exact (embind_load_leaks_no_buffers Examples.quad_decoder Examples.binary_ply_file
           Examples.default_options EmbindBridge.initial w' r
           EmbindBridge.reach_initial E).
Defined.

End MeshLoaderProps.

(* ===================================================================== *)
(** * Properties of the watchdog timer                                    *)
(* ===================================================================== *)

Module WatchdogProps.
Import Js SharedBufferTimeout.

Section Props.

Context {U : Type}.



End Props.



End WatchdogProps.

(* ===================================================================== *)
(** * Properties of the log buffer                                        *)
(* ===================================================================== *)

Module LogEmitterProps.
Import Types LogEmitterM.

Lemma last_tail {A : Type} (l : list A) (d : A) :
  (2 <= length l)%nat -> List.last (tail l) d = List.last l d.
Proof.
  destruct l as [| a [| b l]]; simpl; intros H; try lia. reflexivity.
Qed.

Lemma push_bounded_last (buf : list LogEvent) (ev d : LogEvent) :
  List.last (push_bounded buf ev) d = ev.
Proof.
  unfold push_bounded.
  destruct (maxBufferSize <? length (buf ++ [ev]))%nat eqn:E.
  - apply Nat.ltb_lt in E. unfold maxBufferSize in E.
    rewrite last_tail by lia. apply last_last.
  - apply last_last.
Qed.

Lemma getLogs_emit_last (ev d : LogEvent) (e : LogEmitter) :
  List.last (getLogs (emit ev e)) d = ev.
Proof. apply push_bounded_last. Qed.

(** X19: Whatever the emitter has been through, after clear() the buffer holds
    exactly the events emitted since, without the oldest ones once there
    are more than 1000; clear() itself changes neither the subscribers nor
    what was delivered to them.  The event emitted last is always the last
    entry of the buffer, also when the buffer is full. *)
Theorem clear_restarts_the_buffer (e : LogEmitter) (events : list LogEvent) :
  getLogs (clear e) = [] /\
  subscribers (clear e) = subscribers e /\
  delivered (clear e) = delivered e /\
  getLogs (emit_all events (clear e)) = skipn (length events - 1000) events /\
  forall ev d, List.last (getLogs (emit_all (events ++ [ev]) e)) d = ev.
Proof.
  split; [reflexivity | split; [reflexivity | split; [reflexivity | split]]].
  - unfold getLogs.
    rewrite (LogEmitterFacts.emit_all_logs events [] (clear e) eq_refl).
    reflexivity.
  - intros ev d. unfold emit_all. rewrite fold_left_app. cbn [fold_left].
    apply getLogs_emit_last.
Qed.

End LogEmitterProps.

(* ===================================================================== *)
(** * Properties of MeshCoreAdapter.load                                  *)
(* ===================================================================== *)

Module AdapterProps.
Import Js Types Adapter.

Section AnyDecoder.

Variable decode :
  File -> MeshFormat -> ParserMode -> SharedBufferTimeout.Operation MeshLoader.MeshAsset.

Lemma exactFallback_shape file data format metrics st :
  let '(r, metrics', st') := exactFallback decode file data format metrics st in
  invoked st' = invoked st ++ [exact] /\
  pf_parserMode r = exact /\ fallbackOccurred r = true /\
  metrics' = recordFallback metrics.
Proof.
  unfold exactFallback.
  set (st1 := emitLog DEBUG _ _ None st).
  pose proof (AdapterFacts.parseWithMode_outcome decode file data format exact st1)
    as [_ Hinv].
  destruct (parseWithMode decode file data format exact st1) as [[asset | e] st2];
    simpl in Hinv |- *; rewrite Hinv; auto.
Qed.

(** The two shapes of a parseFile run: the fast decode alone, or the fast
    decode followed by the exact one. *)
Lemma parseFile_cases file format options metrics st :
  let '(r, metrics', st') := parseFile decode file format options metrics st in
  (invoked st' = invoked st ++ [fast] /\
   pf_parserMode r = fast /\ fallbackOccurred r = false /\ metrics' = metrics /\
   (pf_success r = false -> enableFallback options = Some false)) \/
  (invoked st' = invoked st ++ [fast; exact] /\
   pf_parserMode r = exact /\ fallbackOccurred r = true /\
   metrics' = recordFallback metrics /\
   enableFallback options <> Some false).
Proof.
  unfold parseFile. cbv zeta.
  set (st0 := emitLog DEBUG _ _ None st).
  pose proof (AdapterFacts.parseWithMode_outcome decode file (file_bytes file) format
                fast st0) as [_ Hinv].
  destruct (parseWithMode decode file (file_bytes file) format fast st0) as [c st1].
  simpl in Hinv.
  assert (Hfb : forall st2, invoked st2 = invoked st ++ [fast] ->
            enableFallback options <> Some false ->
            let '(r, metrics', st') :=
              exactFallback decode file (file_bytes file) format metrics st2 in
            invoked st' = invoked st ++ [fast; exact] /\
            pf_parserMode r = exact /\ fallbackOccurred r = true /\
            metrics' = recordFallback metrics /\
            enableFallback options <> Some false).
  { intros st2 H2 Hen.
    pose proof (exactFallback_shape file (file_bytes file) format metrics st2) as H.
    destruct (exactFallback _ _ _ _ _ _) as [[r m'] st'].
    destruct H as (Hi & Hp & Hf & Hm). rewrite Hi, H2, <- app_assoc. auto. }
  destruct (enableFallback options) as [[|] |] eqn:Hen; cbn [negb];
    destruct c as [asset | e];
    try destruct (valid (validateParsedMesh asset)) eqn:Hv;
    try (left; cbn; repeat split; auto; discriminate).
  all: match goal with
       | |- context [exactFallback _ _ _ _ _ ?s] =>
           specialize (Hfb s Hinv ltac:(discriminate));
           destruct (exactFallback _ _ _ _ _ s) as [[r m'] st']; right; exact Hfb
       end.
Qed.

(** X20: The decode budget of a load, and what the metrics say about it.  A
    load runs no decode at all (and then fails), or the fast decode alone,
    or the fast decode followed by the exact one, in this order and never
    more; the reported parser mode is exact and the fallback count is one
    exactly in the last case, and fast and zero otherwise. *)
Theorem load_metrics_reflect_decodes (file : File) (options : MeshLoadOptions)
    (st : AdapterState) :
  let '(r, st') := load decode file options st in
  let m := metrics_of r in
  (invoked st' = invoked st /\ is_success r = false /\
   MeshLoader.parserMode m = fast /\ MeshLoader.fallbackCount m = 0) \/
  (invoked st' = invoked st ++ [fast] /\
   MeshLoader.parserMode m = fast /\ MeshLoader.fallbackCount m = 0) \/
  (invoked st' = invoked st ++ [fast; exact] /\
   MeshLoader.parserMode m = exact /\ MeshLoader.fallbackCount m = 1 /\
   enableFallback options <> Some false).
Proof.
  unfold load. cbv zeta.
  destruct (file_size file =? 0); [left; cbn; auto |].
  destruct (MAX_MESH_FILE_BYTES <? file_size file); [left; cbn; auto |].
  destruct (FormatDetector.format (FormatDetector.detectMeshFormat file)) as [f |];
    [| left; destruct (FormatDetector.mismatch _); cbn; auto].
  match goal with
  | |- context [parseFile decode file f options ?m0 ?s0] =>
      pose proof (parseFile_cases file f options m0 s0) as H;
      assert (Hs0 : invoked s0 = invoked st)
        by (destruct (FormatDetector.mismatch _); reflexivity);
      destruct (parseFile decode file f options m0 s0) as [[r m'] st']
  end.
  rewrite Hs0 in H. cbv beta iota.
  destruct H as [(Hi & Hp & Hf & -> & _) | (Hi & Hp & Hf & -> & Hen)].
  - rewrite Hp, Hf.
    destruct (pf_success r); destruct (pf_asset r) as [a |];
      try destruct (MeshLoader.stats a) as [s |];
      try destruct (MAX_TRIANGLE_COUNT <? MeshLoader.triangles s);
      cbn; right; left; auto.
  - rewrite Hp, Hf.
    destruct (pf_success r); destruct (pf_asset r) as [a |];
      try destruct (MeshLoader.stats a) as [s |];
      try destruct (MAX_TRIANGLE_COUNT <? MeshLoader.triangles s);
      cbn; right; right; auto.
Qed.

(** X21: A file that is empty, larger than the size limit, or of a format that
    cannot be detected is rejected before any decode runs: the result is
    an error with the matching code and zero counts, and the last entry of
    the returned log is that error. *)
Theorem load_rejects_before_decoding (file : File) (options : MeshLoadOptions)
    (st : AdapterState) :
  file_size file = 0 \/ MAX_MESH_FILE_BYTES < file_size file \/
  FormatDetector.format (FormatDetector.detectMeshFormat file) = None ->
  exists err m logs st',
    load decode file options st = (MeshLoader.error err m logs, st') /\
    invoked st' = invoked st /\
    MeshLoader.code err =
      (if file_size file =? 0 then E_EMPTY_FILE
       else if MAX_MESH_FILE_BYTES <? file_size file then E_FILE_TOO_LARGE
       else E_UNSUPPORTED_FORMAT) /\
    MeshLoader.vertexCount m = 0 /\ MeshLoader.triangleCount m = 0 /\
    List.last logs (mkLogEvent DEBUG "" None None) =
      mkLogEvent ERROR (MeshLoader.emessage err)
        (Some (if MeshLoader.code err is E_UNSUPPORTED_FORMAT
               then "detect_format" else "load_validate"))
        (Some (MeshLoader.code err)).
Proof.
  intros H. unfold load. cbv zeta.
  destruct (file_size file =? 0) eqn:E1.
  { eexists _, _, _, _. split; [reflexivity |]. cbn.
    repeat split. apply LogEmitterProps.push_bounded_last. }
  destruct (MAX_MESH_FILE_BYTES <? file_size file) eqn:E2.
  { eexists _, _, _, _. split; [reflexivity |]. cbn.
    repeat split. apply LogEmitterProps.push_bounded_last. }
  destruct (FormatDetector.format (FormatDetector.detectMeshFormat file)) as [f |] eqn:E3.
  { exfalso. destruct H as [H | [H | H]]; try discriminate; lia. }
  eexists _, _, _, _. split; [reflexivity |].
  destruct (FormatDetector.mismatch _); cbn; repeat split;
    apply LogEmitterProps.push_bounded_last.
Qed.

(** X22: With enableFallback set to false the exact decode is never run: the
    fast decode is called once, nothing is recorded in the metrics, and a
    fast attempt that throws or fails the structural check is reported as
    a failure in fast mode, with the thrown message itself or with the
    reason of the check. *)
Theorem fallback_disabled_runs_fast_only (file : File) (format : MeshFormat)
    (options : MeshLoadOptions) (metrics : MetricsCollector) (st : AdapterState) :
  enableFallback options = Some false ->
  let '(r, metrics', st') := parseFile decode file format options metrics st in
  invoked st' = invoked st ++ [fast] /\ metrics' = metrics /\
  pf_parserMode r = fast /\ fallbackOccurred r = false /\
  match outcome_of (decode file format fast) with
  | Throw e => pf_success r = false /\ pf_asset r = None /\ pf_error r = Some e
  | Normal asset =>
      if valid (validateParsedMesh asset)
      then pf_success r = true /\ pf_asset r = Some asset /\ pf_error r = None
      else pf_success r = false /\ pf_asset r = None /\
           pf_error r = Some ("Fast mode validation failed: " +:+
                                reason (validateParsedMesh asset))
  end.
Proof.
  intros Hen. unfold parseFile. cbv zeta. rewrite Hen. cbn [negb].
  set (st0 := emitLog DEBUG _ _ None st).
  pose proof (AdapterFacts.parseWithMode_outcome decode file (file_bytes file) format
                fast st0) as [Hout Hinv].
  destruct (parseWithMode decode file (file_bytes file) format fast st0) as [c st1].
  simpl in Hout, Hinv. rewrite <- Hout.
  destruct c as [asset | e]; [destruct (valid (validateParsedMesh asset)) |];
    cbn; auto 10.
Qed.

End AnyDecoder.

(** An empty file, with a decoder that would throw. *)
Lemma load_rejects_before_decoding_witness :
  exists err m logs st',
    load Examples.failing_decode Examples.empty_stl_file Examples.fallback_default initial
      = (MeshLoader.error err m logs, st') /\
    invoked st' = invoked initial /\
    MeshLoader.code err = E_EMPTY_FILE.
Proof.
  destruct (load_rejects_before_decoding Examples.failing_decode Examples.empty_stl_file
              Examples.fallback_default initial (or_introl eq_refl))
    as (err & m & logs & st' & Hl & Hi & Hc & _).
  exists err, m, logs, st'. auto.
Defined.

(** A decoder whose fast tier throws, with fallback switched off. *)
Lemma fallback_disabled_runs_fast_only_witness :
  let '(r, metrics', st') :=
    parseFile Examples.failing_decode Examples.small_obj_file obj Examples.fallback_off
      new_MetricsCollector initial in
  invoked st' = invoked initial ++ [fast] /\ metrics' = new_MetricsCollector /\
  pf_parserMode r = fast /\ fallbackOccurred r = false /\
  match outcome_of (Examples.failing_decode Examples.small_obj_file obj fast) with
  | Throw e => pf_success r = false /\ pf_asset r = None /\ pf_error r = Some e
  | Normal asset =>
      if valid (validateParsedMesh asset)
      then pf_success r = true /\ pf_asset r = Some asset /\ pf_error r = None
      else pf_success r = false /\ pf_asset r = None /\
           pf_error r = Some ("Fast mode validation failed: " +:+
                                reason (validateParsedMesh asset))
  end.
Proof.
  apply (fallback_disabled_runs_fast_only Examples.failing_decode Examples.small_obj_file
           obj Examples.fallback_off new_MetricsCollector initial).
  reflexivity.
Defined.

(** X23: The adapter as it ships.  The decode wired into parseWithMode builds
    an asset over empty buffers, so for every non-empty file within the
    size limit whose format is detected, the fast attempt fails the
    structural check (no vertices).  With fallback enabled the exact
    attempt, which is not checked, is returned: the load succeeds with an
    empty mesh, reported as exact mode with one fallback.  With fallback
    disabled the load fails with E_PARSE_FAILED. *)
Theorem shipped_adapter_yields_empty_mesh (file : File) (options : MeshLoadOptions)
    (st : AdapterState) (f : MeshFormat) :
  file_size file <> 0 ->
  file_size file <= MAX_MESH_FILE_BYTES ->
  FormatDetector.format (FormatDetector.detectMeshFormat file) = Some f ->
  exists r st', load placeholder_decode file options st = (r, st') /\
  match enableFallback options with
  | Some false =>
      exists m logs,
        r = MeshLoader.error
              (MeshLoader.mkAdapterError E_PARSE_FAILED
                 "Failed to parse mesh: Fast mode validation failed: No vertices found")
              m logs /\
        invoked st' = invoked st ++ [fast]
  | _ =>
      exists asset m logs,
        r = MeshLoader.success asset m logs /\
        MeshLoader.vertexView (MeshLoader.buffers asset) = [] /\
        MeshLoader.indexView (MeshLoader.buffers asset) = [] /\
        MeshLoader.format asset = f /\
        MeshLoader.parserMode m = exact /\ MeshLoader.fallbackCount m = 1 /\
        MeshLoader.vertexCount m = 0 /\ MeshLoader.triangleCount m = 0 /\
        MeshLoader.bytesRead m = file_size file /\
        invoked st' = invoked st ++ [fast; exact]
  end.
Proof.
  intros Hne Hle Hf.
  unfold load. cbv zeta.
  assert (E1 : (file_size file =? 0) = false) by lia.
  assert (E2 : (MAX_MESH_FILE_BYTES <? file_size file) = false) by lia.
  rewrite E1, E2, Hf.
  unfold parseFile, exactFallback, parseWithMode,
    SharedBufferTimeout.withSharedBufferTimeout, placeholder_decode.
  cbn [SharedBufferTimeout.waits SharedBufferTimeout.outcome fold_left].
  destruct (enableFallback options) as [[|] |];
    destruct (FormatDetector.mismatch (FormatDetector.detectMeshFormat file));
    cbn; eexists _, _; (split; [reflexivity |]);
    try (eexists _, _, _; split; [reflexivity |];
         cbn; rewrite <- ?app_assoc; repeat split; reflexivity);
    eexists _, _; split; reflexivity || (cbn; rewrite <- ?app_assoc; reflexivity).
Qed.

(** A one-triangle OBJ file, loaded with the default options. *)
Lemma shipped_adapter_yields_empty_mesh_witness :
  exists asset m logs st',
    load placeholder_decode Examples.small_obj_file Examples.fallback_default initial
      = (MeshLoader.success asset m logs, st') /\
    MeshLoader.vertexView (MeshLoader.buffers asset) = [] /\
    MeshLoader.parserMode m = exact /\ MeshLoader.fallbackCount m = 1 /\
    invoked st' = [fast; exact].
Proof.
  destruct (shipped_adapter_yields_empty_mesh Examples.small_obj_file
              Examples.fallback_default initial obj
              ltac:(vm_compute; discriminate) ltac:(vm_compute; discriminate)
              ltac:(vm_compute; reflexivity))
    as (r & st' & Hl & asset & m & logs & -> & Hv & _ & _ & Hp & Hf & _ & _ & _ & Hi).
  exists asset, m, logs, st'. auto.
Defined.

End AdapterProps.

(* ===================================================================== *)
(** * Properties of the clipping and slicing planes                       *)
(* ===================================================================== *)

Module ClippingProps.
Import Clipping.
Local Open Scope Q_scope.

(** X24: What the clipping plane measures: the signed distance of a point is
    its coordinate along the clipping axis minus the plane's coordinate,
    with the sign reversed when the plane is flipped.  The position the
    helper is drawn at (computePlanePosition) lies on the plane. *)
Theorem clipping_plane_measures_axis_offset (c : ClippingState) (bbox : BoundingBox)
    (p : Vector3) :
  distanceToPoint (computeClippingPlane c bbox) p ==
    (if flipped c
     then planePos c bbox - getAxisValue p (axis c)
     else getAxisValue p (axis c) - planePos c bbox) /\
  getAxisValue (computePlanePosition c bbox) (axis c) == planePos c bbox /\
  distanceToPoint (computeClippingPlane c bbox) (computePlanePosition c bbox) == 0.
Proof.
  unfold distanceToPoint, computeClippingPlane, computePlanePosition, planePos, dot,
    negate.
  destruct (axis c), (flipped c); simpl; repeat split; try reflexivity; ring.
Qed.

(** X26: The plane handed to sliceMesh against the plane handed to the
    renderer, for the same axis, box, flip and slider position (as the
    fraction position/100): the normals are the same, and the slicing
    distance is the plane's axis coordinate whether flipped or not, while
    the renderer's constant is minus that coordinate, or that coordinate
    itself when flipped. *)
Theorem slice_plane_against_clipping_plane (c : ClippingState) (bbox : BoundingBox) :
  let sp := computeSlicePlane (axis c) (position c / 100) (flipped c) bbox in
  let pl := computeClippingPlane c bbox in
  Vector3_eq (s_normal sp) (normal pl) /\
  distance sp == planePos c bbox /\
  constant pl == (if flipped c then distance sp else - distance sp).
Proof.
  cbv zeta.
  unfold computeSlicePlane, createAxisPlane, computeClippingPlane, planePos, Vector3_eq,
    negate.
  destruct (axis c), (flipped c); simpl; repeat split; try reflexivity; ring.
Qed.

End ClippingProps.

(* ===================================================================== *)
(** * Properties of sliceMesh                                             *)
(* ===================================================================== *)

Module SliceMeshProps.
Import Js Clipping SliceMesh.

Lemma live_blocks_app (t u : list ModuleCall) :
  live_blocks (t ++ u) = fold_left live_after u (live_blocks t).
Proof. unfold live_blocks. apply fold_left_app. Qed.

Lemma sliceMesh_try_trace module vs ixs vp vb ip ib plane t :
  exists body,
    snd (sliceMesh_try module vs ixs vp vb ip ib plane t) = t ++ body /\
    fold_left live_after body = (fun live => live) /\
    (filter is_slice_call body = [] \/
     filter is_slice_call body = [Slice vp vb ip ib plane]).
Proof.
  unfold sliceMesh_try.
  destruct (heapf64_set module t vp vs) as [[] | e].
  2:{ exists [SetF64 vp vs]. simpl. auto. }
  destruct (heapu32_set module _ ip ixs) as [[] | e].
  2:{ exists [SetF64 vp vs; SetU32 ip ixs]. simpl. rewrite <- app_assoc. auto. }
  exists [SetF64 vp vs; SetU32 ip ixs; Slice vp vb ip ib plane].
  split; [| simpl; auto].
  destruct (sliceMeshFromPointer module _ vp vb ip ib plane) as [r | e];
    [destruct (negb (w_success r)); [| destruct (w_faceCount r =? 0)] |];
    simpl; rewrite <- !app_assoc; reflexivity.
Qed.

(** X27: sliceMesh gives back what it takes.  An input without vertices or
    without indices is refused without a single call on the module.
    Otherwise two blocks are allocated, of 8 bytes per vertex coordinate
    and 4 bytes per index, and both are freed again on every path, also
    when a heap copy or the slicing call throws: the blocks left allocated
    after the call are those allocated before it.  The slicing function is
    called at most once, with the two pointers and the two byte lengths. *)
Theorem sliceMesh_frees_its_blocks (module : SliceMeshModule) (mesh : SliceMeshData)
    (plane : SlicePlane) (t : list ModuleCall) :
  let '(r, t') := sliceMesh module mesh plane t in
  live_blocks t' = live_blocks t /\
  if ((length (vertices mesh) =? 0) || (length (indices mesh) =? 0))%nat
  then t' = t /\ exists res, r = Normal res /\ success res = false
  else exists vp ip body,
    t' = t ++ [Malloc (8 * Z.of_nat (length (vertices mesh))) vp;
               Malloc (4 * Z.of_nat (length (indices mesh))) ip]
           ++ body ++ [Free vp; Free ip] /\
    (filter is_slice_call body = [] \/
     filter is_slice_call body =
       [Slice vp (8 * Z.of_nat (length (vertices mesh)))
              ip (4 * Z.of_nat (length (indices mesh))) plane]).
Proof.
  unfold sliceMesh.
  destruct (length (vertices mesh) =? 0)%nat; [simpl; eauto |].
  destruct (length (indices mesh) =? 0)%nat; [simpl; eauto |].
  cbv zeta. cbn [orb].
  set (vb := 8 * Z.of_nat (length (vertices mesh))).
  set (ib := 4 * Z.of_nat (length (indices mesh))).
  set (vp := malloc module t vb).
  set (ip := malloc module (t ++ [Malloc vb vp]) ib).
  destruct (sliceMesh_try_trace module (vertices mesh) (indices mesh) vp vb ip ib plane
              ((t ++ [Malloc vb vp]) ++ [Malloc ib ip])) as (body & Ht & Hlive & Hcalls).
  destruct (sliceMesh_try _ _ _ _ _ _ _ _ _) as [r t3]. simpl in Ht. subst t3.
  split.
  - rewrite !live_blocks_app, Hlive. cbn [fold_left live_after remove_one].
    destruct (ip =? vp) eqn:E.
    + apply Z.eqb_eq in E. rewrite E. cbn [remove_one]. rewrite Z.eqb_refl. reflexivity.
    + cbn [remove_one]. rewrite !Z.eqb_refl. reflexivity.
  - exists vp, ip, body. split; [| exact Hcalls].
    rewrite <- !app_assoc. reflexivity.
Qed.

(** X28: A slice reported as successful carries a mesh with at least one face,
    as counted by the module; every failure carries no mesh and a message,
    which is the module's own when the module reported the failure. *)
Theorem sliceMesh_success_has_faces (module : SliceMeshModule) (mesh : SliceMeshData)
    (plane : SlicePlane) (t : list ModuleCall) (res : SliceMeshResult) :
  fst (sliceMesh module mesh plane t) = Normal res ->
  if success res
  then exists m fc, SliceMesh.mesh res = Some m /\ faceCount m = Some fc /\ fc <> 0 /\
                    error res = None
  else SliceMesh.mesh res = None /\ exists msg, error res = Some msg.
Proof.
  unfold sliceMesh.
  destruct (length (vertices mesh) =? 0)%nat.
  { simpl. intros H. injection H as <-. simpl. eauto. }
  destruct (length (indices mesh) =? 0)%nat.
  { simpl. intros H. injection H as <-. simpl. eauto. }
  cbv zeta. unfold sliceMesh_try.
  destruct (heapf64_set _ _ _ _) as [[] | e]; [| discriminate].
  destruct (heapu32_set _ _ _ _) as [[] | e]; [| discriminate].
  destruct (sliceMeshFromPointer _ _ _ _ _ _ _) as [r | e]; [| discriminate].
  destruct (negb (w_success r)).
  { simpl. intros H. injection H as <-. simpl. eauto. }
  destruct (w_faceCount r =? 0) eqn:E.
  { simpl. intros H. injection H as <-. simpl. eauto. }
  simpl. intros H. injection H as <-. simpl.
  eexists _, _. repeat split. lia.
Qed.

(** One triangle, sliced by a module that answers with one triangle. *)
Lemma sliceMesh_success_has_faces_witness :
  exists res m,
    fst (sliceMesh Examples.one_triangle_module Examples.triangle_mesh Examples.y_plane [])
      = Normal res /\
    success res = true /\ SliceMesh.mesh res = Some m /\ faceCount m = Some 1.
Proof.
  destruct (fst (sliceMesh Examples.one_triangle_module Examples.triangle_mesh
                   Examples.y_plane [])) as [res | e] eqn:E;
    [| vm_compute in E; discriminate E].
  pose proof (sliceMesh_success_has_faces Examples.one_triangle_module
                Examples.triangle_mesh Examples.y_plane [] res E) as H.
  assert (Hs : success res = true) by (vm_compute in E; injection E as <-; reflexivity).
  rewrite Hs in H. destruct H as (m & fc & Hm & Hfc & _ & _).
  exists res, m. split; [reflexivity | split; [exact Hs | split; [exact Hm |]]].
  vm_compute in E. injection E as <-. simpl in Hm. injection Hm as <-. reflexivity.
Defined.

End SliceMeshProps.

(* ===================================================================== *)
(** * Properties of file names and file ids                               *)
(* ===================================================================== *)

Module FileIdProps.
Import Js FileId StringProps.

Lemma ToInt32_range (z : Z) : - 2 ^ 31 <= ToInt32 z < 2 ^ 31.
Proof.
  unfold ToInt32. pose proof (Z.mod_pos_bound (z + 2 ^ 31) (2 ^ 32) eq_refl). lia.
Qed.

Lemma ToInt32_mod (z : Z) : ToInt32 z mod 2 ^ 32 = z mod 2 ^ 32.
Proof.
  unfold ToInt32.
  rewrite Zminus_mod, Z.mod_mod by lia.
  rewrite <- Zminus_mod. f_equal. lia.
Qed.

Lemma ToInt32_congr (a b : Z) : a mod 2 ^ 32 = b mod 2 ^ 32 -> ToInt32 a = ToInt32 b.
Proof.
  intros H. unfold ToInt32.
  rewrite (Zplus_mod a), (Zplus_mod b), H. reflexivity.
Qed.

Lemma hash_step_spec (hash char : Z) :
  hash_step hash char = ToInt32 (31 * hash + char).
Proof.
  unfold hash_step, shl. cbv zeta. apply ToInt32_congr.
  rewrite Zplus_mod, Zminus_mod, ToInt32_mod, Z.shiftl_mul_pow2 by lia.
  rewrite Zmult_mod, ToInt32_mod, <- Zmult_mod, <- Zminus_mod, <- Zplus_mod.
  f_equal. change (2 ^ 5) with 32. lia.
Qed.

Lemma hashCode_from_spec (str : string) (h acc : Z) :
  h = ToInt32 acc -> hashCode_from h str = ToInt32 (base31_from acc str).
Proof.
  revert h acc. induction str as [| c r IH]; intros h acc Hh; [exact Hh |].
  cbn [hashCode_from base31_from]. apply IH.
  rewrite hash_step_spec, Hh. apply ToInt32_congr.
  rewrite Zplus_mod, Zmult_mod, ToInt32_mod, <- Zmult_mod, <- Zplus_mod. reflexivity.
Qed.

(** X29: The fallback hash is the 32-bit wrap of the string read in base 31
    (the hash of Java's String.hashCode): a signed 32-bit integer.  The
    variant of file-id.ts, which takes the absolute value, lies between 0
    and 2^31 inclusive. *)
Theorem hashCode_is_wrapped_base31 (str : string) :
  hashCode str = ToInt32 (base31 str) /\
  hashCode str mod 2 ^ 32 = base31 str mod 2 ^ 32 /\
  - 2 ^ 31 <= hashCode str < 2 ^ 31 /\
  0 <= hashCode_abs str <= 2 ^ 31.
Proof.
  assert (H : hashCode str = ToInt32 (base31 str)).
  { unfold hashCode, base31. apply hashCode_from_spec. reflexivity. }
  pose proof (ToInt32_range (base31 str)) as Hr.
  split; [exact H | split; [| split]].
  - rewrite H. apply ToInt32_mod.
  - rewrite H. exact Hr.
  - unfold hashCode_abs. rewrite H. lia.
Qed.






End FileIdProps.
